(** * azure-devops-exporter: the startup path of [main.go]

    A shallow embedding of [main.go]: argument processing
    ([initArgparser]), the construction of the Azure DevOps client
    ([initAzureDevOpsConnection]), the start of the metric collectors
    ([initMetricCollector]) and the HTTP multiplexer of
    [startHttpServer].

    The program is a sequence of steps over process-wide variables
    ([opts], [AzureDevopsClient]) that may end the process at any point
    ([os.Exit], [logger.Fatal], [panic]) and that, when nothing fails,
    ends in [ListenAndServe], which does not return while the server
    runs.  It is modelled in a small state-and-exit monad [Proc], whose
    runs return, exit with a status or keep serving; everything the
    process reads from the outside (the command line, files, the
    environment, the outcome of library calls) is a field of the record
    [World]. *)

From Stdlib Require Import ZArith QArith String Ascii List Bool Lia.
Import ListNotations.

Local Open Scope Z_scope.
Local Open Scope string_scope.
Local Open Scope list_scope.

(* ================================================================= *)
(** ** Durations *)

(** [time.Duration]: a count of nanoseconds (an [int64]). *)
Definition Duration : Type := Z.

Definition Second : Duration := 1000000000.

(** [func (d Duration) Seconds() float64]:
    [sec := d / Second; nsec := d % Second;
     return float64(sec) + float64(nsec)/1e9].
    Go's [/] and [%] on integers truncate toward zero ([Z.quot],
    [Z.rem]).  The sum is taken here in the rationals; the only use the
    program makes of it is the comparison with zero, which rounding to
    [float64] preserves (both summands carry the sign of [d], and a
    nonzero [nsec/1e9] is at least [1e-9]). *)
Definition Seconds (d : Duration) : Q :=
  (inject_Z (Z.quot d Second) + inject_Z (Z.rem d Second) / inject_Z 1000000000)%Q.

(** [x > 0] on the value of [Seconds]. *)
Definition Qpositive (x : Q) : bool := (0 <? Qnum x)%Z.

(** A [*time.Duration] as [main.go] meets it: [nil], a value stored by
    the flag parser, or the address of [opts.Scrape.Time]. *)
Inductive DurationPtr : Type :=
| PtrNil
| PtrFlag (d : Duration)
| PtrScrapeTime.

Definition isNil (p : DurationPtr) : bool :=
  match p with PtrNil => true | _ => false end.

(* ================================================================= *)
(** ** Configuration *)

(** Modelled from the spec: the declaration of [config.Opts] (package
    [config] of this repository, absent from the sources).  The records
    below hold the fields that [main.go] reads or writes, with the
    types its uses fix: a field compared with [nil] is a pointer
    ([option], [DurationPtr]), a field compared with [""] or measured
    with [len] is a string. *)
Record OptsAzureDevops : Type := mkOptsAzureDevops {
  Url : option string;
  AccessToken : string;
  AccessTokenFile : option string;
  Organisation : string;
  ApiVersion : string;
  (* a nil slice and an empty one behave alike in [initArgparser]:
     the loop over it has no iteration *)
  QueriesWithProjects : list string
}.

Record OptsAzure : Type := mkOptsAzure {
  TenantId : string;
  ClientId : string;
  ClientSecret : string
}.

Record OptsScrape : Type := mkOptsScrape {
  Time : Duration;
  TimeProjects : DurationPtr;
  TimeRepository : DurationPtr;
  TimePullRequest : DurationPtr;
  TimeBuild : DurationPtr;
  TimeRelease : DurationPtr;
  TimeDeployment : DurationPtr;
  TimeStats : DurationPtr;
  TimeResourceUsage : DurationPtr;
  TimeQuery : DurationPtr;
  TimeAgentPools : DurationPtr
}.

Record OptsStats : Type := mkOptsStats {
  SummaryMaxAge : DurationPtr
}.

Record OptsRequest : Type := mkOptsRequest {
  ConcurrencyLimit : Z;
  Retries : Z
}.

Record OptsLimit : Type := mkOptsLimit {
  Project : Z;
  BuildsPerProject : Z;
  BuildsPerDefinition : Z;
  ReleasesPerDefinition : Z;
  DeploymentPerDefinition : Z;
  ReleaseDefinitionsPerProject : Z;
  ReleasesPerProject : Z
}.

Record OptsServer : Type := mkOptsServer {
  Bind : string;
  ReadTimeout : Duration;
  WriteTimeout : Duration
}.

Record Opts : Type := mkOpts {
  AzureDevops : OptsAzureDevops;
  Azure : OptsAzure;
  Scrape : OptsScrape;
  Stats : OptsStats;
  Request : OptsRequest;
  Limit : OptsLimit;
  Server : OptsServer
}.

(** The value a [*time.Duration] of [opts] points to. *)
Definition deref (o : Opts) (p : DurationPtr) : option Duration :=
  match p with
  | PtrNil => None
  | PtrFlag d => Some d
  | PtrScrapeTime => Some (Time (Scrape o))
  end.

(** [opts.AzureDevops.AccessToken = tok]. *)
Definition setAccessToken (tok : string) (o : Opts) : Opts :=
  let a := AzureDevops o in
  mkOpts
    (mkOptsAzureDevops (Url a) tok (AccessTokenFile a) (Organisation a)
       (ApiVersion a) (QueriesWithProjects a))
    (Azure o) (Scrape o) (Stats o) (Request o) (Limit o) (Server o).

(** [if p == nil { p = &opts.Scrape.Time }]. *)
Definition orScrapeTime (p : DurationPtr) : DurationPtr :=
  if isNil p then PtrScrapeTime else p.

(** Lines 104-147 of [initArgparser]: "use default scrape time if
    null".  Each [if] assigns one field of its own, so the eleven
    assignments are one record; [Stats.SummaryMaxAge] (line 137) copies
    the pointer held by [Scrape.TimeStats] after line 129 has run. *)
Definition useDefaultScrapeTime (o : Opts) : Opts :=
  let s := Scrape o in
  mkOpts (AzureDevops o) (Azure o)
    (mkOptsScrape (Time s)
       (orScrapeTime (TimeProjects s))
       (orScrapeTime (TimeRepository s))
       (orScrapeTime (TimePullRequest s))
       (orScrapeTime (TimeBuild s))
       (orScrapeTime (TimeRelease s))
       (orScrapeTime (TimeDeployment s))
       (orScrapeTime (TimeStats s))
       (orScrapeTime (TimeResourceUsage s))
       (orScrapeTime (TimeQuery s))
       (orScrapeTime (TimeAgentPools s)))
    (mkOptsStats
       (if isNil (SummaryMaxAge (Stats o))
        then orScrapeTime (TimeStats s)
        else SummaryMaxAge (Stats o)))
    (Request o) (Limit o) (Server o).

(* ================================================================= *)
(** ** The client and the collectors *)

Inductive AuthMode : Type :=
| AuthUnset
| AuthAccessToken (token : string)
| AuthAzure.

(** Modelled from the spec: [AzureDevopsClient] of package
    [azure-devops-client] (this repository, absent from the sources).
    One field per setter or assignment of [initAzureDevOpsConnection];
    [auth] is the mode the spec's Auth paragraph names: a static token
    ([SetAccessToken]) or service-principal token acquisition
    ([UseAzAuth]).  [HostUrl = None] stands for the constructor's
    default. *)
Record Client : Type := mkClient {
  HostUrl : option string;
  organization : string;
  auth : AuthMode;
  apiVersion : string;
  concurrency : Z;
  retries : Z;
  userAgent : string;
  LimitProject : Z;
  LimitBuildsPerProject : Z;
  LimitBuildsPerDefinition : Z;
  LimitReleasesPerDefinition : Z;
  LimitDeploymentPerDefinition : Z;
  LimitReleaseDefinitionsPerProject : Z;
  LimitReleasesPerProject : Z
}.

(** The implementations of [collector.ProcessorInterface] named in
    [initMetricCollector]. *)
Inductive Processor : Type :=
| MetricsCollectorProject
| MetricsCollectorAgentPool
| MetricsCollectorLatestBuild
| MetricsCollectorRepository
| MetricsCollectorPullRequest
| MetricsCollectorBuild
| MetricsCollectorRelease
| MetricsCollectorDeployment
| MetricsCollectorStats
| MetricsCollectorResourceUsage
| MetricsCollectorQuery.

(** What [opts.GetCachePath] and [collector.BuildCacheTag] return; the
    program only passes these values on to [SetCache]. *)
Definition CachePath : Type := option string.
Definition CacheTag : Type := string.

(** A [collector.Collector] of go-common as [startCollector] configures
    it: [New] fixes the name and the processor, [SetScapeTime] the
    interval of its timer, [SetCache] the cache file and its tag. *)
Record Collector : Type := mkCollector {
  Name : string;
  processor : Processor;
  scrapeTime : option Duration;
  cache : option (CachePath * CacheTag)
}.

Definition New (collectorName : string) (p : Processor) : Collector :=
  mkCollector collectorName p None None.

Definition SetScapeTime (d : Duration) (c : Collector) : Collector :=
  mkCollector (Name c) (processor c) (Some d) (cache c).

Definition SetCache (path : CachePath) (tag : CacheTag) (c : Collector) : Collector :=
  mkCollector (Name c) (processor c) (scrapeTime c) (Some (path, tag)).

(* ================================================================= *)
(** ** The outside world *)

(** [flags.ErrorType]: [ErrHelp], or any other type of error. *)
Inductive ErrorType : Type :=
| ErrHelp
| ErrOtherType (n : nat).

(** The error [argparser.Parse] returns: a [*flags.Error] (the case
    [errors.As] recognises) or an error of another type. *)
Inductive ParseError : Type :=
| FlagsError (t : ErrorType)
| ForeignError.

Inductive ParseOutcome : Type :=
| Parsed (o : Opts)
| ParseFailed (err : ParseError).

(** Everything [main.go] obtains from outside itself.  The functions of
    libraries and of the packages of this repository that are absent
    from the sources are fields too, so that every statement below
    holds whatever they compute. *)
Record World : Type := mkWorld {
  (* [argparser.Parse()], which fills [opts] from the command line and
     the environment *)
  Parse : ParseOutcome;
  (* [os.ReadFile]: [None] is an error *)
  ReadFile : string -> option string;
  (* [os.Getenv] *)
  Getenv : string -> string;
  (* [os.Setenv key value] returns an error *)
  SetenvFails : string -> string -> bool;
  (* [strings.TrimSpace] *)
  TrimSpace : string -> string;
  (* [AzureDevopsClient.UseAzAuth()]: [Some msg] is an error *)
  UseAzAuth : option string;
  (* [AzureDevopsServiceDiscovery.Update()] and its constructor:
     [Some code] when they end the process *)
  ServiceDiscoveryExit : option Z;
  (* [opts.GetCachePath(cacheFileName)] *)
  GetCachePath : Opts -> string -> CachePath;
  (* [collector.BuildCacheTag(cacheTag, opts.AzureDevops)] *)
  BuildCacheTag : string -> OptsAzureDevops -> CacheTag;
  (* [c.Start()]: [Some msg] is an error *)
  Start : Collector -> option string;
  (* the body [promhttp.Handler()] renders from the started collectors *)
  MetricsText : list Collector -> string;
  (* [srv.ListenAndServe()]: [Some msg] when it returns, which it does
     with an error only; [None] when the server keeps serving *)
  ServerError : option string
}.

(* ================================================================= *)
(** ** Observable steps *)

Inductive LogArg : Type :=
| ArgString (s : string)
| ArgInt (z : Z)
| ArgError
| ArgRuntimeVersion
| ArgJson (o : Opts).

Inductive Level : Type := InfoLevel | ErrorLevel | FatalLevel.

Inductive Event : Type :=
(* [fmt.Println(operands...)] *)
| Println (operands : list string)
(* [argparser.WriteHelp(os.Stdout)] *)
| WriteHelp
(* a line of the logger: level, structured fields, template, arguments *)
| Log (l : Level) (fields : list (string * string)) (template : string) (args : list LogArg)
(* [os.Setenv] *)
| Setenv (key value : string)
(* [NewAzureDevopsServiceDiscovery()] and [Update()] *)
| ServiceDiscoveryUpdate
(* [srv.ListenAndServe()] *)
| ListenAndServe (addr : string) (readTimeout writeTimeout : Duration).

(* ================================================================= *)
(** ** The process monad *)

(** The package-level variables of [main.go] and what the process has
    done so far: [opts], [AzureDevopsClient] ([None] is [nil]), the
    collectors started, and the steps observed, oldest first. *)
Record State : Type := mkState {
  opts : Opts;
  AzureDevopsClient : option Client;
  started : list Collector;
  out : list Event
}.

(** How a run of steps ends: the steps return ([Continue]), the process
    is over with a status ([Exit]), or the process is blocked in
    [ListenAndServe], serving requests for as long as it lives
    ([Serves]); nothing runs after the last two. *)
Inductive Result (A : Type) : Type :=
| Continue (a : A)
| Exit (code : Z)
| Serves.

Arguments Continue {A} a.
Arguments Exit {A} code.
Arguments Serves {A}.

Definition Proc (A : Type) : Type := State -> Result A * State.

Definition ret {A : Type} (a : A) : Proc A := fun s => (Continue a, s).

Definition bind {A B : Type} (m : Proc A) (k : A -> Proc B) : Proc B :=
  fun s =>
    match m s with
    | (Continue a, s') => k a s'
    | (Exit code, s') => (Exit code, s')
    | (Serves, s') => (Serves, s')
    end.

Declare Scope proc_scope.
Delimit Scope proc_scope with proc.

Notation "x <- m ;; k" := (bind m (fun x => k))
  (at level 61, m at next level, right associativity) : proc_scope.
Notation "m ;; k" := (bind m (fun _ => k))
  (at level 61, right associativity) : proc_scope.

Local Open Scope proc_scope.

Definition getOpts : Proc Opts := fun s => (Continue (opts s), s).

Definition putOpts (o : Opts) : Proc unit :=
  fun s => (Continue tt, mkState o (AzureDevopsClient s) (started s) (out s)).

Definition putClient (c : Client) : Proc unit :=
  fun s => (Continue tt, mkState (opts s) (Some c) (started s) (out s)).

Definition register (c : Collector) : Proc unit :=
  fun s => (Continue tt, mkState (opts s) (AzureDevopsClient s) (started s ++ [c]) (out s)).

Definition emit (e : Event) : Proc unit :=
  fun s => (Continue tt, mkState (opts s) (AzureDevopsClient s) (started s) (out s ++ [e])).

(** [os.Exit(code)]. *)
Definition os_Exit {A : Type} (code : Z) : Proc A := fun s => (Exit code, s).

(** [panic(v)]: the Go runtime ends the process with status 2. *)
Definition panic {A : Type} : Proc A := os_Exit 2.

(** Modelled from the spec: [logger] (declared and initialised outside
    the sources) is a zap sugared logger.  [Info] writes a line;
    [Fatal] writes a line and ends the process with status 1, the
    "non-zero status" of the spec's exit codes. *)
Definition Infof (template : string) (args : list LogArg) : Proc unit :=
  emit (Log InfoLevel [] template args).

Definition Fatalf {A : Type} (template : string) (args : list LogArg) : Proc A :=
  emit (Log FatalLevel [] template args) ;; os_Exit 1.

(** [logger.Info(args...)] and [logger.Fatal(args...)]: no template. *)
Definition Info (args : list LogArg) : Proc unit :=
  emit (Log InfoLevel [] "" args).

Definition Fatal {A : Type} (args : list LogArg) : Proc A :=
  emit (Log FatalLevel [] "" args) ;; os_Exit 1.

(** A double quote, for the templates that contain one. *)
Definition dquote : string := String (ascii_of_nat 34) EmptyString.

(* ================================================================= *)
(** ** [initArgparser] *)

(** [len(s) == 0]. *)
Definition lenIsZero (s : string) : bool := Nat.eqb (String.length s) 0.

(** [s != ""], the comparison with the empty string. *)
Definition nonEmpty (s : string) : bool := negb (String.eqb s "").

(** [errors.As(err, &flagsErr) && flagsErr.Type == flags.ErrHelp]. *)
Definition isErrHelp (err : ParseError) : bool :=
  match err with
  | FlagsError ErrHelp => true
  | _ => false
  end.

(** Lines 60-73: parse the arguments; on an error leave with status 0
    (help) or print the help and leave with status 1. *)
Definition parseArguments (w : World) : Proc unit :=
  match Parse w with
  | Parsed o => putOpts o
  | ParseFailed err =>
      if isErrHelp err then os_Exit 0
      else emit (Println []) ;; emit WriteHelp ;; os_Exit 1
  end.

(** Lines 75-84: load the access token from a file. *)
Definition loadAccessTokenFile (w : World) : Proc unit :=
  o <- getOpts ;;
  match AccessTokenFile (AzureDevops o) with
  | Some file =>
      if (0 <? String.length file)%nat then
        Infof ("reading access token from file " ++ dquote ++ "%s" ++ dquote)
          [ArgString file] ;;
        match ReadFile w file with
        | Some val => putOpts (setAccessToken (TrimSpace w val) o)
        | None =>
            Fatalf ("unable to read access token file " ++ dquote ++ "%s" ++ dquote ++ ": %v")
              [ArgString file; ArgError]
        end
      else ret tt
  | None => ret tt
  end.

(** The condition of line 86. *)
Definition credentialsMissing (o : Opts) : bool :=
  lenIsZero (AccessToken (AzureDevops o))
  && (lenIsZero (TenantId (Azure o)) || lenIsZero (ClientId (Azure o))).

(** Lines 86-88. *)
Definition checkCredentials : Proc unit :=
  o <- getOpts ;;
  if credentialsMissing o then
    Fatalf "neither an Azure DevOps PAT token nor client credentials (tenant ID, client ID) for service principal authentication have been provided" []
  else ret tt.

(** [strings.Count(s, substr)] for a [substr] of one byte [c], the only
    case in [main.go]: the number of bytes of [s] equal to [c]. *)
Fixpoint Count (s : string) (c : ascii) : nat :=
  match s with
  | EmptyString => 0%nat
  | String a rest => ((if Ascii.eqb a c then 1 else 0) + Count rest c)%nat
  end.

Definition at_sign : ascii := ascii_of_nat 64.

(** [strings.Count(query, "@") != 1]. *)
Definition malformedQuery (query : string) : bool :=
  negb (Nat.eqb (Count query at_sign) 1).

Definition malformedQueryMessage (query : string) : Event :=
  Println ["Query path '"; query;
           "' is malformed; should be '<query UUID>@<project UUID>'"].

(** Lines 93-98: the loop over the queries, [queryError] threaded
    through it. *)
Fixpoint checkQueryLoop (queries : list string) (queryError : bool) : Proc bool :=
  match queries with
  | [] => ret queryError
  | query :: rest =>
      if malformedQuery query then
        emit (malformedQueryMessage query) ;; checkQueryLoop rest true
      else checkQueryLoop rest queryError
  end.

(** Lines 90-102. *)
Definition checkQueries : Proc unit :=
  o <- getOpts ;;
  queryError <- checkQueryLoop (QueriesWithProjects (AzureDevops o)) false ;;
  if queryError then os_Exit 1 else ret tt.

(** Lines 104-147. *)
Definition applyDefaultScrapeTime : Proc unit :=
  o <- getOpts ;;
  putOpts (useDefaultScrapeTime o).

(** Lines 149-151. *)
Definition checkDeprecatedEnv (w : World) : Proc unit :=
  if nonEmpty (Getenv w "AZURE_DEVOPS_FILTER_AGENTPOOL") then
    Fatal [ArgString "deprecated env var AZURE_DEVOPS_FILTER_AGENTPOOL detected, please use AZURE_DEVOPS_AGENTPOOL"]
  else ret tt.

(** [func initArgparser()]: the blocks above, in the order of the
    source. *)
Definition initArgparser (w : World) : Proc unit :=
  parseArguments w ;;
  loadAccessTokenFile w ;;
  checkCredentials ;;
  checkQueries ;;
  applyDefaultScrapeTime ;;
  checkDeprecatedEnv w.

(* ================================================================= *)
(** ** [initAzureDevOpsConnection] *)

Definition Author : string := "webdevops.io".
Definition cacheTag : string := "v1".
Definition gitCommit : string := "<unknown>".
Definition gitTag : string := "<unknown>".

(** Lines 167-183: [if value != "" { if err := os.Setenv(key, value);
    err != nil { panic(err) } }]. *)
Definition setenvIfSet (w : World) (key value : string) : Proc unit :=
  if nonEmpty value then
    if SetenvFails w key value then panic else emit (Setenv key value)
  else ret tt.

(** Lines 186-192: the choice of the authentication mode. *)
Definition chooseAuth (w : World) (o : Opts) : Proc AuthMode :=
  if nonEmpty (AccessToken (AzureDevops o)) then
    (* AzureDevopsClient.SetAccessToken(opts.AzureDevops.AccessToken) *)
    ret (AuthAccessToken (AccessToken (AzureDevops o)))
  else
    (* AzureDevopsClient.UseAzAuth() *)
    match UseAzAuth w with
    | Some msg => Fatalf msg []
    | None => ret AuthAzure
    end.

(** The client [initAzureDevOpsConnection] has configured from [opts]
    when it returns (lines 156-158 and 185-204), with [a] the
    authentication mode chosen at lines 186-192. *)
Definition clientOf (o : Opts) (a : AuthMode) : Client :=
  mkClient
    (Url (AzureDevops o))                      (* HostUrl, when Url != nil *)
    (Organisation (AzureDevops o))             (* SetOrganization *)
    a
    (ApiVersion (AzureDevops o))               (* SetApiVersion *)
    (ConcurrencyLimit (Request o))             (* SetConcurrency *)
    (Retries (Request o))                      (* SetRetries *)
    ("azure-devops-exporter/" ++ gitTag)       (* SetUserAgent *)
    (Project (Limit o))
    (BuildsPerProject (Limit o))
    (BuildsPerDefinition (Limit o))
    (ReleasesPerDefinition (Limit o))
    (DeploymentPerDefinition (Limit o))
    (ReleaseDefinitionsPerProject (Limit o))
    (ReleasesPerProject (Limit o)).

(** Modelled from the spec: [AzureDevops.NewAzureDevopsClient(logger)]
    (package [azure-devops-client], absent from the sources): a client
    on which nothing of [opts] is set yet.  [HostUrl = None] is the
    constructor's default host, no authentication mode is chosen, and
    the other fields are at their zero values until the setters of
    [initAzureDevOpsConnection] write them. *)
Definition NewAzureDevopsClient : Client :=
  mkClient None "" AuthUnset "" 0 0 "" 0 0 0 0 0 0 0.

(** The setters and assignments of [initAzureDevOpsConnection], each
    writing the field or fields of its own. *)
Definition setHostUrl (url : option string) (c : Client) : Client :=
  mkClient url (organization c) (auth c) (apiVersion c) (concurrency c) (retries c)
    (userAgent c) (LimitProject c) (LimitBuildsPerProject c) (LimitBuildsPerDefinition c)
    (LimitReleasesPerDefinition c) (LimitDeploymentPerDefinition c)
    (LimitReleaseDefinitionsPerProject c) (LimitReleasesPerProject c).

Definition SetOrganization (org : string) (c : Client) : Client :=
  mkClient (HostUrl c) org (auth c) (apiVersion c) (concurrency c) (retries c)
    (userAgent c) (LimitProject c) (LimitBuildsPerProject c) (LimitBuildsPerDefinition c)
    (LimitReleasesPerDefinition c) (LimitDeploymentPerDefinition c)
    (LimitReleaseDefinitionsPerProject c) (LimitReleasesPerProject c).

(** [SetAccessToken(token)] is [setAuth (AuthAccessToken token)]; a
    [UseAzAuth()] that succeeds is [setAuth AuthAzure]. *)
Definition setAuth (a : AuthMode) (c : Client) : Client :=
  mkClient (HostUrl c) (organization c) a (apiVersion c) (concurrency c) (retries c)
    (userAgent c) (LimitProject c) (LimitBuildsPerProject c) (LimitBuildsPerDefinition c)
    (LimitReleasesPerDefinition c) (LimitDeploymentPerDefinition c)
    (LimitReleaseDefinitionsPerProject c) (LimitReleasesPerProject c).

Definition SetApiVersion (v : string) (c : Client) : Client :=
  mkClient (HostUrl c) (organization c) (auth c) v (concurrency c) (retries c)
    (userAgent c) (LimitProject c) (LimitBuildsPerProject c) (LimitBuildsPerDefinition c)
    (LimitReleasesPerDefinition c) (LimitDeploymentPerDefinition c)
    (LimitReleaseDefinitionsPerProject c) (LimitReleasesPerProject c).

Definition SetConcurrency (n : Z) (c : Client) : Client :=
  mkClient (HostUrl c) (organization c) (auth c) (apiVersion c) n (retries c)
    (userAgent c) (LimitProject c) (LimitBuildsPerProject c) (LimitBuildsPerDefinition c)
    (LimitReleasesPerDefinition c) (LimitDeploymentPerDefinition c)
    (LimitReleaseDefinitionsPerProject c) (LimitReleasesPerProject c).

Definition SetRetries (n : Z) (c : Client) : Client :=
  mkClient (HostUrl c) (organization c) (auth c) (apiVersion c) (concurrency c) n
    (userAgent c) (LimitProject c) (LimitBuildsPerProject c) (LimitBuildsPerDefinition c)
    (LimitReleasesPerDefinition c) (LimitDeploymentPerDefinition c)
    (LimitReleaseDefinitionsPerProject c) (LimitReleasesPerProject c).

Definition SetUserAgent (agent : string) (c : Client) : Client :=
  mkClient (HostUrl c) (organization c) (auth c) (apiVersion c) (concurrency c) (retries c)
    agent (LimitProject c) (LimitBuildsPerProject c) (LimitBuildsPerDefinition c)
    (LimitReleasesPerDefinition c) (LimitDeploymentPerDefinition c)
    (LimitReleaseDefinitionsPerProject c) (LimitReleasesPerProject c).

(** Lines 198-204: the seven assignments of the limits. *)
Definition assignLimits (l : OptsLimit) (c : Client) : Client :=
  mkClient (HostUrl c) (organization c) (auth c) (apiVersion c) (concurrency c) (retries c)
    (userAgent c) (Project l) (BuildsPerProject l) (BuildsPerDefinition l)
    (ReleasesPerDefinition l) (DeploymentPerDefinition l)
    (ReleaseDefinitionsPerProject l) (ReleasesPerProject l).

(** A method call or an assignment through the package-level pointer
    [AzureDevopsClient]; through a nil pointer it panics. *)
Definition modifyClient (f : Client -> Client) : Proc unit :=
  fun s =>
    match AzureDevopsClient s with
    | Some c => (Continue tt, mkState (opts s) (Some (f c)) (started s) (out s))
    | None => panic s
    end.

(** Lines 166-183: "ensure AZURE env vars are populated for
    azidentity". *)
Definition exportCredentials (w : World) (o : Opts) : Proc unit :=
  setenvIfSet w "AZURE_TENANT_ID" (TenantId (Azure o)) ;;
  setenvIfSet w "AZURE_CLIENT_ID" (ClientId (Azure o)) ;;
  setenvIfSet w "AZURE_CLIENT_SECRET" (ClientSecret (Azure o)).

(** Lines 185-204: the setters and the assignments of the limits, the
    choice of the authentication mode among them. *)
Definition configureClient (w : World) (o : Opts) : Proc unit :=
  (* line 185 *)
  modifyClient (SetOrganization (Organisation (AzureDevops o))) ;;
  (* lines 186-192 *)
  a <- chooseAuth w o ;;
  modifyClient (setAuth a) ;;
  (* lines 193-196 *)
  modifyClient (SetApiVersion (ApiVersion (AzureDevops o))) ;;
  modifyClient (SetConcurrency (ConcurrencyLimit (Request o))) ;;
  modifyClient (SetRetries (Retries (Request o))) ;;
  modifyClient (SetUserAgent ("azure-devops-exporter/" ++ gitTag)) ;;
  (* lines 198-204 *)
  modifyClient (assignLimits (Limit o)).

(** [func initAzureDevOpsConnection()], in the order of the source: the
    client exists from line 156 on, whatever ends the function. *)
Definition initAzureDevOpsConnection (w : World) : Proc unit :=
  (* line 156 *)
  putClient NewAzureDevopsClient ;;
  o <- getOpts ;;
  (* lines 157-159 *)
  match Url (AzureDevops o) with
  | Some url => modifyClient (setHostUrl (Some url))
  | None => ret tt
  end ;;
  (* lines 161-164 *)
  Infof "using organization: %v" [ArgString (Organisation (AzureDevops o))] ;;
  Infof "using apiversion: %v" [ArgString (ApiVersion (AzureDevops o))] ;;
  Infof "using concurrency: %v" [ArgInt (ConcurrencyLimit (Request o))] ;;
  Infof "using retries: %v" [ArgInt (Retries (Request o))] ;;
  exportCredentials w o ;;
  configureClient w o.

(* ================================================================= *)
(** ** [initMetricCollector] *)

(** The collector [startCollector] builds when the interval is
    positive (lines 210-212). *)
Definition configuredCollector (w : World) (o : Opts)
    (collectorName : string) (collectorType : Processor)
    (cacheFileName : string) (d : Duration) : Collector :=
  SetCache (GetCachePath w o cacheFileName) (BuildCacheTag w cacheTag (AzureDevops o))
    (SetScapeTime d (New collectorName collectorType)).

(** The line [startCollector] logs for a collector it does not start:
    [Info] on a logger that carries the field [collector]. *)
Definition collectorDisabled (collectorName : string) : Event :=
  Log InfoLevel [("collector", collectorName)] "" [ArgString "collector disabled"].

(** The closure [startCollector] (lines 208-219).  Dereferencing a nil
    [timeDuration] panics. *)
Definition startCollector (w : World) (collectorName : string)
    (collectorType : Processor) (cacheFileName : string)
    (timeDuration : DurationPtr) : Proc unit :=
  o <- getOpts ;;
  match deref o timeDuration with
  | None => panic
  | Some d =>
      if Qpositive (Seconds d) then
        let c := configuredCollector w o collectorName collectorType cacheFileName d in
        match Start w c with
        | Some msg => Fatal [ArgString msg]
        | None => register c
        end
      else
        (* logger.With(zap.String("collector", collectorName)).Info("collector disabled") *)
        emit (collectorDisabled collectorName)
  end.

(** [func initMetricCollector()] (lines 221-231). *)
Definition initMetricCollector (w : World) : Proc unit :=
  o <- getOpts ;;
  let s := Scrape o in
  startCollector w "Project" MetricsCollectorProject "project.json" (TimeProjects s) ;;
  startCollector w "AgentPool" MetricsCollectorAgentPool "agentpool.json" (TimeAgentPools s) ;;
  startCollector w "LatestBuild" MetricsCollectorLatestBuild "latestbuild.json" (TimeBuild s) ;;
  startCollector w "Repository" MetricsCollectorRepository "latestbuild.json" (TimeRepository s) ;;
  startCollector w "PullRequest" MetricsCollectorPullRequest "pullrequest.json" (TimePullRequest s) ;;
  startCollector w "Build" MetricsCollectorBuild "build.json" (TimeBuild s) ;;
  startCollector w "Release" MetricsCollectorRelease "release.json" (TimeRelease s) ;;
  startCollector w "Deployment" MetricsCollectorDeployment "deployment.json" (TimeDeployment s) ;;
  startCollector w "Stats" MetricsCollectorStats "stats.json" (TimeStats s) ;;
  startCollector w "ResourceUsage" MetricsCollectorResourceUsage "resourceusage.json" (TimeResourceUsage s) ;;
  startCollector w "Query" MetricsCollectorQuery "query.json" (TimeQuery s).

(** The arguments of the eleven calls, as a table: name, cache file
    identifier, and the field of [opts.Scrape] the interval is read
    from. *)
Definition collectorTable : list (string * Processor * string * (OptsScrape -> DurationPtr)) :=
  [ ("Project", MetricsCollectorProject, "project.json", TimeProjects);
    ("AgentPool", MetricsCollectorAgentPool, "agentpool.json", TimeAgentPools);
    ("LatestBuild", MetricsCollectorLatestBuild, "latestbuild.json", TimeBuild);
    ("Repository", MetricsCollectorRepository, "latestbuild.json", TimeRepository);
    ("PullRequest", MetricsCollectorPullRequest, "pullrequest.json", TimePullRequest);
    ("Build", MetricsCollectorBuild, "build.json", TimeBuild);
    ("Release", MetricsCollectorRelease, "release.json", TimeRelease);
    ("Deployment", MetricsCollectorDeployment, "deployment.json", TimeDeployment);
    ("Stats", MetricsCollectorStats, "stats.json", TimeStats);
    ("ResourceUsage", MetricsCollectorResourceUsage, "resourceusage.json", TimeResourceUsage);
    ("Query", MetricsCollectorQuery, "query.json", TimeQuery) ].

Definition tableName (e : string * Processor * string * (OptsScrape -> DurationPtr)) : string :=
  let '(n, _, _, _) := e in n.

Definition tableCacheFile (e : string * Processor * string * (OptsScrape -> DurationPtr)) : string :=
  let '(_, _, f, _) := e in f.

(** The calls of the table, in order. *)
Fixpoint startAll (w : World) (s : OptsScrape)
    (t : list (string * Processor * string * (OptsScrape -> DurationPtr))) : Proc unit :=
  match t with
  | [] => ret tt
  | (n, p, f, field) :: rest => startCollector w n p f (field s) ;; startAll w s rest
  end.

(* ================================================================= *)
(** ** [startHttpServer] *)

(** An [*http.Request], as far as the multiplexer looks at it. *)
Record HttpRequest : Type := mkHttpRequest {
  Method : string;
  Path : string
}.

(** An [http.ResponseWriter]: [written] is what the handler has handed
    to [Write] so far; [writeFails] tells whether [Write] reports an
    error. *)
Record ResponseWriter : Type := mkResponseWriter {
  written : string;
  writeFails : bool
}.

(** [fmt.Fprint(w, s)]: hands [s] to the writer; the boolean is
    [err != nil]. *)
Definition Fprint (rw : ResponseWriter) (s : string) : ResponseWriter * bool :=
  (mkResponseWriter (written rw ++ s) (writeFails rw), writeFails rw).

(** An [http.HandlerFunc] of the process: besides its two arguments it
    can reach the package-level state.  It returns the writer and the
    lines it logged. *)
Definition Handler : Type :=
  State -> ResponseWriter -> HttpRequest -> ResponseWriter * list Event.

(** Lines 239-243. *)
Definition healthz : Handler :=
  fun _ rw _ =>
    let (rw', err) := Fprint rw "Ok" in
    (rw', if err then [Log ErrorLevel [] "" [ArgError]] else []).

(** Lines 246-250. *)
Definition readyz : Handler :=
  fun _ rw _ =>
    let (rw', err) := Fprint rw "Ok" in
    (rw', if err then [Log ErrorLevel [] "" [ArgError]] else []).

(** [promhttp.Handler()]: the exposition of what the collectors have
    gathered. *)
Definition metrics (w : World) : Handler :=
  fun st rw _ => (fst (Fprint rw (MetricsText w (started st))), []).

(** [http.NotFound]: the body is the text and a line feed (the status
    line is not part of what the writer records). *)
Definition NotFound : Handler :=
  fun _ rw _ =>
    (fst (Fprint rw ("404 page not found" ++ String (ascii_of_nat 10) EmptyString)), []).

(** An [http.ServeMux] whose patterns are plain paths without a
    trailing slash, as the three of [startHttpServer] are: a request is
    served by the handler registered for exactly its path. *)
Definition ServeMux : Type := list (string * Handler).

Fixpoint handlerFor (m : ServeMux) (path : string) : Handler :=
  match m with
  | [] => NotFound
  | (pattern, h) :: rest => if String.eqb pattern path then h else handlerFor rest path
  end.

Definition ServeHTTP (m : ServeMux) : Handler :=
  fun st rw r => handlerFor m (Path r) st rw r.

(** Lines 236-252. *)
Definition mux (w : World) : ServeMux :=
  [ ("/healthz", healthz); ("/readyz", readyz); ("/metrics", metrics w) ].

(** The process blocks in a call that does not return. *)
Definition serve {A : Type} : Proc A := fun s => (Serves, s).

(** [func startHttpServer()].  [ListenAndServe] serves [mux] and does
    not return while the server runs; when it does return, it is with
    an error, which [logger.Fatal] reports. *)
Definition startHttpServer (w : World) : Proc unit :=
  o <- getOpts ;;
  emit (ListenAndServe (Bind (Server o)) (ReadTimeout (Server o)) (WriteTimeout (Server o))) ;;
  match ServerError w with
  | Some msg => Fatal [ArgString msg]
  | None => serve
  end.

(* ================================================================= *)
(** ** [main] *)

(** Modelled from the spec: [initLogger] (absent from the sources)
    builds [logger]; the spec lists process-wide logging setup as glue
    with no behaviour of its own. *)
Definition initLogger : Proc unit := ret tt.

(** Lines 48-49: the service discovery of this repository, absent from
    the sources; its outcome is the world's. *)
Definition updateServiceDiscovery (w : World) : Proc unit :=
  emit ServiceDiscoveryUpdate ;;
  match ServiceDiscoveryExit w with
  | Some code => os_Exit code
  | None => ret tt
  end.

(** Lines 48-55: [main] once [initAzureDevOpsConnection] has
    returned. *)
Definition afterConnection (w : World) : Proc unit :=
  updateServiceDiscovery w ;;
  Info [ArgString "init metrics collection"] ;;
  initMetricCollector w ;;
  o <- getOpts ;;
  Infof "starting http server on %s" [ArgString (Bind (Server o))] ;;
  startHttpServer w.

(** Lines 43-55: [main] once [initArgparser] has returned. *)
Definition afterArguments (w : World) : Proc unit :=
  Infof "starting azure-devops-exporter v%s (%s; %s; by %v)"
    [ArgString gitTag; ArgString gitCommit; ArgRuntimeVersion; ArgString Author] ;;
  o <- getOpts ;;
  Info [ArgJson o] ;;
  Infof "init AzureDevOps connection" [] ;;
  initAzureDevOpsConnection w ;;
  afterConnection w.

(** [func main()]. *)
Definition main (w : World) : Proc unit :=
  initLogger ;;
  initArgparser w ;;
  afterArguments w.

(** The process before [main] runs: every package-level variable at its
    zero value. *)
Definition zeroOpts : Opts :=
  mkOpts (mkOptsAzureDevops None "" None "" "" [])
    (mkOptsAzure "" "" "")
    (mkOptsScrape 0 PtrNil PtrNil PtrNil PtrNil PtrNil PtrNil PtrNil PtrNil PtrNil PtrNil)
    (mkOptsStats PtrNil)
    (mkOptsRequest 0 0)
    (mkOptsLimit 0 0 0 0 0 0 0)
    (mkOptsServer "" 0 0).

Definition initialState : State := mkState zeroOpts None [] [].

(* ================================================================= *)
(** ** What the state shows *)

Definition isListenAndServe (e : Event) : bool :=
  match e with ListenAndServe _ _ _ => true | _ => false end.

(** The process has begun to serve HTTP. *)
Definition serving (s : State) : bool := existsb isListenAndServe (out s).

(** [s'] differs from [s] in nothing the runtime owns: the same
    client, the same collectors, and serving begun in one exactly when
    in the other. *)
Definition sameRuntime (s s' : State) : Prop :=
  AzureDevopsClient s' = AzureDevopsClient s
  /\ started s' = started s
  /\ serving s' = serving s.

(** The state after one more observed step. *)
Definition logged (s : State) (es : list Event) : State :=
  mkState (opts s) (AzureDevopsClient s) (started s) (out s ++ es).

(** [s'] continues [s]: the same [opts], the same client, and every
    collector started since satisfies [P]. *)
Definition grows (P : Collector -> Prop) (s s' : State) : Prop :=
  opts s' = opts s
  /\ AzureDevopsClient s' = AzureDevopsClient s
  /\ exists new, started s' = started s ++ new /\ Forall P new.

(** The lines [main] logs between [initArgparser] and
    [initAzureDevOpsConnection] (lines 43-46). *)
Definition startupLog (o : Opts) : list Event :=
  [ Log InfoLevel [] "starting azure-devops-exporter v%s (%s; %s; by %v)"
      [ArgString gitTag; ArgString gitCommit; ArgRuntimeVersion; ArgString Author];
    Log InfoLevel [] "" [ArgJson o];
    Log InfoLevel [] "init AzureDevOps connection" [] ].

Definition setenvLog (key value : string) : list Event :=
  if nonEmpty value then [Setenv key value] else [].

(** What [initAzureDevOpsConnection] has logged and exported when it
    reaches the choice of the authentication mode. *)
Definition connectionLog (o : Opts) : list Event :=
  [ Log InfoLevel [] "using organization: %v" [ArgString (Organisation (AzureDevops o))];
    Log InfoLevel [] "using apiversion: %v" [ArgString (ApiVersion (AzureDevops o))];
    Log InfoLevel [] "using concurrency: %v" [ArgInt (ConcurrencyLimit (Request o))];
    Log InfoLevel [] "using retries: %v" [ArgInt (Retries (Request o))] ]
  ++ setenvLog "AZURE_TENANT_ID" (TenantId (Azure o))
  ++ setenvLog "AZURE_CLIENT_ID" (ClientId (Azure o))
  ++ setenvLog "AZURE_CLIENT_SECRET" (ClientSecret (Azure o)).

(** The state with the client set. *)
Definition withClient (c : Client) (s : State) : State :=
  mkState (opts s) (Some c) (started s) (out s).

(** The collector is one of the table's, configured from [o] with a
    positive interval. *)
Definition fromTable (w : World) (o : Opts) (c : Collector) : Prop :=
  exists n p f field d,
    In (n, p, f, field) collectorTable
    /\ deref o (field (Scrape o)) = Some d
    /\ 0 < d
    /\ c = configuredCollector w o n p f d.

(** The collectors a run of [m] from [s] adds to those started. *)
Definition newlyStarted (m : Proc unit) (s : State) : list Collector :=
  skipn (List.length (started s)) (started (snd (m s))).

(** The tag and the path of a collector's cache. *)
Definition tagOf (c : Collector) : option CacheTag := option_map snd (cache c).
Definition pathOf (c : Collector) : option CachePath := option_map fst (cache c).

(** The per-collector interval options of [opts.Scrape]. *)
Definition intervalOptions : list (OptsScrape -> DurationPtr) :=
  [ TimeProjects; TimeRepository; TimePullRequest; TimeBuild; TimeRelease;
    TimeDeployment; TimeStats; TimeResourceUsage; TimeQuery; TimeAgentPools ].

(** The lines [initArgparser] logs before it ends the process, and the
    line of the token file block. *)
Definition readingTokenFile (file : string) : Event :=
  Log InfoLevel [] ("reading access token from file " ++ dquote ++ "%s" ++ dquote)
    [ArgString file].

Definition unreadableTokenFile (file : string) : Event :=
  Log FatalLevel []
    ("unable to read access token file " ++ dquote ++ "%s" ++ dquote ++ ": %v")
    [ArgString file; ArgError].

Definition credentialsMissingMessage : Event :=
  Log FatalLevel []
    "neither an Azure DevOps PAT token nor client credentials (tenant ID, client ID) for service principal authentication have been provided"
    [].

Definition deprecatedEnvMessage : Event :=
  Log FatalLevel [] ""
    [ArgString "deprecated env var AZURE_DEVOPS_FILTER_AGENTPOOL detected, please use AZURE_DEVOPS_AGENTPOOL"].

(* ================================================================= *)
(** ** The specification's wording, for comparison *)

(** "full service-principal credentials (tenant id + client id, with
    secret)". *)
Definition spec_fullServicePrincipal (o : Opts) : bool :=
  nonEmpty (TenantId (Azure o)) && nonEmpty (ClientId (Azure o))
  && nonEmpty (ClientSecret (Azure o)).

Definition isHexDigit (a : ascii) : bool :=
  let n := nat_of_ascii a in
  ((48 <=? n) && (n <=? 57) || (65 <=? n) && (n <=? 70) || (97 <=? n) && (n <=? 102))%nat.

Definition hyphen : ascii := ascii_of_nat 45.

(** Reads [n] hexadecimal digits and returns the rest. *)
Fixpoint takeHex (n : nat) (s : string) : option string :=
  match n with
  | O => Some s
  | S n' =>
      match s with
      | String a rest => if isHexDigit a then takeHex n' rest else None
      | EmptyString => None
      end
  end.

(** Groups of hexadecimal digits of the given lengths, separated by
    hyphens, and nothing after the last. *)
Fixpoint hexGroups (groups : list nat) (s : string) : bool :=
  match groups with
  | [] => false
  | [n] => match takeHex n s with Some EmptyString => true | _ => false end
  | n :: more =>
      match takeHex n s with
      | Some (String a rest) => Ascii.eqb a hyphen && hexGroups more rest
      | _ => false
      end
  end.

(** A UUID in its textual form, 8-4-4-4-12. *)
Definition spec_isUUID (s : string) : bool := hexGroups [8; 4; 4; 4; 12]%nat s.

(** The text before and after the first byte [c] of [s]. *)
Fixpoint cutAt (c : ascii) (s : string) : option (string * string) :=
  match s with
  | EmptyString => None
  | String a rest =>
      if Ascii.eqb a c then Some (EmptyString, rest)
      else match cutAt c rest with
           | Some (l, r) => Some (String a l, r)
           | None => None
           end
  end.

(** "matching ["<uuid>@<uuid>"]". *)
Definition spec_queryForm (query : string) : bool :=
  match cutAt at_sign query with
  | Some (l, r) => spec_isUUID l && spec_isUUID r
  | None => false
  end.

(* ================================================================= *)
(** ** A concrete world, to run the model *)

(** [unicode.IsSpace] on the runes of one byte: tab, line feed,
    vertical tab, form feed, carriage return, space. *)
Definition isAsciiSpace (a : ascii) : bool :=
  let n := nat_of_ascii a in
  ((n =? 9) || (n =? 10) || (n =? 11) || (n =? 12) || (n =? 13) || (n =? 32))%nat.

(** [unicode.IsSpace] on the runes of two bytes in UTF-8: U+0085 and
    U+00A0. *)
Definition isSpace2 (a b : ascii) : bool :=
  let x := nat_of_ascii a in
  let y := nat_of_ascii b in
  ((x =? 194) && ((y =? 133) || (y =? 160)))%nat.

(** [unicode.IsSpace] on the runes of three bytes in UTF-8: U+1680,
    U+2000 to U+200A, U+2028, U+2029, U+202F, U+205F and U+3000. *)
Definition isSpace3 (a b c : ascii) : bool :=
  let x := nat_of_ascii a in
  let y := nat_of_ascii b in
  let z := nat_of_ascii c in
  (((x =? 225) && (y =? 154) && (z =? 128))
   || ((x =? 226) && (y =? 128)
       && (((128 <=? z) && (z <=? 138)) || (z =? 168) || (z =? 169) || (z =? 175)))
   || ((x =? 226) && (y =? 129) && (z =? 159))
   || ((x =? 227) && (y =? 128) && (z =? 128)))%nat.

(** [strings.TrimLeftFunc(s, unicode.IsSpace)] on the bytes of [s]: the
    leading white space runes are dropped; a byte that starts no white
    space rune ends the trimming. *)
Fixpoint trimLeft (l : list ascii) : list ascii :=
  match l with
  | [] => []
  | a :: rest =>
      if isAsciiSpace a then trimLeft rest
      else
        match rest with
        | [] => l
        | b :: rest2 =>
            if isSpace2 a b then trimLeft rest2
            else
              match rest2 with
              | [] => l
              | c :: rest3 => if isSpace3 a b c then trimLeft rest3 else l
              end
        end
  end.

(** [strings.TrimRightFunc(s, unicode.IsSpace)], on the bytes of [s]
    last byte first: the trailing white space runes are dropped. *)
Fixpoint trimRight (r : list ascii) : list ascii :=
  match r with
  | [] => []
  | a :: rest =>
      if isAsciiSpace a then trimRight rest
      else
        match rest with
        | [] => r
        | b :: rest2 =>
            if isSpace2 b a then trimRight rest2
            else
              match rest2 with
              | [] => r
              | c :: rest3 => if isSpace3 c b a then trimRight rest3 else r
              end
        end
  end.

(** [strings.TrimSpace]: the text without its leading and trailing
    white space, ASCII and Unicode, read as UTF-8. *)
Definition stringsTrimSpace (s : string) : string :=
  string_of_list_ascii (rev (trimRight (rev (trimLeft (list_ascii_of_string s))))).

Definition exampleAzureDevops : OptsAzureDevops :=
  mkOptsAzureDevops None "pat" None "org" "5.1" [].

Definition exampleScrape : OptsScrape :=
  mkOptsScrape (1800 * Second) PtrNil PtrNil PtrNil PtrNil PtrNil PtrNil PtrNil PtrNil
    PtrNil PtrNil.

Definition exampleOpts : Opts :=
  mkOpts exampleAzureDevops (mkOptsAzure "" "" "") exampleScrape (mkOptsStats PtrNil)
    (mkOptsRequest 10 3) (mkOptsLimit 100 100 10 100 100 100 100)
    (mkOptsServer ":8080" (5 * Second) (10 * Second)).

(** A world around a parse outcome: one readable file, an empty
    environment, every library call succeeding. *)
Definition worldOf (p : ParseOutcome) : World :=
  mkWorld p
    (fun f => if String.eqb f "/run/secrets/token" then Some (" filetoken" ++ String (ascii_of_nat 10) EmptyString)%string
              else None)
    (fun _ => "")
    (fun _ _ => false)
    stringsTrimSpace
    None
    None
    (fun _ file => Some ("/cache/" ++ file)%string)
    (fun tag a => (tag ++ "|" ++ Organisation a ++ "|" ++ ApiVersion a ++ "|"
                     ++ String.concat "," (QueriesWithProjects a))%string)
    (fun _ => None)
    (fun cs => String.concat "," (map Name cs))
    None.

Definition withAzureDevops (a : OptsAzureDevops) (o : Opts) : Opts :=
  mkOpts a (Azure o) (Scrape o) (Stats o) (Request o) (Limit o) (Server o).

Definition withAzure (a : OptsAzure) (o : Opts) : Opts :=
  mkOpts (AzureDevops o) a (Scrape o) (Stats o) (Request o) (Limit o) (Server o).

Definition withScrape (s : OptsScrape) (o : Opts) : Opts :=
  mkOpts (AzureDevops o) (Azure o) s (Stats o) (Request o) (Limit o) (Server o).

Definition withLimit (l : OptsLimit) (o : Opts) : Opts :=
  mkOpts (AzureDevops o) (Azure o) (Scrape o) (Stats o) (Request o) l (Server o).

Definition withOpts (o : Opts) (s : State) : State :=
  mkState o (AzureDevopsClient s) (started s) (out s).

(** The world [w] with another outcome of [UseAzAuth]. *)
Definition withUseAzAuth (r : option string) (w : World) : World :=
  mkWorld (Parse w) (ReadFile w) (Getenv w) (SetenvFails w) (TrimSpace w) r
    (ServiceDiscoveryExit w) (GetCachePath w) (BuildCacheTag w) (Start w) (MetricsText w) (ServerError w).

(** The world [w] with [Start] failing for every collector. *)
Definition withStartFailing (msg : string) (w : World) : World :=
  mkWorld (Parse w) (ReadFile w) (Getenv w) (SetenvFails w) (TrimSpace w) (UseAzAuth w)
    (ServiceDiscoveryExit w) (GetCachePath w) (BuildCacheTag w) (fun _ => Some msg)
    (MetricsText w) (ServerError w).

(** [exampleOpts] with some scrape times set: projects disabled,
    repositories every thirty seconds, queries at a negative interval. *)
Definition someIntervalsSet : Opts :=
  withScrape
    (mkOptsScrape (1800 * Second) (PtrFlag 0) (PtrFlag (30 * Second)) PtrNil PtrNil PtrNil
       PtrNil PtrNil PtrNil (PtrFlag (-1)) PtrNil)
    exampleOpts.

(** [exampleOpts] with other result-count limits. *)
Definition otherLimits : Opts := withLimit (mkOptsLimit 5 5 5 5 5 5 5) exampleOpts.

(** [exampleOpts] with the given credentials, token file and queries. *)
Definition optsWith (token : string) (file : option string) (az : OptsAzure)
    (queries : list string) : Opts :=
  withAzure az
    (withAzureDevops (mkOptsAzureDevops None token file "org" "5.1" queries) exampleOpts).

(** No token, no tenant, no client. *)
Definition noCredentials : Opts := optsWith "" None (mkOptsAzure "" "" "") [].

(** No token; a tenant and a client, but no secret. *)
Definition servicePrincipalWithoutSecret : Opts :=
  optsWith "" None (mkOptsAzure "tenant" "client" "") [].

(** A token, and a query with one ["@"] whose parts are no UUIDs. *)
Definition queryOfLetters : Opts := optsWith "pat" None (mkOptsAzure "" "" "") ["a@b"].

(** A token, and a query without ["@"] after one of the UUID form. *)
Definition queryWithoutAt : Opts :=
  optsWith "pat" None (mkOptsAzure "" "" "")
    ["01234567-89ab-cdef-0123-456789abcdef@76543210-89ab-cdef-0123-456789abcdef";
     "01234567-89ab-cdef-0123-456789abcdef"].

(** A token on the command line and a token file that can be read. *)
Definition tokenAndTokenFile : Opts :=
  optsWith "direct" (Some "/run/secrets/token") (mkOptsAzure "" "" "") [].

(** A token on the command line and a token file that cannot be read. *)
Definition tokenAndMissingFile : Opts :=
  optsWith "direct" (Some "/run/secrets/missing") (mkOptsAzure "" "" "") [].

(* ================================================================= *)
(** ** What [initMetricCollector] and [initAzureDevOpsConnection] do, as data *)

(** An entry of [collectorTable]. *)
Definition TableEntry : Type :=
  (string * Processor * string * (OptsScrape -> DurationPtr))%type.

(** The interval the call of an entry reads. *)
Definition entryInterval (o : Opts) (e : TableEntry) : option Duration :=
  let '(_, _, _, field) := e in deref o (field (Scrape o)).

(** The interval of the entry is there and positive. *)
Definition entryEnabled (o : Opts) (e : TableEntry) : bool :=
  match entryInterval o e with
  | Some d => (0 <? d)%Z
  | None => false
  end.

(** The collector the call of an entry hands to [Start], when its
    interval is positive. *)
Definition entryCollector (w : World) (o : Opts) (e : TableEntry) : option Collector :=
  let '(n, p, f, field) := e in
  match deref o (field (Scrape o)) with
  | Some d => if (0 <? d)%Z then Some (configuredCollector w o n p f d) else None
  | None => None
  end.

(** The collectors of the enabled entries of [t], in the order of [t]. *)
Definition expectedCollectors (w : World) (o : Opts) (t : list TableEntry) : list Collector :=
  flat_map (fun e => match entryCollector w o e with Some c => [c] | None => [] end) t.

(** The lines logged for the entries of [t] that are not enabled. *)
Definition disabledLog (o : Opts) (t : list TableEntry) : list Event :=
  map (fun e => collectorDisabled (tableName e))
    (filter (fun e => negb (entryEnabled o e)) t).

(** [Start] fails for the collector of the entry. *)
Definition entryStartFails (w : World) (o : Opts) (e : TableEntry) : bool :=
  match entryCollector w o e with
  | Some c => match Start w c with Some _ => true | None => false end
  | None => false
  end.

(** The state after the calls of [t], when none ends the process. *)
Definition afterCalls (w : World) (t : list TableEntry) (s : State) : State :=
  mkState (opts s) (AzureDevopsClient s)
    (started s ++ expectedCollectors w (opts s) t)
    (out s ++ disabledLog (opts s) t).

(** No per-collector interval option of [o] is nil. *)
Definition intervalsSet (o : Opts) : bool :=
  forallb (fun f => negb (isNil (f (Scrape o)))) intervalOptions.

(** The variables [initAzureDevOpsConnection] exports (lines 167-183),
    with the option each takes its value from. *)
Definition exports (o : Opts) : list (string * string) :=
  [ ("AZURE_TENANT_ID", TenantId (Azure o));
    ("AZURE_CLIENT_ID", ClientId (Azure o));
    ("AZURE_CLIENT_SECRET", ClientSecret (Azure o)) ].

(** [os.Setenv] is called for the pair and fails. *)
Definition exportFails (w : World) (kv : string * string) : bool :=
  nonEmpty (snd kv) && SetenvFails w (fst kv) (snd kv).

(** Serving has begun in [s'] exactly when it had in [s]. *)
Definition sameServing (s s' : State) : Prop := serving s' = serving s.

(** [s'] has the [opts], the collectors and the serving of [s]. *)
Definition sameSetup (s s' : State) : Prop :=
  opts s' = opts s /\ started s' = started s /\ serving s' = serving s.

(** The lines [main] logs from the start of the HTTP server on (lines
    54-55 and 254-260). *)
Definition servingLog (o : Opts) : list Event :=
  [ Log InfoLevel [] "starting http server on %s" [ArgString (Bind (Server o))];
    ListenAndServe (Bind (Server o)) (ReadTimeout (Server o)) (WriteTimeout (Server o)) ].

(** How [main] ends once [ListenAndServe] has been called. *)
Definition served (w : World) (s : State) : Result unit * State :=
  match ServerError w with
  | Some msg => (Exit 1, logged s [Log FatalLevel [] "" [ArgString msg]])
  | None => (Serves, s)
  end.

(** The client after lines 156-159: new, with the host of [opts] when
    there is one. *)
Definition freshClient (o : Opts) : Client :=
  setHostUrl (Url (AzureDevops o)) NewAzureDevopsClient.

(** The client at line 185, the organization set and no
    authentication mode chosen yet. *)
Definition clientBeforeAuth (o : Opts) : Client :=
  SetOrganization (Organisation (AzureDevops o)) (freshClient o).

(** The four lines logged at lines 161-164. *)
Definition usingLog (o : Opts) : list Event :=
  [ Log InfoLevel [] "using organization: %v" [ArgString (Organisation (AzureDevops o))];
    Log InfoLevel [] "using apiversion: %v" [ArgString (ApiVersion (AzureDevops o))];
    Log InfoLevel [] "using concurrency: %v" [ArgInt (ConcurrencyLimit (Request o))];
    Log InfoLevel [] "using retries: %v" [ArgInt (Retries (Request o))] ].

(** Modelled from the spec: [collector.BuildCacheTag] (package
    go-common, absent from the sources) computes the spec's
    ConfigFingerprint, of which "any change must produce a different
    fingerprint": two values with the same tag have the same
    organization, API version and filters. *)
Definition fingerprintSeparates (w : World) : Prop :=
  forall a1 a2 : OptsAzureDevops,
    BuildCacheTag w cacheTag a1 = BuildCacheTag w cacheTag a2 ->
    Organisation a1 = Organisation a2
    /\ ApiVersion a1 = ApiVersion a2
    /\ QueriesWithProjects a1 = QueriesWithProjects a2.

(** A tag from which its arguments can be read back: each text is
    written after its length in unary. *)
Fixpoint unary (n : nat) (rest : string) : string :=
  match n with
  | O => String (ascii_of_nat 48) rest
  | S n' => String (ascii_of_nat 49) (unary n' rest)
  end.

Definition sized (text rest : string) : string :=
  unary (String.length text) (text ++ rest).

Fixpoint sizedAll (texts : list string) (rest : string) : string :=
  match texts with
  | [] => rest
  | text :: more => sized text (sizedAll more rest)
  end.

Definition exactTag (prefix : string) (a : OptsAzureDevops) : CacheTag :=
  sized prefix
    (sized (Organisation a)
       (sized (ApiVersion a)
          (unary (List.length (QueriesWithProjects a))
             (sizedAll (QueriesWithProjects a) "")))).

(** The collector "Project" of a default run in a world whose tags are
    [exactTag]. *)
Definition projectCollector (a : OptsAzureDevops) : Collector :=
  mkCollector "Project" MetricsCollectorProject (Some (1800 * Second))
    (Some (Some "/cache/project.json"%string, exactTag cacheTag a)).

(** The lines [afterConnection] logs before the collectors start. *)
Definition discoveryLog : list Event :=
  [ ServiceDiscoveryUpdate; Log InfoLevel [] "" [ArgString "init metrics collection"] ].

(** The authentication mode lines 186-192 choose in world [w]. *)
Definition chosenAuth (w : World) (o : Opts) (a : AuthMode) : Prop :=
  (AccessToken (AzureDevops o) <> "" /\ a = AuthAccessToken (AccessToken (AzureDevops o)))
  \/ (AccessToken (AzureDevops o) = "" /\ UseAzAuth w = None /\ a = AuthAzure).

(** The token file block leaves the process alone: no file is named,
    or the name is empty. *)
Definition noTokenFile (o : Opts) : bool :=
  match AccessTokenFile (AzureDevops o) with
  | Some file => lenIsZero file
  | None => true
  end.

(** More worlds. *)
Definition withBuildCacheTag (tag : string -> OptsAzureDevops -> CacheTag) (w : World) : World :=
  mkWorld (Parse w) (ReadFile w) (Getenv w) (SetenvFails w) (TrimSpace w) (UseAzAuth w)
    (ServiceDiscoveryExit w) (GetCachePath w) tag (Start w) (MetricsText w) (ServerError w).

Definition withServerError (err : option string) (w : World) : World :=
  mkWorld (Parse w) (ReadFile w) (Getenv w) (SetenvFails w) (TrimSpace w) (UseAzAuth w)
    (ServiceDiscoveryExit w) (GetCachePath w) (BuildCacheTag w) (Start w) (MetricsText w) err.

(** [exampleOpts] for another organization, and with other limits. *)
Definition otherOrganisation : Opts :=
  withLimit (mkOptsLimit 5 5 5 5 5 5 5)
    (withAzureDevops (mkOptsAzureDevops None "pat" None "other" "5.1" []) exampleOpts).

Definition withGetenv (env : string -> string) (w : World) : World :=
  mkWorld (Parse w) (ReadFile w) env (SetenvFails w) (TrimSpace w) (UseAzAuth w)
    (ServiceDiscoveryExit w) (GetCachePath w) (BuildCacheTag w) (Start w) (MetricsText w) (ServerError w).

Definition withSetenvFails (fails : string -> string -> bool) (w : World) : World :=
  mkWorld (Parse w) (ReadFile w) (Getenv w) fails (TrimSpace w) (UseAzAuth w)
    (ServiceDiscoveryExit w) (GetCachePath w) (BuildCacheTag w) (Start w) (MetricsText w) (ServerError w).

Definition withStart (start : Collector -> option string) (w : World) : World :=
  mkWorld (Parse w) (ReadFile w) (Getenv w) (SetenvFails w) (TrimSpace w) (UseAzAuth w)
    (ServiceDiscoveryExit w) (GetCachePath w) (BuildCacheTag w) start (MetricsText w) (ServerError w).

(** An environment with the deprecated variable set. *)
Definition deprecatedEnv (key : string) : string :=
  if String.eqb key "AZURE_DEVOPS_FILTER_AGENTPOOL" then "1,2" else "".

(** [Start] fails for the collector "Release" only. *)
Definition releaseStartFails (c : Collector) : option string :=
  if String.eqb (Name c) "Release" then Some "cannot start" else None.

(** [os.Setenv] fails for the client secret only. *)
Definition secretSetenvFails (key value : string) : bool :=
  String.eqb key "AZURE_CLIENT_SECRET".

(** A token file named by the empty string, beside a direct token. *)
Definition tokenAndEmptyFileName : Opts :=
  optsWith "direct" (Some "") (mkOptsAzure "" "" "") [].

(** A world whose token file holds white space only. *)
Definition blankTokenFile (w : World) : World :=
  mkWorld (Parse w) (fun _ => Some "  ") (Getenv w) (SetenvFails w) (TrimSpace w)
    (UseAzAuth w) (ServiceDiscoveryExit w) (GetCachePath w) (BuildCacheTag w) (Start w)
    (MetricsText w) (ServerError w).

(** A service principal with its secret, no token. *)
Definition servicePrincipal : Opts :=
  optsWith "" None (mkOptsAzure "tenant" "client" "secret") [].

(** Three queries, the second and third rejected. *)
Definition threeQueries : Opts :=
  optsWith "pat" None (mkOptsAzure "" "" "")
    ["01234567-89ab-cdef-0123-456789abcdef@76543210-89ab-cdef-0123-456789abcdef";
     "no-at-sign"; "two@at@signs"].

(** Every collector disabled. *)
Definition allDisabled : Opts :=
  withScrape
    (mkOptsScrape 0 PtrNil PtrNil PtrNil PtrNil PtrNil PtrNil PtrNil PtrNil PtrNil PtrNil)
    exampleOpts.

(* ================================================================= *)
(** * Properties *)

(** ** The process monad *)

Lemma bind_Continue {A B : Type} (m : Proc A) (k : A -> Proc B) (s s' : State) (a : A) :
  m s = (Continue a, s') -> bind m k s = k a s'.
Proof. intros H. unfold bind. rewrite H. reflexivity. Qed.

Lemma bind_Exit {A B : Type} (m : Proc A) (k : A -> Proc B) (s s' : State) (code : Z) :
  m s = (Exit code, s') -> bind m k s = (Exit code, s').
Proof. intros H. unfold bind. rewrite H. reflexivity. Qed.

Lemma bind_Serves {A B : Type} (m : Proc A) (k : A -> Proc B) (s s' : State) :
  m s = (Serves, s') -> bind m k s = (Serves, s').
Proof. intros H. unfold bind. rewrite H. reflexivity. Qed.

Lemma bind_assoc {A B C : Type} (m : Proc A) (k : A -> Proc B) (h : B -> Proc C) (s : State) :
  bind (bind m k) h s = bind m (fun a => bind (k a) h) s.
Proof.
  unfold bind. destruct (m s) as [[a | code | ] s']; reflexivity.
Qed.

(** ** Durations *)

Lemma Seconds_num (d : Duration) : Qnum (Seconds d) = d.
Proof.
  unfold Seconds, Second. cbn [Qplus Qdiv Qmult Qinv Qnum Qden inject_Z].
  change (Z.pos (1 * 1000000000)) with 1000000000.
  pose proof (Z.quot_rem' d 1000000000) as E. lia.
Qed.

(** [d.Seconds() > 0] exactly when [d > 0]. *)
Lemma Seconds_positive (d : Duration) : Qpositive (Seconds d) = true <-> 0 < d.
Proof.
  unfold Qpositive. rewrite Seconds_num. apply Z.ltb_lt.
Qed.

Lemma Seconds_not_positive (d : Duration) : Qpositive (Seconds d) = false <-> d <= 0.
Proof.
  unfold Qpositive. rewrite Seconds_num. rewrite Z.ltb_ge. reflexivity.
Qed.

(** [Qpositive] is the order of the rationals. *)
Lemma Qpositive_Qlt (x : Q) : Qpositive x = true <-> (0 < x)%Q.
Proof.
  unfold Qpositive, Qlt. cbn [Qnum Qden]. rewrite Z.ltb_lt. lia.
Qed.

(** ** Strings *)

Lemma lenIsZero_true (s : string) : lenIsZero s = true <-> s = "".
Proof.
  unfold lenIsZero. destruct s; cbn; split; intros H; try reflexivity; discriminate.
Qed.

Lemma lenIsZero_false (s : string) : lenIsZero s = false <-> s <> "".
Proof.
  unfold lenIsZero. destruct s; cbn; split; intros H; try discriminate; try reflexivity.
  now contradiction H.
Qed.

Lemma nonEmpty_true (s : string) : nonEmpty s = true <-> s <> "".
Proof.
  unfold nonEmpty. destruct (String.eqb_spec s ""); cbn; split; intros H;
    try discriminate; try reflexivity; try assumption. now contradiction H.
Qed.

Lemma nonEmpty_false (s : string) : nonEmpty s = false <-> s = "".
Proof.
  unfold nonEmpty. destruct (String.eqb_spec s ""); cbn; split; intros H;
    try discriminate; try reflexivity; try assumption. now contradiction n.
Qed.

(** ** Frames: what argument processing leaves alone *)

Lemma sameRuntime_refl (s : State) : sameRuntime s s.
Proof. repeat split. Qed.

Lemma sameRuntime_trans (s1 s2 s3 : State) :
  sameRuntime s1 s2 -> sameRuntime s2 s3 -> sameRuntime s1 s3.
Proof.
  unfold sameRuntime. intros (A1 & B1 & C1) (A2 & B2 & C2).
  repeat split; congruence.
Qed.

Lemma serving_logged (s : State) (es : list Event) :
  existsb isListenAndServe es = false -> serving (logged s es) = serving s.
Proof.
  intros H. unfold serving, logged. cbn [out].
  rewrite existsb_app, H. apply orb_false_r.
Qed.

Lemma sameRuntime_logged (s : State) (es : list Event) :
  existsb isListenAndServe es = false -> sameRuntime s (logged s es).
Proof.
  intros H. repeat split. now apply serving_logged.
Qed.

Lemma sameRuntime_withOpts (s : State) (o : Opts) : sameRuntime s (withOpts o s).
Proof. repeat split. Qed.

(** A step that keeps the runtime, followed by steps that keep it,
    keeps it. *)
Lemma sameRuntime_bind {A B : Type} (m : Proc A) (k : A -> Proc B) (s : State) :
  sameRuntime s (snd (m s)) ->
  (forall a s1, sameRuntime s1 (snd (k a s1))) ->
  sameRuntime s (snd (bind m k s)).
Proof.
  intros Hm Hk. unfold bind. destruct (m s) as [[a | code | ] s1]; cbn [snd] in *.
  - eapply sameRuntime_trans; [exact Hm | apply Hk].
  - exact Hm.
  - exact Hm.
Qed.

Lemma emit_logged (e : Event) (s : State) : emit e s = (Continue tt, logged s [e]).
Proof. reflexivity. Qed.

Lemma putOpts_withOpts (o : Opts) (s : State) : putOpts o s = (Continue tt, withOpts o s).
Proof. reflexivity. Qed.

(** Runs the first step of a sequence when it is a line of output. *)
Ltac step_emit := unfold bind at 1; rewrite emit_logged.

Lemma Fatalf_run {A : Type} (template : string) (args : list LogArg) (s : State) :
  @Fatalf A template args s = (Exit 1, logged s [Log FatalLevel [] template args]).
Proof. reflexivity. Qed.

Lemma Fatal_run {A : Type} (args : list LogArg) (s : State) :
  @Fatal A args s = (Exit 1, logged s [Log FatalLevel [] "" args]).
Proof. reflexivity. Qed.

Lemma parseArguments_frame (w : World) (s : State) :
  sameRuntime s (snd (parseArguments w s)).
Proof.
  unfold parseArguments. destruct (Parse w) as [o | err].
  - apply sameRuntime_withOpts.
  - destruct (isErrHelp err).
    + apply sameRuntime_refl.
    + apply sameRuntime_bind; [now apply sameRuntime_logged | intros _ s1].
      apply sameRuntime_bind; [now apply sameRuntime_logged | intros _ s2].
      apply sameRuntime_refl.
Qed.

Lemma loadAccessTokenFile_frame (w : World) (s : State) :
  sameRuntime s (snd (loadAccessTokenFile w s)).
Proof.
  unfold loadAccessTokenFile, bind, getOpts.
  destruct (AccessTokenFile (AzureDevops (opts s))) as [file | ]; [ | apply sameRuntime_refl].
  destruct (0 <? String.length file)%nat; [ | apply sameRuntime_refl].
  unfold Infof. rewrite emit_logged.
  destruct (ReadFile w file) as [val | ].
  - rewrite putOpts_withOpts. cbn [snd].
    eapply sameRuntime_trans; [ | apply sameRuntime_withOpts].
    now apply sameRuntime_logged.
  - rewrite Fatalf_run. cbn [snd].
    eapply sameRuntime_trans; now apply sameRuntime_logged.
Qed.

Lemma checkCredentials_frame (s : State) : sameRuntime s (snd (checkCredentials s)).
Proof.
  unfold checkCredentials, bind, getOpts.
  destruct (credentialsMissing (opts s)).
  - rewrite Fatalf_run. now apply sameRuntime_logged.
  - apply sameRuntime_refl.
Qed.

Lemma checkQueryLoop_frame (queries : list string) :
  forall (queryError : bool) (s : State),
    sameRuntime s (snd (checkQueryLoop queries queryError s)).
Proof.
  induction queries as [ | query rest IH]; intros queryError s; cbn [checkQueryLoop].
  - apply sameRuntime_refl.
  - destruct (malformedQuery query).
    + apply sameRuntime_bind.
      * rewrite emit_logged. now apply sameRuntime_logged.
      * intros _ s1. apply IH.
    + apply IH.
Qed.

Lemma checkQueries_frame (s : State) : sameRuntime s (snd (checkQueries s)).
Proof.
  unfold checkQueries. apply sameRuntime_bind; [apply sameRuntime_refl | ].
  intros o s1. apply sameRuntime_bind; [apply checkQueryLoop_frame | ].
  intros [ | ] s2; apply sameRuntime_refl.
Qed.

Lemma applyDefaultScrapeTime_frame (s : State) :
  sameRuntime s (snd (applyDefaultScrapeTime s)).
Proof. repeat split. Qed.

Lemma checkDeprecatedEnv_frame (w : World) (s : State) :
  sameRuntime s (snd (checkDeprecatedEnv w s)).
Proof.
  unfold checkDeprecatedEnv. destruct (nonEmpty _).
  - rewrite Fatal_run. now apply sameRuntime_logged.
  - apply sameRuntime_refl.
Qed.

(** [initArgparser] creates no client, starts no collector and does not
    serve, however it ends. *)
Lemma initArgparser_frame (w : World) (s : State) :
  sameRuntime s (snd (initArgparser w s)).
Proof.
  unfold initArgparser.
  apply sameRuntime_bind; [apply parseArguments_frame | intros _ s1].
  apply sameRuntime_bind; [apply loadAccessTokenFile_frame | intros _ s2].
  apply sameRuntime_bind; [apply checkCredentials_frame | intros _ s3].
  apply sameRuntime_bind; [apply checkQueries_frame | intros _ s4].
  apply sameRuntime_bind; [apply applyDefaultScrapeTime_frame | intros _ s5].
  apply checkDeprecatedEnv_frame.
Qed.

(** Argument processing never blocks: it returns or ends the
    process. *)
Lemma bind_never_Serves {A B : Type} (m : Proc A) (k : A -> Proc B) (s : State) :
  fst (m s) <> Serves -> (forall a s1, fst (k a s1) <> Serves) ->
  fst (bind m k s) <> Serves.
Proof.
  intros Hm Hk. unfold bind. destruct (m s) as [[a | code | ] s1]; cbn [fst] in *.
  - apply Hk.
  - discriminate.
  - now contradiction Hm.
Qed.

Lemma loadAccessTokenFile_never_Serves (w : World) (s : State) :
  fst (loadAccessTokenFile w s) <> Serves.
Proof.
  unfold loadAccessTokenFile, bind, getOpts.
  destruct (AccessTokenFile (AzureDevops (opts s))) as [file | ]; [ | discriminate].
  destruct (0 <? String.length file)%nat; [ | discriminate].
  unfold Infof. rewrite emit_logged.
  destruct (ReadFile w file); discriminate.
Qed.

Lemma checkQueryLoop_never_Serves (queries : list string) :
  forall (queryError : bool) (s : State),
    fst (checkQueryLoop queries queryError s) <> Serves.
Proof.
  induction queries as [ | query rest IH]; intros queryError s; cbn [checkQueryLoop].
  - discriminate.
  - destruct (malformedQuery query); [ | apply IH].
    apply bind_never_Serves; [discriminate | intros _ s1; apply IH].
Qed.

Lemma initArgparser_never_Serves (w : World) (s : State) :
  fst (initArgparser w s) <> Serves.
Proof.
  unfold initArgparser.
  apply bind_never_Serves.
  { unfold parseArguments. destruct (Parse w) as [o | err]; [discriminate | ].
    destruct (isErrHelp err); discriminate. }
  intros _ s1. apply bind_never_Serves; [apply loadAccessTokenFile_never_Serves | ].
  intros _ s2. apply bind_never_Serves.
  { unfold checkCredentials, bind, getOpts.
    destruct (credentialsMissing (opts s2)); discriminate. }
  intros _ s3. apply bind_never_Serves.
  { unfold checkQueries. apply bind_never_Serves; [discriminate | ].
    intros o s4. apply bind_never_Serves; [apply checkQueryLoop_never_Serves | ].
    intros [ | ] s5; discriminate. }
  intros _ s4. apply bind_never_Serves; [discriminate | ].
  intros _ s5. unfold checkDeprecatedEnv. destruct (nonEmpty _); discriminate.
Qed.

(** ** [main] follows [initArgparser] *)

(** What [main] does once [initArgparser] has returned. *)
Lemma main_initArgparser_Exit (w : World) (s s' : State) (code : Z) :
  initArgparser w s = (Exit code, s') -> main w s = (Exit code, s').
Proof.
  intros H. unfold main, initLogger.
  unfold bind at 1. cbn [ret].
  now apply bind_Exit.
Qed.

Lemma main_initArgparser_Continue (w : World) (s s' : State) :
  initArgparser w s = (Continue tt, s') -> main w s = afterArguments w s'.
Proof.
  intros H. unfold main, initLogger.
  unfold bind at 1. cbn [ret].
  now rewrite (bind_Continue _ _ _ _ _ H).
Qed.

(** ** The blocks of [initArgparser], run *)

Lemma logged_nil (s : State) : logged s [] = s.
Proof. destruct s. unfold logged. cbn. now rewrite app_nil_r. Qed.

Lemma logged_logged (s : State) (es fs : list Event) :
  logged (logged s es) fs = logged s (es ++ fs).
Proof. unfold logged. cbn. now rewrite app_assoc. Qed.

Lemma parseArguments_Parsed (w : World) (s : State) (o : Opts) :
  Parse w = Parsed o -> parseArguments w s = (Continue tt, withOpts o s).
Proof. intros H. unfold parseArguments. now rewrite H. Qed.

Lemma parseArguments_ParseFailed (w : World) (s : State) (err : ParseError) :
  Parse w = ParseFailed err ->
  parseArguments w s =
    if isErrHelp err then (Exit 0, s) else (Exit 1, logged s [Println []; WriteHelp]).
Proof.
  intros H. unfold parseArguments. rewrite H.
  destruct (isErrHelp err); [reflexivity | ].
  unfold bind. rewrite !emit_logged. now rewrite logged_logged.
Qed.

Lemma loadAccessTokenFile_none (w : World) (s : State) :
  AccessTokenFile (AzureDevops (opts s)) = None \/
  AccessTokenFile (AzureDevops (opts s)) = Some "" ->
  loadAccessTokenFile w s = (Continue tt, s).
Proof.
  intros [H | H]; unfold loadAccessTokenFile, bind, getOpts; now rewrite H.
Qed.

Lemma loadAccessTokenFile_read (w : World) (s : State) (file val : string) :
  AccessTokenFile (AzureDevops (opts s)) = Some file ->
  file <> "" ->
  ReadFile w file = Some val ->
  loadAccessTokenFile w s =
    (Continue tt,
     withOpts (setAccessToken (TrimSpace w val) (opts s)) (logged s [readingTokenFile file])).
Proof.
  intros Hf Hne Hr. unfold loadAccessTokenFile, bind, getOpts. rewrite Hf.
  destruct file as [ | a file']; [now contradiction Hne | ].
  cbn [String.length Nat.ltb Nat.leb]. unfold Infof. rewrite emit_logged, Hr.
  reflexivity.
Qed.

Lemma loadAccessTokenFile_unreadable (w : World) (s : State) (file : string) :
  AccessTokenFile (AzureDevops (opts s)) = Some file ->
  file <> "" ->
  ReadFile w file = None ->
  loadAccessTokenFile w s =
    (Exit 1, logged s [readingTokenFile file; unreadableTokenFile file]).
Proof.
  intros Hf Hne Hr. unfold loadAccessTokenFile, bind, getOpts. rewrite Hf.
  destruct file as [ | a file']; [now contradiction Hne | ].
  cbn [String.length Nat.ltb Nat.leb]. unfold Infof. rewrite emit_logged, Hr.
  rewrite Fatalf_run. now rewrite logged_logged.
Qed.

Lemma checkCredentials_run (s : State) :
  checkCredentials s =
    if credentialsMissing (opts s)
    then (Exit 1, logged s [credentialsMissingMessage])
    else (Continue tt, s).
Proof.
  unfold checkCredentials, bind, getOpts.
  destruct (credentialsMissing (opts s)); reflexivity.
Qed.

Lemma checkQueryLoop_run (queries : list string) :
  forall (queryError : bool) (s : State),
    checkQueryLoop queries queryError s =
      (Continue (queryError || existsb malformedQuery queries),
       logged s (map malformedQueryMessage (filter malformedQuery queries))).
Proof.
  induction queries as [ | query rest IH]; intros queryError s; cbn [checkQueryLoop].
  - cbn. now rewrite orb_false_r, logged_nil.
  - cbn [existsb filter]. destruct (malformedQuery query); cbn [orb map].
    + unfold bind. rewrite emit_logged, IH, logged_logged. cbn [app].
      now rewrite orb_true_r.
    + apply IH.
Qed.

Lemma checkQueries_run (s : State) :
  let queries := QueriesWithProjects (AzureDevops (opts s)) in
  checkQueries s =
    if existsb malformedQuery queries
    then (Exit 1, logged s (map malformedQueryMessage (filter malformedQuery queries)))
    else (Continue tt, s).
Proof.
  cbn zeta. unfold checkQueries, bind, getOpts. rewrite checkQueryLoop_run.
  cbn [orb].
  destruct (existsb malformedQuery _) eqn:E; [reflexivity | ].
  replace (filter malformedQuery _) with (@nil string); [now rewrite logged_nil | ].
  symmetry. induction (QueriesWithProjects (AzureDevops (opts s))) as [ | q qs IH];
    [reflexivity | ].
  cbn in E |- *. destruct (malformedQuery q); [discriminate | now apply IH].
Qed.

Lemma checkDeprecatedEnv_run (w : World) (s : State) :
  checkDeprecatedEnv w s =
    if nonEmpty (Getenv w "AZURE_DEVOPS_FILTER_AGENTPOOL")
    then (Exit 1, logged s [deprecatedEnvMessage])
    else (Continue tt, s).
Proof.
  unfold checkDeprecatedEnv. destruct (nonEmpty _); reflexivity.
Qed.

(** [initArgparser] from the first block that ends the process. *)
Section InitArgparserRuns.

Variable w : World.
Variables s0 s1 s2 : State.

Lemma initArgparser_parse_exit (code : Z) :
  parseArguments w s0 = (Exit code, s1) -> initArgparser w s0 = (Exit code, s1).
Proof. intros H. unfold initArgparser. now apply bind_Exit. Qed.

Hypothesis Hparse : parseArguments w s0 = (Continue tt, s1).

Lemma initArgparser_load_exit (code : Z) :
  loadAccessTokenFile w s1 = (Exit code, s2) -> initArgparser w s0 = (Exit code, s2).
Proof.
  intros H. unfold initArgparser.
  rewrite (bind_Continue _ _ _ _ _ Hparse). now apply bind_Exit.
Qed.

Hypothesis Hload : loadAccessTokenFile w s1 = (Continue tt, s2).

Lemma initArgparser_after_load :
  initArgparser w s0 =
    (checkCredentials ;; checkQueries ;; applyDefaultScrapeTime ;; checkDeprecatedEnv w) s2.
Proof.
  unfold initArgparser.
  rewrite (bind_Continue _ _ _ _ _ Hparse).
  now rewrite (bind_Continue _ _ _ _ _ Hload).
Qed.

Lemma initArgparser_credentials_exit :
  credentialsMissing (opts s2) = true ->
  initArgparser w s0 = (Exit 1, logged s2 [credentialsMissingMessage]).
Proof.
  intros H. rewrite initArgparser_after_load.
  apply bind_Exit. rewrite checkCredentials_run. now rewrite H.
Qed.

Hypothesis Hcred : credentialsMissing (opts s2) = false.

Lemma initArgparser_queries_exit :
  existsb malformedQuery (QueriesWithProjects (AzureDevops (opts s2))) = true ->
  initArgparser w s0 =
    (Exit 1,
     logged s2 (map malformedQueryMessage
                  (filter malformedQuery (QueriesWithProjects (AzureDevops (opts s2)))))).
Proof.
  intros H. rewrite initArgparser_after_load.
  erewrite bind_Continue; [ | rewrite checkCredentials_run, Hcred; reflexivity].
  apply bind_Exit. rewrite checkQueries_run. cbn zeta. now rewrite H.
Qed.

Hypothesis Hqueries :
  existsb malformedQuery (QueriesWithProjects (AzureDevops (opts s2))) = false.

Lemma initArgparser_after_queries :
  initArgparser w s0 = checkDeprecatedEnv w (withOpts (useDefaultScrapeTime (opts s2)) s2).
Proof.
  rewrite initArgparser_after_load.
  erewrite bind_Continue; [ | rewrite checkCredentials_run, Hcred; reflexivity].
  erewrite bind_Continue; [ | rewrite checkQueries_run; cbn zeta; rewrite Hqueries; reflexivity].
  reflexivity.
Qed.

Lemma initArgparser_Continue :
  Getenv w "AZURE_DEVOPS_FILTER_AGENTPOOL" = "" ->
  initArgparser w s0 = (Continue tt, withOpts (useDefaultScrapeTime (opts s2)) s2).
Proof.
  intros H. rewrite initArgparser_after_queries, checkDeprecatedEnv_run, H. reflexivity.
Qed.

End InitArgparserRuns.

(** When [initArgparser] returns, every check has passed and [opts] is
    what the token file block left, with the default scrape times. *)
Lemma initArgparser_Continue_inv (w : World) (s0 s1 s2 s' : State) :
  parseArguments w s0 = (Continue tt, s1) ->
  loadAccessTokenFile w s1 = (Continue tt, s2) ->
  initArgparser w s0 = (Continue tt, s') ->
  s' = withOpts (useDefaultScrapeTime (opts s2)) s2
  /\ credentialsMissing (opts s2) = false
  /\ existsb malformedQuery (QueriesWithProjects (AzureDevops (opts s2))) = false
  /\ Getenv w "AZURE_DEVOPS_FILTER_AGENTPOOL" = "".
Proof.
  intros Hparse Hload H.
  rewrite (initArgparser_after_load w s0 s1 s2 Hparse Hload) in H.
  unfold bind in H. rewrite checkCredentials_run in H.
  destruct (credentialsMissing (opts s2)); [discriminate | ].
  rewrite checkQueries_run in H. cbn zeta in H.
  destruct (existsb malformedQuery _); [discriminate | ].
  cbn in H. rewrite checkDeprecatedEnv_run in H.
  destruct (nonEmpty _) eqn:E; [discriminate | ].
  apply nonEmpty_false in E. inversion H. auto.
Qed.

(** The steps of [initArgparser] either keep [opts.AzureDevops] or
    replace its access token. *)
Lemma useDefaultScrapeTime_AzureDevops (o : Opts) :
  AzureDevops (useDefaultScrapeTime o) = AzureDevops o.
Proof. reflexivity. Qed.

Lemma useDefaultScrapeTime_Limit (o : Opts) : Limit (useDefaultScrapeTime o) = Limit o.
Proof. reflexivity. Qed.

(** ** Query filters: the specification's form against the check *)

Lemma isHexDigit_not_at (a : ascii) : isHexDigit a = true -> Ascii.eqb a at_sign = false.
Proof.
  destruct a as [[] [] [] [] [] [] [] []]; vm_compute; intros H;
    first [reflexivity | discriminate H].
Qed.

Lemma takeHex_Count (n : nat) :
  forall s rest, takeHex n s = Some rest -> Count s at_sign = Count rest at_sign.
Proof.
  induction n as [ | n IH]; intros s rest H; cbn [takeHex] in H.
  - now inversion H.
  - destruct s as [ | a s']; [discriminate | ].
    destruct (isHexDigit a) eqn:E; [ | discriminate].
    cbn [Count]. rewrite (isHexDigit_not_at a E). cbn. now apply IH.
Qed.

Lemma hexGroups_Count (groups : list nat) :
  forall s, hexGroups groups s = true -> Count s at_sign = 0%nat.
Proof.
  induction groups as [ | n more IH]; intros s H; [discriminate | ].
  destruct more as [ | m more'].
  - cbn [hexGroups] in H. destruct (takeHex n s) as [[ | ] | ] eqn:E; try discriminate.
    now rewrite (takeHex_Count n s _ E).
  - change (hexGroups (n :: m :: more') s)
      with (match takeHex n s with
            | Some (String a rest) => Ascii.eqb a hyphen && hexGroups (m :: more') rest
            | _ => false
            end) in H.
    destruct (takeHex n s) as [[ | a rest] | ] eqn:E; try discriminate.
    apply andb_prop in H. destruct H as [Ha Hrest].
    rewrite (takeHex_Count n s _ E). cbn [Count].
    apply Ascii.eqb_eq in Ha. subst a. cbn. now apply IH.
Qed.

Lemma cutAt_Count (c : ascii) (s : string) :
  forall l r, cutAt c s = Some (l, r) ->
              Count s c = (Count l c + S (Count r c))%nat /\ s = (l ++ String c r)%string.
Proof.
  induction s as [ | a s' IH]; intros l r H; cbn [cutAt] in H; [discriminate | ].
  cbn [Count]. destruct (Ascii.eqb a c) eqn:E.
  - inversion H; subst. apply Ascii.eqb_eq in E. subst. now cbn.
  - destruct (cutAt c s') as [[l' r'] | ]; [ | discriminate].
    inversion H; subst. destruct (IH l' r eq_refl) as [IH1 IH2].
    cbn [Count append]. rewrite E, IH1, <- IH2. now cbn.
Qed.

(** A query of the form ["<uuid>@<uuid>"] holds exactly one ["@"]: the
    check of [initArgparser] lets it pass. *)
Lemma spec_queryForm_not_malformed (query : string) :
  spec_queryForm query = true -> malformedQuery query = false.
Proof.
  unfold spec_queryForm, malformedQuery. intros H.
  destruct (cutAt at_sign query) as [[l r] | ] eqn:E; [ | discriminate].
  apply andb_prop in H. destruct H as [Hl Hr].
  destruct (cutAt_Count _ _ _ _ E) as [C _]. rewrite C.
  unfold spec_isUUID in *.
  rewrite (hexGroups_Count _ _ Hl), (hexGroups_Count _ _ Hr). reflexivity.
Qed.

Lemma malformedQuery_true (query : string) :
  malformedQuery query = true <-> Count query at_sign <> 1%nat.
Proof.
  unfold malformedQuery. rewrite negb_true_iff. apply Nat.eqb_neq.
Qed.

(** ** [initAzureDevOpsConnection], run *)

Lemma setenvIfSet_run (w : World) (key value : string) (s : State) :
  SetenvFails w key value = false ->
  setenvIfSet w key value s = (Continue tt, logged s (setenvLog key value)).
Proof.
  intros H. unfold setenvIfSet, setenvLog. destruct (nonEmpty value).
  - rewrite H. apply emit_logged.
  - cbn. now rewrite logged_nil.
Qed.

Lemma connectionLog_quiet (o : Opts) : existsb isListenAndServe (connectionLog o) = false.
Proof.
  unfold connectionLog, setenvLog.
  destruct (nonEmpty (TenantId (Azure o))), (nonEmpty (ClientId (Azure o))),
    (nonEmpty (ClientSecret (Azure o))); reflexivity.
Qed.

Lemma chooseAuth_token (w : World) (o : Opts) (s : State) :
  AccessToken (AzureDevops o) <> "" ->
  chooseAuth w o s = (Continue (AuthAccessToken (AccessToken (AzureDevops o))), s).
Proof.
  intros H. unfold chooseAuth. apply nonEmpty_true in H. now rewrite H.
Qed.

Lemma chooseAuth_azure (w : World) (o : Opts) (s : State) :
  AccessToken (AzureDevops o) = "" ->
  chooseAuth w o s =
    match UseAzAuth w with
    | Some msg => (Exit 1, logged s [Log FatalLevel [] msg []])
    | None => (Continue AuthAzure, s)
    end.
Proof.
  intros H. unfold chooseAuth. apply nonEmpty_false in H. rewrite H.
  destruct (UseAzAuth w); reflexivity.
Qed.

(** The choice of the mode returns in the state it started from, or
    ends the process with status 1. *)
Lemma chooseAuth_result (w : World) (o : Opts) (s : State) :
  (exists a, chooseAuth w o s = (Continue a, s))
  \/ (exists msg, chooseAuth w o s = (Exit 1, logged s [Log FatalLevel [] msg []])).
Proof.
  unfold chooseAuth. destruct (nonEmpty _).
  - left. now eexists.
  - destruct (UseAzAuth w) as [msg | ]; [right | left]; now eexists.
Qed.

(** The state with the client set. *)
Lemma withClient_logged (c : Client) (s : State) (es : list Event) :
  withClient c (logged s es) = logged (withClient c s) es.
Proof. reflexivity. Qed.

(** Lines 156-164: the client is created and the four lines logged. *)
Lemma initAzureDevOpsConnection_head (w : World) (s : State) :
  initAzureDevOpsConnection w s
  = (exportCredentials w (opts s) ;; configureClient w (opts s))
      (withClient (freshClient (opts s)) (logged s (usingLog (opts s)))).
Proof.
  unfold initAzureDevOpsConnection.
  unfold bind at 1. unfold putClient at 1.
  unfold bind at 1. unfold getOpts at 1. cbn [opts].
  unfold bind at 1.
  replace ((match Url (AzureDevops (opts s)) with
            | Some url => modifyClient (setHostUrl (Some url))
            | None => ret tt
            end) (mkState (opts s) (Some NewAzureDevopsClient) (started s) (out s)))
    with (@Continue unit tt, withClient (freshClient (opts s)) s)
    by (unfold freshClient; destruct (Url (AzureDevops (opts s))); reflexivity).
  unfold Infof. do 4 step_emit. rewrite !logged_logged. reflexivity.
Qed.

(** Lines 185-204, run on the client of line 159: the mode is chosen,
    and when it is, the client is the one of [clientOf]. *)
Lemma configureClient_run (w : World) (o : Opts) (s : State) :
  AzureDevopsClient s = Some (freshClient o) ->
  configureClient w o s
  = (a <- chooseAuth w o ;; putClient (clientOf o a)) (withClient (clientBeforeAuth o) s).
Proof.
  intros H. unfold configureClient.
  unfold bind at 1. unfold modifyClient at 1. rewrite H.
  change (mkState (opts s) (Some (SetOrganization (Organisation (AzureDevops o))
                                    (freshClient o))) (started s) (out s))
    with (withClient (clientBeforeAuth o) s).
  unfold bind at 1. symmetry. unfold bind at 1. symmetry.
  destruct (chooseAuth_result w o (withClient (clientBeforeAuth o) s))
    as [(a & ->) | (msg & ->)]; reflexivity.
Qed.

(** With [os.Setenv] succeeding, the function reaches the choice of
    the authentication mode. *)
Lemma initAzureDevOpsConnection_run (w : World) (s : State) :
  (forall key value, SetenvFails w key value = false) ->
  initAzureDevOpsConnection w s =
    (a <- chooseAuth w (opts s) ;; putClient (clientOf (opts s) a))
      (withClient (clientBeforeAuth (opts s)) (logged s (connectionLog (opts s)))).
Proof.
  intros Henv. rewrite initAzureDevOpsConnection_head.
  erewrite bind_Continue.
  2:{ unfold exportCredentials.
      unfold bind at 1. rewrite setenvIfSet_run by apply Henv.
      unfold bind at 1. rewrite setenvIfSet_run by apply Henv.
      rewrite setenvIfSet_run by apply Henv. reflexivity. }
  rewrite configureClient_run by reflexivity.
  f_equal. unfold withClient, logged, connectionLog, usingLog.
  cbn [opts AzureDevopsClient started out]. rewrite <- ?app_assoc. reflexivity.
Qed.

(** ** Collectors *)

Section Grows.

Variable P : Collector -> Prop.

Lemma grows_refl (s : State) : grows P s s.
Proof.
  repeat split. exists []. split; [now rewrite app_nil_r | constructor].
Qed.

Lemma grows_trans (s1 s2 s3 : State) : grows P s1 s2 -> grows P s2 s3 -> grows P s1 s3.
Proof.
  intros (O1 & C1 & n1 & E1 & F1) (O2 & C2 & n2 & E2 & F2).
  repeat split; try congruence.
  exists (n1 ++ n2). split.
  - rewrite E2, E1. now rewrite app_assoc.
  - apply Forall_app. now split.
Qed.

Lemma grows_logged (s : State) (es : list Event) : grows P s (logged s es).
Proof.
  repeat split. exists []. split; [cbn; now rewrite app_nil_r | constructor].
Qed.

Lemma grows_bind {A B : Type} (m : Proc A) (k : A -> Proc B) (s : State) :
  grows P s (snd (m s)) ->
  (forall a s1, opts s1 = opts s -> grows P s1 (snd (k a s1))) ->
  grows P s (snd (bind m k s)).
Proof.
  intros Hm Hk. unfold bind. destruct (m s) as [[a | code | ] s1]; cbn [snd] in *.
  - eapply grows_trans; [exact Hm | apply Hk, Hm].
  - exact Hm.
  - exact Hm.
Qed.

End Grows.

(** [startCollector] starts nothing, or the collector configured from
    its arguments with a positive interval. *)
Lemma startCollector_grows (w : World) (n : string) (p : Processor) (f : string)
    (ptr : DurationPtr) (s : State) :
  grows (fun c => exists d, deref (opts s) ptr = Some d /\ 0 < d
                            /\ c = configuredCollector w (opts s) n p f d)
        s (snd (startCollector w n p f ptr s)).
Proof.
  unfold startCollector, bind, getOpts.
  destruct (deref (opts s) ptr) as [d | ]; [ | apply grows_refl].
  destruct (Qpositive (Seconds d)) eqn:E.
  - apply Seconds_positive in E.
    destruct (Start w _) as [msg | ].
    + rewrite Fatal_run. apply grows_logged.
    + repeat split. eexists. split; [reflexivity | ].
      constructor; [ | constructor]. exists d. auto.
  - rewrite emit_logged. apply grows_logged.
Qed.

Lemma grows_weaken (P Q : Collector -> Prop) (s s' : State) :
  (forall c, P c -> Q c) -> grows P s s' -> grows Q s s'.
Proof.
  intros H (O & C & new & E & F). repeat split; try assumption.
  exists new. split; [assumption | ]. eapply Forall_impl; eauto.
Qed.

Lemma startAll_grows (w : World) (o : Opts)
    (t : list (string * Processor * string * (OptsScrape -> DurationPtr))) :
  incl t collectorTable ->
  forall s, opts s = o ->
            grows (fromTable w o) s (snd (startAll w (Scrape o) t s)).
Proof.
  induction t as [ | [[[n p] f] field] rest IH]; intros Hincl s Ho; cbn [startAll].
  - apply grows_refl.
  - apply grows_bind.
    + eapply grows_weaken; [ | apply startCollector_grows].
      cbn beta. intros c (d & Hd & Hpos & Hc). rewrite Ho in *.
      exists n, p, f, field, d. repeat split; try assumption.
      apply Hincl. now left.
    + intros _ s1 H1. apply IH.
      * intros e He. apply Hincl. now right.
      * congruence.
Qed.

Lemma bind_ret_unit (m : Proc unit) (s : State) : bind m (fun _ => ret tt) s = m s.
Proof.
  unfold bind, ret. destruct (m s) as [[[] | code | ] s']; reflexivity.
Qed.

(** The eleven calls of [initMetricCollector] are the table's. *)
Lemma initMetricCollector_table (w : World) (s : State) :
  initMetricCollector w s = startAll w (Scrape (opts s)) collectorTable s.
Proof.
  unfold initMetricCollector, collectorTable. cbn [startAll].
  unfold bind at 1. unfold getOpts at 1. cbn zeta.
  repeat (unfold bind at 1; symmetry; unfold bind at 1; symmetry;
          destruct (startCollector _ _ _ _ _ _) as [[[] | code | ] ?];
          [ | reflexivity | reflexivity]).
  symmetry. apply bind_ret_unit.
Qed.

Lemma initMetricCollector_grows (w : World) (s : State) :
  grows (fromTable w (opts s)) s (snd (initMetricCollector w s)).
Proof.
  rewrite initMetricCollector_table.
  apply startAll_grows; [apply incl_refl | reflexivity].
Qed.

Lemma fromTable_tag (w : World) (o : Opts) (c : Collector) :
  fromTable w o c -> tagOf c = Some (BuildCacheTag w cacheTag (AzureDevops o)).
Proof.
  intros (n & p & f & field & d & _ & _ & _ & ->). reflexivity.
Qed.

Lemma grows_newlyStarted (P : Collector -> Prop) (m : Proc unit) (s : State) :
  grows P s (snd (m s)) -> Forall P (newlyStarted m s).
Proof.
  intros (_ & _ & new & E & F). unfold newlyStarted. rewrite E.
  rewrite skipn_app, skipn_all, Nat.sub_diag. exact F.
Qed.

(** ** [main], run *)

Lemma afterArguments_run (w : World) (s : State) :
  afterArguments w s =
    (initAzureDevOpsConnection w ;; afterConnection w) (logged s (startupLog (opts s))).
Proof.
  unfold afterArguments, Infof, Info.
  step_emit.
  unfold bind at 1. unfold getOpts at 1.
  do 2 step_emit.
  rewrite !logged_logged. reflexivity.
Qed.

Section StartupFailures.

Variable w : World.
Variables s0 s1 s2 : State.
Hypothesis Hparse : parseArguments w s0 = (Continue tt, s1).
Hypothesis Hload : loadAccessTokenFile w s1 = (Continue tt, s2).

Lemma sameRuntime_after_load : sameRuntime s0 s2.
Proof.
  eapply sameRuntime_trans.
  - pose proof (parseArguments_frame w s0) as F. rewrite Hparse in F. exact F.
  - pose proof (loadAccessTokenFile_frame w s1) as F. rewrite Hload in F. exact F.
Qed.

(** Missing credentials end [main] with status 1 before anything of
    the runtime exists. *)
Lemma main_credentials_fatal :
  credentialsMissing (opts s2) = true ->
  main w s0 = (Exit 1, logged s2 [credentialsMissingMessage])
  /\ sameRuntime s0 (logged s2 [credentialsMissingMessage]).
Proof.
  intros H. split.
  - apply main_initArgparser_Exit.
    now apply (initArgparser_credentials_exit w s0 s1 s2).
  - eapply sameRuntime_trans; [apply sameRuntime_after_load | ].
    now apply sameRuntime_logged.
Qed.

(** A query the check rejects ends [main] with status 1, each
    rejected query reported, before anything of the runtime exists. *)
Lemma main_queries_exit :
  credentialsMissing (opts s2) = false ->
  existsb malformedQuery (QueriesWithProjects (AzureDevops (opts s2))) = true ->
  let report :=
    map malformedQueryMessage
      (filter malformedQuery (QueriesWithProjects (AzureDevops (opts s2)))) in
  main w s0 = (Exit 1, logged s2 report) /\ sameRuntime s0 (logged s2 report).
Proof.
  intros Hc Hq report. split.
  - apply main_initArgparser_Exit.
    now apply (initArgparser_queries_exit w s0 s1 s2).
  - eapply sameRuntime_trans; [apply sameRuntime_after_load | ].
    apply sameRuntime_logged. subst report.
    induction (filter malformedQuery _) as [ | q qs IH]; [reflexivity | exact IH].
Qed.

End StartupFailures.

(** A failure of [UseAzAuth] ends [main] with status 1, the client
    created and its organization set, before any collector starts and
    before serving. *)
Lemma main_UseAzAuth_fatal (w : World) (s0 s : State) (msg : string) :
  (forall key value, SetenvFails w key value = false) ->
  initArgparser w s0 = (Continue tt, s) ->
  AccessToken (AzureDevops (opts s)) = "" ->
  UseAzAuth w = Some msg ->
  let final :=
    withClient (clientBeforeAuth (opts s))
      (logged s (startupLog (opts s) ++ connectionLog (opts s)
                 ++ [Log FatalLevel [] msg []])) in
  main w s0 = (Exit 1, final)
  /\ started final = started s0
  /\ serving final = serving s0.
Proof.
  intros Henv Hargs Htok Haz final.
  pose proof (initArgparser_frame w s0) as (_ & Fst & Fsv).
  rewrite Hargs in Fst, Fsv. cbn [snd] in Fst, Fsv.
  split; [ | split].
  - rewrite (main_initArgparser_Continue w s0 s Hargs), afterArguments_run.
    apply bind_Exit. rewrite initAzureDevOpsConnection_run by exact Henv.
    apply bind_Exit. cbn [logged opts]. rewrite chooseAuth_azure by exact Htok.
    rewrite Haz. subst final. f_equal.
    unfold withClient, logged. cbn [opts AzureDevopsClient started out].
    rewrite <- ?app_assoc. reflexivity.
  - exact Fst.
  - subst final. rewrite <- Fsv.
    change (serving (logged s (startupLog (opts s) ++ connectionLog (opts s)
                               ++ [Log FatalLevel [] msg []])) = serving s).
    apply serving_logged. rewrite !existsb_app, connectionLog_quiet. reflexivity.
Qed.

(** The steps after the connection keep the client and [opts]; the
    collectors they start are the table's. *)
Lemma afterConnection_grows (w : World) (s : State) :
  grows (fromTable w (opts s)) s (snd (afterConnection w s)).
Proof.
  unfold afterConnection.
  apply grows_bind.
  { unfold updateServiceDiscovery, bind. rewrite emit_logged.
    destruct (ServiceDiscoveryExit w); apply grows_logged. }
  intros _ s1 H1. apply grows_bind; [apply grows_logged | ].
  intros _ s2 H2. apply grows_bind.
  { rewrite <- H1, <- H2. apply initMetricCollector_grows. }
  intros _ s3 H3. apply grows_bind; [apply grows_refl | ].
  intros o s4 H4. apply grows_bind; [apply grows_logged | ].
  intros _ s5 H5. unfold startHttpServer, bind, getOpts.
  rewrite emit_logged. destruct (ServerError w) as [err | ].
  - rewrite Fatal_run. cbn [snd]. rewrite logged_logged. apply grows_logged.
  - apply grows_logged.
Qed.

(** With a client configured, [main] keeps it to its end. *)
Lemma main_client (w : World) (s0 s : State) (a : AuthMode) :
  (forall key value, SetenvFails w key value = false) ->
  initArgparser w s0 = (Continue tt, s) ->
  (forall st, chooseAuth w (opts s) st = (Continue a, st)) ->
  AzureDevopsClient (snd (main w s0)) = Some (clientOf (opts s) a).
Proof.
  intros Henv Hargs Hauth.
  rewrite (main_initArgparser_Continue w s0 s Hargs), afterArguments_run.
  erewrite bind_Continue.
  2:{ rewrite initAzureDevOpsConnection_run by exact Henv.
      cbn [logged opts].
      erewrite bind_Continue by apply Hauth. reflexivity. }
  match goal with |- context [afterConnection w ?st] =>
    destruct (afterConnection_grows w st) as (_ & C & _) end.
  rewrite C. reflexivity.
Qed.

(* ================================================================= *)
(** ** A tag that separates configurations *)

Lemma unary_inj (n m : nat) (r r' : string) :
  unary n r = unary m r' -> n = m /\ r = r'.
Proof.
  revert m. induction n as [ | n IH]; intros [ | m] H; cbn [unary] in H.
  - injection H as H. now split.
  - discriminate H.
  - discriminate H.
  - injection H as H. destruct (IH m H) as [-> ->]. now split.
Qed.

Lemma append_inj (t t' r r' : string) :
  String.length t = String.length t' -> (t ++ r = t' ++ r')%string -> t = t' /\ r = r'.
Proof.
  revert t'. induction t as [ | a t IH]; intros [ | a' t'] L H; cbn in L, H.
  - now split.
  - discriminate L.
  - discriminate L.
  - injection H as -> H. injection L as L.
    destruct (IH t' L H) as [-> ->]. now split.
Qed.

Lemma sized_inj (t t' r r' : string) :
  sized t r = sized t' r' -> t = t' /\ r = r'.
Proof.
  unfold sized. intros H. destruct (unary_inj _ _ _ _ H) as [L A].
  now apply append_inj.
Qed.

Lemma sizedAll_inj (l l' : list string) :
  List.length l = List.length l' -> sizedAll l "" = sizedAll l' "" -> l = l'.
Proof.
  revert l'. induction l as [ | t l IH]; intros [ | t' l'] L H; cbn [sizedAll] in H.
  - reflexivity.
  - discriminate L.
  - discriminate L.
  - destruct (sized_inj _ _ _ _ H) as [-> H']. injection L as L.
    now rewrite (IH l' L H').
Qed.

(** The parts of the options can be read back from an [exactTag]. *)
Lemma exactTag_inj (prefix : string) (a1 a2 : OptsAzureDevops) :
  exactTag prefix a1 = exactTag prefix a2 ->
  Organisation a1 = Organisation a2
  /\ ApiVersion a1 = ApiVersion a2
  /\ QueriesWithProjects a1 = QueriesWithProjects a2.
Proof.
  unfold exactTag. intros H.
  destruct (sized_inj _ _ _ _ H) as [_ H1].
  destruct (sized_inj _ _ _ _ H1) as [Ho H2].
  destruct (sized_inj _ _ _ _ H2) as [Ha H3].
  destruct (unary_inj _ _ _ _ H3) as [L H4].
  repeat split; [exact Ho | exact Ha | now apply sizedAll_inj].
Qed.

Lemma exactTag_separates (w : World) :
  fingerprintSeparates (withBuildCacheTag exactTag w).
Proof. intros a1 a2. apply exactTag_inj. Qed.

(** * The claims *)

(** ** C2: the credential check *)

(** C2, as the specification words it, fails: with no access token, a
    tenant id and a client id but no client secret, the service
    principal credentials are not "fully supplied", yet argument
    processing passes and the process goes on to serve. *)
Lemma C2_secret_is_not_checked :
  AccessToken (AzureDevops servicePrincipalWithoutSecret) = ""
  /\ spec_fullServicePrincipal servicePrincipalWithoutSecret = false
  /\ fst (initArgparser (worldOf (Parsed servicePrincipalWithoutSecret)) initialState)
     = Continue tt
  /\ serving (snd (main (worldOf (Parsed servicePrincipalWithoutSecret)) initialState))
     = true.
Proof. repeat split. Qed.

(** C2 (amended): once the arguments are parsed and the token file
    block is past, startup fails fatally (status 1, nothing of the
    runtime created, no serving) when the access token is empty and the
    tenant id or the client id is empty; the credential check passes
    whenever a token, or both a tenant id and a client id, are present.
    The client secret plays no part in the check. *)
Theorem C2_credential_check (w : World) (s0 s1 s2 : State) :
  parseArguments w s0 = (Continue tt, s1) ->
  loadAccessTokenFile w s1 = (Continue tt, s2) ->
  (AccessToken (AzureDevops (opts s2)) = ""
   /\ (TenantId (Azure (opts s2)) = "" \/ ClientId (Azure (opts s2)) = "") ->
   main w s0 = (Exit 1, logged s2 [credentialsMissingMessage])
   /\ sameRuntime s0 (logged s2 [credentialsMissingMessage]))
  /\ (AccessToken (AzureDevops (opts s2)) <> ""
      \/ (TenantId (Azure (opts s2)) <> "" /\ ClientId (Azure (opts s2)) <> "") ->
      checkCredentials s2 = (Continue tt, s2)).
Proof.
  intros Hparse Hload. split.
  - intros [Htok Hsp].
    apply (main_credentials_fatal w s0 s1 s2 Hparse Hload).
    unfold credentialsMissing. apply andb_true_iff. split.
    + now apply lenIsZero_true.
    + apply orb_true_iff. destruct Hsp as [H | H]; [left | right]; now apply lenIsZero_true.
  - intros H. rewrite checkCredentials_run.
    replace (credentialsMissing (opts s2)) with false; [reflexivity | ].
    symmetry. unfold credentialsMissing. apply andb_false_iff.
    destruct H as [H | [H1 H2]].
    + left. now apply lenIsZero_false.
    + right. apply orb_false_iff. split; now apply lenIsZero_false.
Qed.

Lemma C2_credential_check_witness :
  (main (worldOf (Parsed noCredentials)) initialState
   = (Exit 1, logged (withOpts noCredentials initialState) [credentialsMissingMessage])
   /\ sameRuntime initialState
        (logged (withOpts noCredentials initialState) [credentialsMissingMessage]))
  /\ checkCredentials (withOpts servicePrincipalWithoutSecret initialState)
     = (Continue tt, withOpts servicePrincipalWithoutSecret initialState).
Proof.
  split.
  - apply (C2_credential_check (worldOf (Parsed noCredentials)) initialState
             (withOpts noCredentials initialState) (withOpts noCredentials initialState)
             eq_refl eq_refl).
    split; [reflexivity | left; reflexivity].
  - apply (C2_credential_check (worldOf (Parsed servicePrincipalWithoutSecret)) initialState
             (withOpts servicePrincipalWithoutSecret initialState)
             (withOpts servicePrincipalWithoutSecret initialState)
             eq_refl eq_refl).
    right. split; discriminate.
Defined.

(** ** C4: malformed query filters *)

(** C4, as the specification words it, fails: ["a@b"] is not of the
    form ["<uuid>@<uuid>"], yet nothing is printed, argument processing
    passes and the client is created. *)
Lemma C4_one_at_sign_is_enough :
  spec_queryForm "a@b" = false
  /\ In "a@b" (QueriesWithProjects (AzureDevops queryOfLetters))
  /\ initArgparser (worldOf (Parsed queryOfLetters)) initialState
     = (Continue tt, withOpts (useDefaultScrapeTime queryOfLetters) initialState)
  /\ AzureDevopsClient (snd (main (worldOf (Parsed queryOfLetters)) initialState))
     = Some (clientOf queryOfLetters (AuthAccessToken "pat")).
Proof. repeat split. now left. Qed.

(** C4 (amended): once the arguments are parsed, the token file block
    is past and the credential check has passed, a query filter that
    does not hold exactly one ["@"] makes the process print the
    validation message for it and exit with status 1, with no client
    created, no collector started and no serving.  Every filter of the
    form ["<uuid>@<uuid>"] holds exactly one ["@"]. *)
Theorem C4_malformed_query (w : World) (s0 s1 s2 : State) (query : string) :
  parseArguments w s0 = (Continue tt, s1) ->
  loadAccessTokenFile w s1 = (Continue tt, s2) ->
  credentialsMissing (opts s2) = false ->
  In query (QueriesWithProjects (AzureDevops (opts s2))) ->
  Count query at_sign <> 1%nat ->
  (exists final,
      main w s0 = (Exit 1, final)
      /\ In (malformedQueryMessage query) (out final)
      /\ sameRuntime s0 final)
  /\ (forall q, spec_queryForm q = true -> Count q at_sign = 1%nat).
Proof.
  intros Hparse Hload Hcred Hin Hcount. split.
  - apply malformedQuery_true in Hcount.
    assert (Hq : existsb malformedQuery (QueriesWithProjects (AzureDevops (opts s2))) = true).
    { apply existsb_exists. exists query. now split. }
    destruct (main_queries_exit w s0 s1 s2 Hparse Hload Hcred Hq) as [Hmain Hframe].
    eexists. split; [exact Hmain | ]. split; [ | exact Hframe].
    cbn [logged out]. apply in_or_app. right.
    apply in_map. apply filter_In. now split.
  - intros q Hq. apply spec_queryForm_not_malformed in Hq.
    unfold malformedQuery in Hq. apply negb_false_iff in Hq. now apply Nat.eqb_eq.
Qed.

Lemma C4_malformed_query_witness :
  (exists final,
      main (worldOf (Parsed queryWithoutAt)) initialState = (Exit 1, final)
      /\ In (malformedQueryMessage "01234567-89ab-cdef-0123-456789abcdef") (out final)
      /\ sameRuntime initialState final)
  /\ (forall q, spec_queryForm q = true -> Count q at_sign = 1%nat).
Proof.
  apply (C4_malformed_query (worldOf (Parsed queryWithoutAt)) initialState
           (withOpts queryWithoutAt initialState) (withOpts queryWithoutAt initialState)
           "01234567-89ab-cdef-0123-456789abcdef" eq_refl eq_refl eq_refl).
  - right. left. reflexivity.
  - vm_compute. discriminate.
Defined.

(** ** C7: exit codes *)

(** C7: [main] ends with status 0 when the parser reports a request
    for help, and with status 1, after printing the help, on any other
    parse error.  Every other fatal startup error ends it with status
    1 at once: missing credentials and a rejected query filter before
    anything of the runtime exists, a failure of [UseAzAuth] before any
    collector is started and before serving. *)
Theorem C7_exit_codes (w : World) (s0 : State) :
  (Parse w = ParseFailed (FlagsError ErrHelp) -> main w s0 = (Exit 0, s0))
  /\ (forall err,
         Parse w = ParseFailed err -> err <> FlagsError ErrHelp ->
         main w s0 = (Exit 1, logged s0 [Println []; WriteHelp]))
  /\ (forall s1 s2,
         parseArguments w s0 = (Continue tt, s1) ->
         loadAccessTokenFile w s1 = (Continue tt, s2) ->
         credentialsMissing (opts s2) = true
         \/ existsb malformedQuery (QueriesWithProjects (AzureDevops (opts s2))) = true ->
         fst (main w s0) = Exit 1 /\ sameRuntime s0 (snd (main w s0)))
  /\ (forall s msg,
         (forall key value, SetenvFails w key value = false) ->
         initArgparser w s0 = (Continue tt, s) ->
         AccessToken (AzureDevops (opts s)) = "" ->
         UseAzAuth w = Some msg ->
         fst (main w s0) = Exit 1
         /\ started (snd (main w s0)) = started s0
         /\ serving (snd (main w s0)) = serving s0).
Proof.
  split; [ | split; [ | split]].
  - intros H. apply main_initArgparser_Exit, initArgparser_parse_exit.
    now rewrite (parseArguments_ParseFailed w s0 _ H).
  - intros err H Hne. apply main_initArgparser_Exit, initArgparser_parse_exit.
    rewrite (parseArguments_ParseFailed w s0 _ H).
    destruct err as [[ | n] | ]; try reflexivity. now contradiction Hne.
  - intros s1 s2 Hparse Hload H.
    destruct (credentialsMissing (opts s2)) eqn:E.
    + destruct (main_credentials_fatal w s0 s1 s2 Hparse Hload E) as [-> F].
      split; [reflexivity | exact F].
    + destruct H as [H | H]; [discriminate | ].
      destruct (main_queries_exit w s0 s1 s2 Hparse Hload E H) as [-> F].
      split; [reflexivity | exact F].
  - intros s msg Henv Hargs Htok Haz.
    destruct (main_UseAzAuth_fatal w s0 s msg Henv Hargs Htok Haz) as [-> F].
    split; [reflexivity | exact F].
Qed.

(** A run that does not fail keeps serving: it has no status. *)
Example healthy_run_serves :
  fst (main (worldOf (Parsed exampleOpts)) initialState) = Serves
  /\ serving (snd (main (worldOf (Parsed exampleOpts)) initialState)) = true.
Proof. split; reflexivity. Qed.

Lemma C7_exit_codes_witness :
  main (worldOf (ParseFailed (FlagsError ErrHelp))) initialState = (Exit 0, initialState)
  /\ main (worldOf (ParseFailed ForeignError)) initialState
     = (Exit 1, logged initialState [Println []; WriteHelp])
  /\ fst (main (worldOf (Parsed queryWithoutAt)) initialState) = Exit 1
  /\ fst (main (withUseAzAuth (Some "no token")
                  (worldOf (Parsed servicePrincipalWithoutSecret))) initialState)
     = Exit 1.
Proof.
  split; [ | split; [ | split]].
  4:{ apply (proj2 (proj2 (proj2 (C7_exit_codes
                                    (withUseAzAuth (Some "no token")
                                       (worldOf (Parsed servicePrincipalWithoutSecret)))
                                    initialState)))
               (withOpts (useDefaultScrapeTime servicePrincipalWithoutSecret) initialState)
               "no token" (fun _ _ => eq_refl) eq_refl eq_refl eq_refl). }
  - apply (proj1 (C7_exit_codes (worldOf (ParseFailed (FlagsError ErrHelp))) initialState)).
    reflexivity.
  - apply (proj1 (proj2 (C7_exit_codes (worldOf (ParseFailed ForeignError)) initialState))
             ForeignError); [reflexivity | discriminate].
  - apply (proj1 (proj2 (proj2 (C7_exit_codes (worldOf (Parsed queryWithoutAt)) initialState)))
             (withOpts queryWithoutAt initialState) (withOpts queryWithoutAt initialState)
             eq_refl eq_refl).
    right. reflexivity.
Defined.

(** ** C10: the access token file *)

Lemma loadAccessTokenFile_opts (w : World) (s s' : State) (r : Result unit) :
  loadAccessTokenFile w s = (r, s') ->
  opts s' = opts s \/ exists token, opts s' = setAccessToken token (opts s).
Proof.
  unfold loadAccessTokenFile, bind, getOpts.
  destruct (AccessTokenFile (AzureDevops (opts s))) as [file | ].
  2:{ intros H. inversion H. now left. }
  destruct (0 <? String.length file)%nat.
  2:{ intros H. inversion H. now left. }
  unfold Infof. rewrite emit_logged.
  destruct (ReadFile w file) as [val | ].
  - rewrite putOpts_withOpts. intros H. inversion H. right. now eexists.
  - rewrite Fatalf_run. intros H. inversion H. now left.
Qed.

(** C10: with a non-empty access token file path, the access token of
    [opts] becomes the trimmed content of the file, whatever token was
    supplied directly, and it is the token in force when
    [initArgparser] returns; if the file cannot be read, the process
    ends with status 1 at that point, the credential check not
    reached. *)
Theorem C10_access_token_file (w : World) (s0 s1 : State) (file : string) :
  parseArguments w s0 = (Continue tt, s1) ->
  AccessTokenFile (AzureDevops (opts s1)) = Some file ->
  file <> "" ->
  match ReadFile w file with
  | Some val =>
      loadAccessTokenFile w s1 =
        (Continue tt,
         withOpts (setAccessToken (TrimSpace w val) (opts s1))
           (logged s1 [readingTokenFile file]))
      /\ (forall s',
             initArgparser w s0 = (Continue tt, s') ->
             AccessToken (AzureDevops (opts s')) = TrimSpace w val)
  | None =>
      main w s0 = (Exit 1, logged s1 [readingTokenFile file; unreadableTokenFile file])
  end.
Proof.
  intros Hparse Hfile Hne.
  destruct (ReadFile w file) as [val | ] eqn:Hread.
  - pose proof (loadAccessTokenFile_read w s1 file val Hfile Hne Hread) as Hload.
    split; [exact Hload | ].
    intros s' H.
    destruct (initArgparser_Continue_inv w s0 s1 _ s' Hparse Hload H) as (-> & _).
    reflexivity.
  - apply main_initArgparser_Exit.
    apply (initArgparser_load_exit w s0 s1 _ Hparse).
    now apply loadAccessTokenFile_unreadable.
Qed.

Lemma C10_access_token_file_witness :
  (loadAccessTokenFile (worldOf (Parsed tokenAndTokenFile))
     (withOpts tokenAndTokenFile initialState)
   = (Continue tt,
      withOpts (setAccessToken "filetoken" tokenAndTokenFile)
        (logged (withOpts tokenAndTokenFile initialState)
           [readingTokenFile "/run/secrets/token"]))
   /\ (forall s',
          initArgparser (worldOf (Parsed tokenAndTokenFile)) initialState = (Continue tt, s') ->
          AccessToken (AzureDevops (opts s')) = "filetoken"))
  /\ main (worldOf (Parsed tokenAndMissingFile)) initialState
     = (Exit 1,
        logged (withOpts tokenAndMissingFile initialState)
          [readingTokenFile "/run/secrets/missing";
           unreadableTokenFile "/run/secrets/missing"]).
Proof.
  split.
  - apply (C10_access_token_file (worldOf (Parsed tokenAndTokenFile)) initialState
             (withOpts tokenAndTokenFile initialState) "/run/secrets/token"
             eq_refl eq_refl).
    discriminate.
  - apply (C10_access_token_file (worldOf (Parsed tokenAndMissingFile)) initialState
             (withOpts tokenAndMissingFile initialState) "/run/secrets/missing"
             eq_refl eq_refl).
    discriminate.
Defined.

(** The run of the witness above does return, with the token of the
    file. *)
Example token_file_run :
  option_map (fun c => auth c)
    (AzureDevopsClient (snd (main (worldOf (Parsed tokenAndTokenFile)) initialState)))
  = Some (AuthAccessToken "filetoken").
Proof. reflexivity. Qed.

(** ** C9: default scrape times *)

Lemma useDefaultScrapeTime_interval (o : Opts) (f : OptsScrape -> DurationPtr) :
  In f intervalOptions ->
  f (Scrape (useDefaultScrapeTime o)) = orScrapeTime (f (Scrape o)).
Proof.
  intros H. cbn in H.
  repeat (destruct H as [<- | H]; [reflexivity | ]). contradiction.
Qed.

(** C9: when [initArgparser] returns, every per-collector interval
    option that the parser left unset points to the global scrape time,
    every option that was set is unchanged, and an unset summary
    max-age holds the stats interval; no collector has been started in
    the meantime. *)
Theorem C9_default_scrape_time (w : World) (o : Opts) (s0 s' : State) :
  Parse w = Parsed o ->
  initArgparser w s0 = (Continue tt, s') ->
  Time (Scrape (opts s')) = Time (Scrape o)
  /\ (forall f, In f intervalOptions ->
        (f (Scrape o) = PtrNil ->
         f (Scrape (opts s')) = PtrScrapeTime
         /\ deref (opts s') (f (Scrape (opts s'))) = Some (Time (Scrape o)))
        /\ (f (Scrape o) <> PtrNil -> f (Scrape (opts s')) = f (Scrape o)))
  /\ (SummaryMaxAge (Stats o) = PtrNil ->
      SummaryMaxAge (Stats (opts s')) = TimeStats (Scrape (opts s')))
  /\ (SummaryMaxAge (Stats o) <> PtrNil ->
      SummaryMaxAge (Stats (opts s')) = SummaryMaxAge (Stats o))
  /\ started s' = started s0.
Proof.
  intros Hparsed Hrun.
  pose proof (parseArguments_Parsed w s0 o Hparsed) as Hparse.
  destruct (loadAccessTokenFile w (withOpts o s0)) as [[[] | code | ] s2] eqn:Hload.
  3:{ pose proof (loadAccessTokenFile_never_Serves w (withOpts o s0)) as N.
      rewrite Hload in N. now contradiction N. }
  2:{ rewrite (initArgparser_load_exit w s0 _ s2 Hparse code Hload) in Hrun.
      discriminate. }
  destruct (initArgparser_Continue_inv w s0 _ s2 s' Hparse Hload Hrun) as (-> & _).
  assert (Hsc : Scrape (opts s2) = Scrape o /\ Stats (opts s2) = Stats o).
  { destruct (loadAccessTokenFile_opts _ _ _ _ Hload) as [-> | [token ->]];
      split; reflexivity. }
  destruct Hsc as [Hsc Hst].
  cbn [opts withOpts].
  split; [cbn; now rewrite Hsc | ].
  split.
  { intros f Hf. rewrite (useDefaultScrapeTime_interval _ f Hf), Hsc. split.
    - intros ->. split; [reflexivity | ]. cbn. now rewrite Hsc.
    - intros Hset. destruct (f (Scrape o)); [now contradiction Hset | reflexivity ..]. }
  split; [ | split].
  - intros Hnil. cbn. now rewrite Hst, Hnil.
  - intros Hset. cbn. rewrite Hst.
    destruct (SummaryMaxAge (Stats o)); [now contradiction Hset | reflexivity ..].
  - pose proof (initArgparser_frame w s0) as F. rewrite Hrun in F.
    destruct F as (_ & F & _). exact F.
Qed.

Lemma C9_default_scrape_time_witness :
  TimeProjects (Scrape (opts (snd (initArgparser (worldOf (Parsed someIntervalsSet))
                                     initialState))))
  = PtrFlag 0
  /\ TimeBuild (Scrape (opts (snd (initArgparser (worldOf (Parsed someIntervalsSet))
                                      initialState))))
     = PtrScrapeTime.
Proof.
  pose proof (C9_default_scrape_time (worldOf (Parsed someIntervalsSet)) someIntervalsSet
                initialState
                (snd (initArgparser (worldOf (Parsed someIntervalsSet)) initialState))
                eq_refl eq_refl) as (_ & H & _).
  split.
  - apply (H TimeProjects); [left; reflexivity | discriminate].
  - apply (H TimeBuild); [right; right; right; left; reflexivity | reflexivity].
Defined.

(** ** C6: the authentication mode *)

(** C6: once [initArgparser] has returned (and [os.Setenv] works), the
    client of [main] has one authentication mode from the choice at
    startup to the end of [main]: the static access token when one is
    supplied, otherwise token acquisition through [UseAzAuth]; when
    [UseAzAuth] fails, the process ends with status 1 before any
    collector is started and before serving. *)
Theorem C6_authentication_mode (w : World) (s0 s : State) :
  (forall key value, SetenvFails w key value = false) ->
  initArgparser w s0 = (Continue tt, s) ->
  (AccessToken (AzureDevops (opts s)) <> "" ->
   exists c,
     AzureDevopsClient (snd (main w s0)) = Some c
     /\ auth c = AuthAccessToken (AccessToken (AzureDevops (opts s))))
  /\ (AccessToken (AzureDevops (opts s)) = "" -> UseAzAuth w = None ->
      exists c, AzureDevopsClient (snd (main w s0)) = Some c /\ auth c = AuthAzure)
  /\ (AccessToken (AzureDevops (opts s)) = "" ->
      forall msg, UseAzAuth w = Some msg ->
                  fst (main w s0) = Exit 1
                  /\ started (snd (main w s0)) = started s0
                  /\ serving (snd (main w s0)) = serving s0).
Proof.
  intros Henv Hargs. split; [ | split].
  - intros Htok.
    exists (clientOf (opts s) (AuthAccessToken (AccessToken (AzureDevops (opts s))))).
    split; [ | reflexivity].
    apply (main_client w s0 s _ Henv Hargs).
    intros st. now apply chooseAuth_token.
  - intros Htok Haz. exists (clientOf (opts s) AuthAzure).
    split; [ | reflexivity].
    apply (main_client w s0 s _ Henv Hargs).
    intros st. rewrite chooseAuth_azure by exact Htok. now rewrite Haz.
  - intros Htok msg Haz.
    destruct (main_UseAzAuth_fatal w s0 s msg Henv Hargs Htok Haz) as [-> F].
    split; [reflexivity | exact F].
Qed.

Lemma C6_authentication_mode_witness :
  (exists c,
      AzureDevopsClient (snd (main (worldOf (Parsed exampleOpts)) initialState)) = Some c
      /\ auth c = AuthAccessToken "pat")
  /\ (exists c,
         AzureDevopsClient
           (snd (main (worldOf (Parsed servicePrincipalWithoutSecret)) initialState))
         = Some c
         /\ auth c = AuthAzure)
  /\ (fst (main (withUseAzAuth (Some "no token")
                   (worldOf (Parsed servicePrincipalWithoutSecret))) initialState)
      = Exit 1
      /\ started (snd (main (withUseAzAuth (Some "no token")
                               (worldOf (Parsed servicePrincipalWithoutSecret)))
                          initialState))
         = []
      /\ serving (snd (main (withUseAzAuth (Some "no token")
                               (worldOf (Parsed servicePrincipalWithoutSecret)))
                          initialState))
         = false).
Proof.
  split; [ | split].
  - apply (proj1 (C6_authentication_mode (worldOf (Parsed exampleOpts)) initialState
                    (withOpts (useDefaultScrapeTime exampleOpts) initialState)
                    (fun _ _ => eq_refl) eq_refl)).
    discriminate.
  - apply (proj1 (proj2 (C6_authentication_mode
                           (worldOf (Parsed servicePrincipalWithoutSecret)) initialState
                           (withOpts (useDefaultScrapeTime servicePrincipalWithoutSecret)
                              initialState)
                           (fun _ _ => eq_refl) eq_refl)));
      reflexivity.
  - apply (proj2 (proj2 (C6_authentication_mode
                           (withUseAzAuth (Some "no token")
                              (worldOf (Parsed servicePrincipalWithoutSecret)))
                           initialState
                           (withOpts (useDefaultScrapeTime servicePrincipalWithoutSecret)
                              initialState)
                           (fun _ _ => eq_refl) eq_refl))
             eq_refl "no token" eq_refl).
Defined.

(** Where [UseAzAuth] fails the client exists, created at line 156,
    with no authentication mode. *)
Example client_exists_when_UseAzAuth_fails :
  option_map auth
    (AzureDevopsClient
       (snd (main (withUseAzAuth (Some "no token")
                     (worldOf (Parsed servicePrincipalWithoutSecret))) initialState)))
  = Some AuthUnset.
Proof. reflexivity. Qed.

(** ** C3: disabled and enabled collectors *)

(** C3: a collector whose interval is zero or negative is not created:
    [startCollector] only logs that it is disabled, and the collectors
    started stay as they were (no timer, no cache path, no cache file
    touched).  A collector whose interval is positive is handed to
    [Start] with that interval and with the cache path of its cache
    file, and is started when [Start] reports no error; an error of
    [Start] ends the process with status 1. *)
Theorem C3_startCollector (w : World) (s : State) (collectorName : string)
    (collectorType : Processor) (cacheFileName : string) (timeDuration : DurationPtr)
    (d : Duration) :
  deref (opts s) timeDuration = Some d ->
  (d <= 0 ->
   startCollector w collectorName collectorType cacheFileName timeDuration s
   = (Continue tt, logged s [collectorDisabled collectorName]))
  /\ (0 < d ->
      let c :=
        mkCollector collectorName collectorType (Some d)
          (Some (GetCachePath w (opts s) cacheFileName,
                 BuildCacheTag w cacheTag (AzureDevops (opts s)))) in
      startCollector w collectorName collectorType cacheFileName timeDuration s
      = match Start w c with
        | None =>
            (Continue tt,
             mkState (opts s) (AzureDevopsClient s) (started s ++ [c]) (out s))
        | Some msg => (Exit 1, logged s [Log FatalLevel [] "" [ArgString msg]])
        end).
Proof.
  intros Hd. unfold startCollector, bind, getOpts. rewrite Hd. split.
  - intros Hle. apply Seconds_not_positive in Hle. rewrite Hle. apply emit_logged.
  - intros Hpos. apply Seconds_positive in Hpos. rewrite Hpos. cbn zeta.
    unfold configuredCollector, SetCache, SetScapeTime, New. cbn.
    destruct (Start w _); reflexivity.
Qed.

Lemma C3_startCollector_witness :
  startCollector (worldOf (Parsed someIntervalsSet)) "Query" MetricsCollectorQuery
    "query.json" (PtrFlag (-1)) (withOpts someIntervalsSet initialState)
  = (Continue tt, logged (withOpts someIntervalsSet initialState) [collectorDisabled "Query"])
  /\ startCollector (worldOf (Parsed someIntervalsSet)) "Stats" MetricsCollectorStats
       "stats.json" PtrScrapeTime (withOpts someIntervalsSet initialState)
     = (Continue tt,
        mkState someIntervalsSet None
          [mkCollector "Stats" MetricsCollectorStats (Some (1800 * Second))
             (Some (Some "/cache/stats.json", "v1|org|5.1|"))]
          []).
Proof.
  split.
  - apply (proj1 (C3_startCollector (worldOf (Parsed someIntervalsSet))
                    (withOpts someIntervalsSet initialState) "Query" MetricsCollectorQuery
                    "query.json" (PtrFlag (-1)) (-1) eq_refl)).
    lia.
  - apply (proj2 (C3_startCollector (worldOf (Parsed someIntervalsSet))
                    (withOpts someIntervalsSet initialState) "Stats" MetricsCollectorStats
                    "stats.json" PtrScrapeTime (1800 * Second) eq_refl)).
    reflexivity.
Defined.

(** In [main], the collectors with a positive interval are the ones
    started. *)
Example disabled_collectors_are_not_started :
  map Name (started (snd (main (worldOf (Parsed someIntervalsSet)) initialState)))
  = ["AgentPool"; "LatestBuild"; "Repository"; "PullRequest"; "Build"; "Release";
     "Deployment"; "Stats"; "ResourceUsage"].
Proof. reflexivity. Qed.

(** ** C5: the cache tag *)

(** C5, as the specification words it, fails: two configurations that
    differ in every result-count limit give their collectors the same
    cache tag, while the clients are configured with different
    limits. *)
Lemma C5_limits_are_not_in_the_tag :
  Project (Limit exampleOpts) <> Project (Limit otherLimits)
  /\ option_map LimitProject
       (AzureDevopsClient (snd (main (worldOf (Parsed exampleOpts)) initialState)))
     <> option_map LimitProject
          (AzureDevopsClient (snd (main (worldOf (Parsed otherLimits)) initialState)))
  /\ map tagOf (started (snd (main (worldOf (Parsed exampleOpts)) initialState)))
     = map tagOf (started (snd (main (worldOf (Parsed otherLimits)) initialState)))
  /\ List.length (started (snd (main (worldOf (Parsed exampleOpts)) initialState))) = 11%nat.
Proof.
  split; [vm_compute; discriminate | ].
  split; [vm_compute; discriminate | ].
  split; vm_compute; reflexivity.
Qed.

(** C5 (amended): every collector [initMetricCollector] starts carries
    the tag [BuildCacheTag cacheTag opts.AzureDevops]: a function of
    the constant ["v1"] and of the Azure DevOps options (organization,
    API version, filters) alone.  Two configurations with the same
    Azure DevOps options give the same tag, whatever their result-count
    limits; and with the fingerprint the specification describes, a
    change of the organization, of the API version or of the filters
    gives a different tag. *)
Theorem C5_cache_tag (w : World) (s : State) :
  Forall (fun c => tagOf c = Some (BuildCacheTag w cacheTag (AzureDevops (opts s))))
    (newlyStarted (initMetricCollector w) s)
  /\ (forall s2 c c2,
         In c (newlyStarted (initMetricCollector w) s) ->
         In c2 (newlyStarted (initMetricCollector w) s2) ->
         (AzureDevops (opts s2) = AzureDevops (opts s) -> tagOf c = tagOf c2)
         /\ (fingerprintSeparates w ->
             Organisation (AzureDevops (opts s2)) <> Organisation (AzureDevops (opts s))
             \/ ApiVersion (AzureDevops (opts s2)) <> ApiVersion (AzureDevops (opts s))
             \/ QueriesWithProjects (AzureDevops (opts s2))
                <> QueriesWithProjects (AzureDevops (opts s)) ->
             tagOf c <> tagOf c2)).
Proof.
  assert (H : forall st, Forall (fun c => tagOf c
                                          = Some (BuildCacheTag w cacheTag (AzureDevops (opts st))))
                           (newlyStarted (initMetricCollector w) st)).
  { intros st. apply grows_newlyStarted.
    eapply grows_weaken; [ | apply initMetricCollector_grows].
    intros c. apply fromTable_tag. }
  split; [apply H | ].
  intros s2 c c2 Hc Hc2.
  pose proof (H s) as F. pose proof (H s2) as F2.
  rewrite Forall_forall in F, F2.
  rewrite (F c Hc), (F2 c2 Hc2). split.
  - intros Heq. now rewrite Heq.
  - intros Hsep Hdiff Htag. injection Htag as Htag.
    destruct (Hsep _ _ Htag) as (Ho & Ha & Hq).
    destruct Hdiff as [D | [D | D]]; apply D; congruence.
Qed.

Lemma C5_cache_tag_witness :
  Forall (fun c => tagOf c = Some (exactTag "v1" exampleAzureDevops))
    (newlyStarted (initMetricCollector (withBuildCacheTag exactTag (worldOf (Parsed exampleOpts))))
       (withOpts (useDefaultScrapeTime exampleOpts) initialState))
  /\ Limit otherLimits <> Limit exampleOpts
  /\ tagOf (projectCollector (AzureDevops exampleOpts))
     = tagOf (projectCollector (AzureDevops otherLimits))
  /\ tagOf (projectCollector (AzureDevops exampleOpts))
     <> tagOf (projectCollector (AzureDevops otherOrganisation)).
Proof.
  pose proof (C5_cache_tag (withBuildCacheTag exactTag (worldOf (Parsed exampleOpts)))
                (withOpts (useDefaultScrapeTime exampleOpts) initialState)) as [F H].
  split; [exact F | ]. split; [vm_compute; discriminate | ].
  assert (I : forall o : Opts,
             Scrape o = Scrape exampleOpts ->
             In (projectCollector (AzureDevops o))
               (newlyStarted
                  (initMetricCollector (withBuildCacheTag exactTag (worldOf (Parsed exampleOpts))))
                  (withOpts (useDefaultScrapeTime o) initialState))).
  { intros [a z sc st rq lm sv] E. cbn [Scrape] in E. subst sc. vm_compute. left. reflexivity. }
  split.
  - apply (proj1 (H (withOpts (useDefaultScrapeTime otherLimits) initialState)
                    (projectCollector (AzureDevops exampleOpts))
                    (projectCollector (AzureDevops otherLimits))
                    (I exampleOpts eq_refl) (I otherLimits eq_refl))).
    reflexivity.
  - apply (proj2 (H (withOpts (useDefaultScrapeTime otherOrganisation) initialState)
                    (projectCollector (AzureDevops exampleOpts))
                    (projectCollector (AzureDevops otherOrganisation))
                    (I exampleOpts eq_refl) (I otherOrganisation eq_refl))).
    + apply exactTag_separates.
    + left. vm_compute. discriminate.
Defined.

(** ** C1: one cache file per collector *)

(** C1 does not hold of the code: the collectors "LatestBuild" and
    "Repository" are distinct entries of the table with the cache file
    identifier "latestbuild.json", and a run with the default intervals
    starts both with the same cache path. *)
Theorem C1_Repository_shares_the_cache_file_of_LatestBuild :
  (forall w s, initMetricCollector w s = startAll w (Scrape (opts s)) collectorTable s)
  /\ In ("LatestBuild", MetricsCollectorLatestBuild, "latestbuild.json", TimeBuild)
       collectorTable
  /\ In ("Repository", MetricsCollectorRepository, "latestbuild.json", TimeRepository)
       collectorTable
  /\ NoDup (map tableName collectorTable)
  /\ ~ NoDup (map tableCacheFile collectorTable)
  /\ map (fun c => (Name c, pathOf c))
       (filter (fun c => String.eqb (Name c) "LatestBuild" || String.eqb (Name c) "Repository")
          (started (snd (main (worldOf (Parsed exampleOpts)) initialState))))
     = [ ("LatestBuild", Some (Some "/cache/latestbuild.json"));
         ("Repository", Some (Some "/cache/latestbuild.json")) ].
Proof.
  split; [exact initMetricCollector_table | ].
  split; [cbn; tauto | ].
  split; [cbn; tauto | ].
  split.
  - cbn. repeat constructor; cbn; intuition discriminate.
  - split; [ | reflexivity].
    cbn. intros H.
    inversion H as [ | ? ? _ H1]; subst.
    inversion H1 as [ | ? ? _ H2]; subst.
    inversion H2 as [ | ? ? Hnot _]; subst.
    apply Hnot. now left.
Qed.

(** ** C8: liveness and readiness *)

(** C8: a request for [/healthz] or [/readyz] is answered by handing
    exactly ["Ok"] to the response writer, whatever the state of the
    process and its collectors; a line is logged only when the write
    fails. *)
Theorem C8_health_endpoints (w : World) (st : State) (r : HttpRequest) (fails : bool) :
  Path r = "/healthz" \/ Path r = "/readyz" ->
  written (fst (ServeHTTP (mux w) st (mkResponseWriter "" fails) r)) = "Ok"
  /\ (forall st',
         ServeHTTP (mux w) st' (mkResponseWriter "" fails) r
         = ServeHTTP (mux w) st (mkResponseWriter "" fails) r).
Proof.
  intros [H | H]; unfold ServeHTTP; rewrite H; cbn; split; reflexivity.
Qed.

Lemma C8_health_endpoints_witness :
  written (fst (ServeHTTP (mux (worldOf (Parsed exampleOpts)))
                  (snd (main (worldOf (Parsed exampleOpts)) initialState))
                  (mkResponseWriter "" false) (mkHttpRequest "GET" "/readyz")))
  = "Ok".
Proof.
  apply (C8_health_endpoints (worldOf (Parsed exampleOpts))
           (snd (main (worldOf (Parsed exampleOpts)) initialState))
           (mkHttpRequest "GET" "/readyz") false).
  right. reflexivity.
Defined.

(** The metrics endpoint, by contrast, reads the collectors. *)
Example metrics_depend_on_the_collectors :
  written (fst (ServeHTTP (mux (worldOf (Parsed exampleOpts))) initialState
                  (mkResponseWriter "" false) (mkHttpRequest "GET" "/metrics")))
  <> written (fst (ServeHTTP (mux (worldOf (Parsed exampleOpts)))
                     (snd (main (worldOf (Parsed exampleOpts)) initialState))
                     (mkResponseWriter "" false) (mkHttpRequest "GET" "/metrics"))).
Proof. vm_compute. discriminate. Qed.

(* ================================================================= *)
(** * Further properties of [main.go] *)

(** ** Steps that keep a relation between states *)

Section Keeps.

Variable R : State -> State -> Prop.
Hypothesis R_trans : forall s1 s2 s3, R s1 s2 -> R s2 s3 -> R s1 s3.

Lemma keeps_bind {A B : Type} (m : Proc A) (k : A -> Proc B) (s : State) :
  R s (snd (m s)) -> (forall a s1, R s1 (snd (k a s1))) -> R s (snd (bind m k s)).
Proof.
  intros Hm Hk. unfold bind. destruct (m s) as [[a | code | ] s1]; cbn [snd] in *.
  - eapply R_trans; [exact Hm | apply Hk].
  - exact Hm.
  - exact Hm.
Qed.

End Keeps.

Lemma sameServing_trans (s1 s2 s3 : State) :
  sameServing s1 s2 -> sameServing s2 s3 -> sameServing s1 s3.
Proof. unfold sameServing. congruence. Qed.

Lemma sameServing_logged (s : State) (es : list Event) :
  existsb isListenAndServe es = false -> sameServing s (logged s es).
Proof. intros H. now apply serving_logged. Qed.

Lemma sameSetup_refl (s : State) : sameSetup s s.
Proof. repeat split. Qed.

Lemma sameSetup_trans (s1 s2 s3 : State) :
  sameSetup s1 s2 -> sameSetup s2 s3 -> sameSetup s1 s3.
Proof. unfold sameSetup. intros (A1 & B1 & C1) (A2 & B2 & C2). repeat split; congruence. Qed.

Lemma sameSetup_logged (s : State) (es : list Event) :
  existsb isListenAndServe es = false -> sameSetup s (logged s es).
Proof. intros H. repeat split. now apply serving_logged. Qed.

(** ** Collectors, entry by entry *)

Lemma Qpositive_Seconds (d : Duration) : Qpositive (Seconds d) = (0 <? d)%Z.
Proof. unfold Qpositive. now rewrite Seconds_num. Qed.

(** One call of [startCollector] with the arguments of a table entry. *)
Lemma startCollector_entry (w : World) (s : State) (n : string) (p : Processor)
    (f : string) (field : OptsScrape -> DurationPtr) :
  startCollector w n p f (field (Scrape (opts s))) s =
    match entryInterval (opts s) (n, p, f, field) with
    | None => (Exit 2, s)
    | Some _ =>
        match entryCollector w (opts s) (n, p, f, field) with
        | Some c =>
            match Start w c with
            | Some msg => (Exit 1, logged s [Log FatalLevel [] "" [ArgString msg]])
            | None =>
                (Continue tt,
                 mkState (opts s) (AzureDevopsClient s) (started s ++ [c]) (out s))
            end
        | None => (Continue tt, logged s [collectorDisabled n])
        end
    end.
Proof.
  unfold startCollector, bind, getOpts, entryInterval, entryCollector.
  destruct (deref (opts s) (field (Scrape (opts s)))) as [d | ]; [ | reflexivity].
  rewrite Qpositive_Seconds. destruct (0 <? d)%Z; [ | reflexivity].
  destruct (Start w _); reflexivity.
Qed.

Lemma startCollector_sameServing (w : World) (n : string) (p : Processor) (f : string)
    (ptr : DurationPtr) (s : State) :
  sameServing s (snd (startCollector w n p f ptr s)).
Proof.
  unfold startCollector, bind, getOpts.
  destruct (deref (opts s) ptr) as [d | ]; [ | reflexivity].
  destruct (Qpositive (Seconds d)).
  - destruct (Start w _); reflexivity || (rewrite Fatal_run; now apply sameServing_logged).
  - rewrite emit_logged. now apply sameServing_logged.
Qed.

Lemma startAll_sameServing (w : World) (sc : OptsScrape) (t : list TableEntry) :
  forall s, sameServing s (snd (startAll w sc t s)).
Proof.
  induction t as [ | [[[n p] f] field] rest IH]; intros s; cbn [startAll].
  - reflexivity.
  - apply (keeps_bind sameServing sameServing_trans).
    + apply startCollector_sameServing.
    + intros _ s1. apply IH.
Qed.

Lemma initMetricCollector_sameServing (w : World) (s : State) :
  sameServing s (snd (initMetricCollector w s)).
Proof. rewrite initMetricCollector_table. apply startAll_sameServing. Qed.

Lemma expectedCollectors_cons (w : World) (o : Opts) (e : TableEntry) (t : list TableEntry) :
  expectedCollectors w o (e :: t)
  = match entryCollector w o e with Some c => [c] | None => [] end
    ++ expectedCollectors w o t.
Proof. reflexivity. Qed.

Lemma entryCollector_enabled (w : World) (o : Opts) (e : TableEntry) :
  entryEnabled o e = match entryCollector w o e with Some _ => true | None => false end.
Proof.
  destruct e as [[[n p] f] field]. unfold entryEnabled, entryInterval, entryCollector.
  destruct (deref o (field (Scrape o))) as [d | ]; [ | reflexivity].
  destruct (0 <? d)%Z; reflexivity.
Qed.

Lemma disabledLog_cons (w : World) (o : Opts) (e : TableEntry) (t : list TableEntry) :
  disabledLog o (e :: t)
  = match entryCollector w o e with
    | Some _ => []
    | None => [collectorDisabled (tableName e)]
    end ++ disabledLog o t.
Proof.
  unfold disabledLog. cbn [filter]. rewrite (entryCollector_enabled w).
  destruct (entryCollector w o e); reflexivity.
Qed.

Lemma afterCalls_nil (w : World) (s : State) : afterCalls w [] s = s.
Proof. destruct s. unfold afterCalls. cbn. now rewrite !app_nil_r. Qed.

Lemma afterCalls_cons (w : World) (e : TableEntry) (t : list TableEntry) (s s1 : State) :
  s1 = afterCalls w [e] s -> afterCalls w t s1 = afterCalls w (e :: t) s.
Proof.
  intros ->. unfold afterCalls. cbn [opts AzureDevopsClient started out].
  rewrite (expectedCollectors_cons w _ e t), (disabledLog_cons w _ e t).
  rewrite (expectedCollectors_cons w _ e []), (disabledLog_cons w _ e []).
  cbn [expectedCollectors flat_map disabledLog filter map].
  rewrite !app_nil_r, !app_assoc. reflexivity.
Qed.

(** One call that returns leaves the state of its entry. *)
Lemma startCollector_entry_Continue (w : World) (s s1 : State) (n : string)
    (p : Processor) (f : string) (field : OptsScrape -> DurationPtr) :
  startCollector w n p f (field (Scrape (opts s))) s = (Continue tt, s1) ->
  s1 = afterCalls w [(n, p, f, field)] s
  /\ entryInterval (opts s) (n, p, f, field) <> None
  /\ entryStartFails w (opts s) (n, p, f, field) = false.
Proof.
  rewrite startCollector_entry. unfold afterCalls, entryStartFails.
  rewrite (expectedCollectors_cons w _ _ []), (disabledLog_cons w _ _ []).
  destruct (entryInterval (opts s) (n, p, f, field)); [ | discriminate].
  destruct (entryCollector w (opts s) (n, p, f, field)) as [c | ].
  - destruct (Start w c); [discriminate | ]. intros H. inversion H.
    cbn. rewrite !app_nil_r. repeat split. discriminate.
  - intros H. inversion H. cbn. rewrite !app_nil_r. repeat split. discriminate.
Qed.

Lemma startCollector_entry_run (w : World) (s : State) (n : string) (p : Processor)
    (f : string) (field : OptsScrape -> DurationPtr) :
  entryInterval (opts s) (n, p, f, field) <> None ->
  entryStartFails w (opts s) (n, p, f, field) = false ->
  startCollector w n p f (field (Scrape (opts s))) s
  = (Continue tt, afterCalls w [(n, p, f, field)] s).
Proof.
  intros Hi Hs. rewrite startCollector_entry. unfold afterCalls, entryStartFails in *.
  rewrite (expectedCollectors_cons w _ _ []), (disabledLog_cons w _ _ []).
  destruct (entryInterval (opts s) (n, p, f, field)); [ | now contradiction Hi].
  destruct (entryCollector w (opts s) (n, p, f, field)) as [c | ].
  - destruct (Start w c); [discriminate | ]. cbn. now rewrite !app_nil_r.
  - cbn. now rewrite !app_nil_r.
Qed.

(** The calls of a list of entries, when each returns. *)
Lemma startAll_run (w : World) (t : list TableEntry) :
  forall s,
    (forall e, In e t -> entryInterval (opts s) e <> None) ->
    existsb (entryStartFails w (opts s)) t = false ->
    startAll w (Scrape (opts s)) t s = (Continue tt, afterCalls w t s).
Proof.
  induction t as [ | [[[n p] f] field] rest IH]; intros s Hi Hs; cbn [startAll].
  - now rewrite afterCalls_nil.
  - cbn [existsb] in Hs. apply orb_false_iff in Hs. destruct Hs as [Hs1 Hs2].
    erewrite bind_Continue.
    2:{ apply startCollector_entry_run; [apply Hi; now left | exact Hs1]. }
    change (Scrape (opts s)) with (Scrape (opts (afterCalls w [(n, p, f, field)] s))).
    rewrite IH.
    + now rewrite (afterCalls_cons w _ rest s _ eq_refl).
    + intros e He. apply Hi. now right.
    + exact Hs2.
Qed.

Lemma startAll_Continue_inv (w : World) (t : list TableEntry) :
  forall s s',
    startAll w (Scrape (opts s)) t s = (Continue tt, s') ->
    s' = afterCalls w t s
    /\ (forall e, In e t -> entryInterval (opts s) e <> None)
    /\ existsb (entryStartFails w (opts s)) t = false.
Proof.
  induction t as [ | [[[n p] f] field] rest IH]; intros s s' H; cbn [startAll] in H.
  - inversion H. rewrite afterCalls_nil. repeat split. intros e [].
  - unfold bind in H.
    destruct (startCollector w n p f (field (Scrape (opts s))) s)
      as [[[] | code | ] s1] eqn:E; [ | discriminate | discriminate].
    destruct (startCollector_entry_Continue w s s1 n p f field E) as (E1 & Hi & Hs).
    assert (Ho : opts s1 = opts s) by (rewrite E1; reflexivity).
    rewrite <- Ho in H. destruct (IH s1 s' H) as (E' & Hi' & Hs'). rewrite Ho in *.
    split; [ | split].
    + rewrite E'. now apply afterCalls_cons.
    + intros e [<- | He]; [exact Hi | now apply Hi'].
    + cbn [existsb]. now rewrite Hs, Hs'.
Qed.

(** The calls of a list of entries up to the first whose [Start]
    fails. *)
Lemma startAll_fail (w : World) (before : list TableEntry) :
  forall s e after c msg,
    (forall e', In e' before -> entryInterval (opts s) e' <> None) ->
    existsb (entryStartFails w (opts s)) before = false ->
    entryCollector w (opts s) e = Some c ->
    Start w c = Some msg ->
    startAll w (Scrape (opts s)) (before ++ e :: after) s
    = (Exit 1, logged (afterCalls w before s) [Log FatalLevel [] "" [ArgString msg]]).
Proof.
  induction before as [ | [[[n p] f] field] rest IH]; intros s e after c msg Hi Hs Hc Hst.
  - cbn [app startAll]. destruct e as [[[n p] f] field].
    apply bind_Exit. rewrite startCollector_entry, Hc, Hst, afterCalls_nil.
    unfold entryInterval. unfold entryCollector in Hc.
    destruct (deref (opts s) (field (Scrape (opts s)))); [reflexivity | discriminate].
  - cbn [app startAll]. cbn [existsb] in Hs. apply orb_false_iff in Hs.
    destruct Hs as [Hs1 Hs2].
    erewrite bind_Continue.
    2:{ apply startCollector_entry_run; [apply Hi; now left | exact Hs1]. }
    change (Scrape (opts s)) with (Scrape (opts (afterCalls w [(n, p, f, field)] s))).
    rewrite (IH _ e after c msg).
    + now rewrite (afterCalls_cons w _ rest s _ eq_refl).
    + intros e' He'. apply Hi. now right.
    + exact Hs2.
    + exact Hc.
    + exact Hst.
Qed.

Lemma orScrapeTime_notNil (p : DurationPtr) : isNil (orScrapeTime p) = false.
Proof. destruct p; reflexivity. Qed.

Lemma useDefaultScrapeTime_intervalsSet (o : Opts) :
  intervalsSet (useDefaultScrapeTime o) = true.
Proof.
  unfold intervalsSet, intervalOptions, useDefaultScrapeTime.
  cbn [forallb Scrape TimeProjects TimeRepository TimePullRequest TimeBuild TimeRelease
         TimeDeployment TimeStats TimeResourceUsage TimeQuery TimeAgentPools].
  rewrite !orScrapeTime_notNil. reflexivity.
Qed.

Lemma intervalsSet_entryInterval (o : Opts) (e : TableEntry) :
  intervalsSet o = true -> In e collectorTable -> entryInterval o e <> None.
Proof.
  unfold intervalsSet, intervalOptions. cbn [forallb].
  rewrite !andb_true_iff, !negb_true_iff.
  intros (H1 & H2 & H3 & H4 & H5 & H6 & H7 & H8 & H9 & H10 & _) He.
  cbn in He.
  repeat (destruct He as [<- | He];
          [unfold entryInterval;
           match goal with
           | |- deref _ (?field _) <> None =>
               destruct (field (Scrape o)); [discriminate | discriminate ..]
           end | ]).
  contradiction.
Qed.

Lemma existsb_first {A : Type} (f : A -> bool) (l : list A) :
  existsb f l = true ->
  exists before e after,
    l = before ++ e :: after /\ existsb f before = false /\ f e = true.
Proof.
  induction l as [ | a l IH]; [discriminate | ].
  cbn [existsb]. destruct (f a) eqn:E.
  - intros _. exists [], a, l. repeat split. exact E.
  - cbn [orb]. intros H. destruct (IH H) as (before & e & after & -> & Hb & He).
    exists (a :: before), e, after. repeat split; [ | exact He].
    cbn [existsb]. now rewrite E, Hb.
Qed.

(** ** [initArgparser], from its result *)

Lemma loadAccessTokenFile_noTokenFile (w : World) (s : State) :
  noTokenFile (opts s) = true -> loadAccessTokenFile w s = (Continue tt, s).
Proof.
  unfold noTokenFile. intros H. apply loadAccessTokenFile_none.
  destruct (AccessTokenFile (AzureDevops (opts s))) as [file | ]; [right | now left].
  apply lenIsZero_true in H. now rewrite H.
Qed.

Lemma loadAccessTokenFile_Exit (w : World) (s s' : State) (code : Z) :
  loadAccessTokenFile w s = (Exit code, s') -> code = 1.
Proof.
  unfold loadAccessTokenFile, bind, getOpts.
  destruct (AccessTokenFile (AzureDevops (opts s))) as [file | ]; [ | discriminate].
  destruct (0 <? String.length file)%nat; [ | discriminate].
  unfold Infof. rewrite emit_logged.
  destruct (ReadFile w file); [discriminate | ].
  rewrite Fatalf_run. intros H. now inversion H.
Qed.

(** When [initArgparser] returns, the arguments were parsed and every
    block after the parser has run to its end. *)
Lemma initArgparser_Continue_Parsed (w : World) (s0 s : State) :
  initArgparser w s0 = (Continue tt, s) ->
  exists o s2,
    Parse w = Parsed o
    /\ loadAccessTokenFile w (withOpts o s0) = (Continue tt, s2)
    /\ s = withOpts (useDefaultScrapeTime (opts s2)) s2
    /\ credentialsMissing (opts s2) = false
    /\ existsb malformedQuery (QueriesWithProjects (AzureDevops (opts s2))) = false
    /\ Getenv w "AZURE_DEVOPS_FILTER_AGENTPOOL" = "".
Proof.
  intros H. destruct (Parse w) as [o | err] eqn:Hp.
  - pose proof (parseArguments_Parsed w s0 o Hp) as Hparse.
    destruct (loadAccessTokenFile w (withOpts o s0)) as [[[] | code | ] s2] eqn:Hload.
    + exists o, s2. split; [reflexivity | ]. split; [exact Hload | ].
      exact (initArgparser_Continue_inv w s0 _ s2 s Hparse Hload H).
    + rewrite (initArgparser_load_exit w s0 _ s2 Hparse code Hload) in H. discriminate.
    + pose proof (loadAccessTokenFile_never_Serves w (withOpts o s0)) as N.
      rewrite Hload in N. now contradiction N.
  - pose proof (parseArguments_ParseFailed w s0 err Hp) as Hparse.
    destruct (isErrHelp err);
      rewrite (initArgparser_parse_exit w s0 _ _ Hparse) in H; discriminate.
Qed.

(** X1: when [initArgparser] returns, the options in force carry
    credentials (a token, or a tenant id and a client id), every query
    filter holds exactly one ["@"], no per-collector interval is nil,
    and the deprecated environment variable is not set. *)
Theorem initArgparser_validates (w : World) (s0 s : State) :
  initArgparser w s0 = (Continue tt, s) ->
  (AccessToken (AzureDevops (opts s)) <> ""
   \/ (TenantId (Azure (opts s)) <> "" /\ ClientId (Azure (opts s)) <> ""))
  /\ (forall query, In query (QueriesWithProjects (AzureDevops (opts s))) ->
                    Count query at_sign = 1%nat)
  /\ intervalsSet (opts s) = true
  /\ Getenv w "AZURE_DEVOPS_FILTER_AGENTPOOL" = "".
Proof.
  intros H.
  destruct (initArgparser_Continue_Parsed w s0 s H) as (o & s2 & _ & _ & -> & Hc & Hq & He).
  cbn [opts withOpts]. rewrite useDefaultScrapeTime_AzureDevops.
  split; [ | split; [ | split]].
  - unfold credentialsMissing in Hc. apply andb_false_iff in Hc.
    destruct Hc as [Hc | Hc].
    + left. now apply lenIsZero_false.
    + right. apply orb_false_iff in Hc. destruct Hc as [H1 H2].
      split; now apply lenIsZero_false.
  - intros query Hin.
    destruct (Nat.eq_dec (Count query at_sign) 1) as [E | E]; [exact E | ].
    apply malformedQuery_true in E.
    assert (Hex : existsb malformedQuery (QueriesWithProjects (AzureDevops (opts s2))) = true).
    { apply existsb_exists. exists query. now split. }
    rewrite Hex in Hq. discriminate.
  - apply useDefaultScrapeTime_intervalsSet.
  - exact He.
Qed.

Lemma initArgparser_validates_witness :
  intervalsSet (opts (snd (initArgparser (worldOf (Parsed queryOfLetters)) initialState)))
  = true
  /\ Getenv (worldOf (Parsed queryOfLetters)) "AZURE_DEVOPS_FILTER_AGENTPOOL" = "".
Proof.
  exact (proj2 (proj2 (initArgparser_validates (worldOf (Parsed queryOfLetters))
                         initialState
                         (snd (initArgparser (worldOf (Parsed queryOfLetters)) initialState))
                         eq_refl))).
Defined.

(** X2: a parsed configuration with credentials, no token file, query
    filters of one ["@"] each and no deprecated environment variable is
    accepted without a line of output: [initArgparser] returns, and the
    only change to the options is the default scrape time. *)
Theorem initArgparser_accepts (w : World) (s0 : State) (o : Opts) :
  Parse w = Parsed o ->
  noTokenFile o = true ->
  credentialsMissing o = false ->
  (forall query, In query (QueriesWithProjects (AzureDevops o)) ->
                 Count query at_sign = 1%nat) ->
  Getenv w "AZURE_DEVOPS_FILTER_AGENTPOOL" = "" ->
  initArgparser w s0 = (Continue tt, withOpts (useDefaultScrapeTime o) s0).
Proof.
  intros Hp Hf Hc Hq He.
  apply (initArgparser_Continue w s0 (withOpts o s0) (withOpts o s0)).
  - now apply parseArguments_Parsed.
  - now apply loadAccessTokenFile_noTokenFile.
  - exact Hc.
  - cbn [opts withOpts].
    destruct (existsb malformedQuery (QueriesWithProjects (AzureDevops o))) eqn:E;
      [ | reflexivity].
    apply existsb_exists in E. destruct E as (query & Hin & Hm).
    apply malformedQuery_true in Hm. now contradiction (Hm (Hq query Hin)).
  - exact He.
Qed.

Lemma initArgparser_accepts_witness :
  initArgparser (worldOf (Parsed tokenAndEmptyFileName)) initialState
  = (Continue tt, withOpts (useDefaultScrapeTime tokenAndEmptyFileName) initialState).
Proof.
  apply (initArgparser_accepts (worldOf (Parsed tokenAndEmptyFileName)) initialState
           tokenAndEmptyFileName eq_refl eq_refl eq_refl).
  - intros query [].
  - reflexivity.
Defined.

(** X3: the deprecated environment variable is fatal on its own: with
    every other check passed, [main] ends with status 1 after the one
    line that names the variable, with no client, no collector and no
    serving. *)
Theorem deprecated_env_is_fatal (w : World) (s0 s1 s2 : State) :
  parseArguments w s0 = (Continue tt, s1) ->
  loadAccessTokenFile w s1 = (Continue tt, s2) ->
  credentialsMissing (opts s2) = false ->
  existsb malformedQuery (QueriesWithProjects (AzureDevops (opts s2))) = false ->
  Getenv w "AZURE_DEVOPS_FILTER_AGENTPOOL" <> "" ->
  main w s0
  = (Exit 1, logged (withOpts (useDefaultScrapeTime (opts s2)) s2) [deprecatedEnvMessage])
  /\ sameRuntime s0 (snd (main w s0)).
Proof.
  intros Hparse Hload Hc Hq He.
  assert (Hrun : initArgparser w s0
                 = (Exit 1, logged (withOpts (useDefaultScrapeTime (opts s2)) s2)
                              [deprecatedEnvMessage])).
  { rewrite (initArgparser_after_queries w s0 s1 s2 Hparse Hload Hc Hq).
    rewrite checkDeprecatedEnv_run. apply nonEmpty_true in He. now rewrite He. }
  split.
  - now apply main_initArgparser_Exit.
  - rewrite (main_initArgparser_Exit w s0 _ 1 Hrun). cbn [snd].
    pose proof (initArgparser_frame w s0) as F. now rewrite Hrun in F.
Qed.

Lemma deprecated_env_is_fatal_witness :
  main (withGetenv deprecatedEnv (worldOf (Parsed exampleOpts))) initialState
  = (Exit 1, logged (withOpts (useDefaultScrapeTime exampleOpts) initialState)
               [deprecatedEnvMessage])
  /\ sameRuntime initialState
       (snd (main (withGetenv deprecatedEnv (worldOf (Parsed exampleOpts))) initialState)).
Proof.
  apply (deprecated_env_is_fatal (withGetenv deprecatedEnv (worldOf (Parsed exampleOpts)))
           initialState (withOpts exampleOpts initialState)
           (withOpts exampleOpts initialState) eq_refl eq_refl eq_refl eq_refl).
  vm_compute. discriminate.
Defined.

(** X4: when a query filter is rejected, the validation message of
    every rejected filter is printed, in the order of the option, and
    none for an accepted filter; nothing else is written before the
    exit with status 1. *)
Theorem rejected_queries_are_all_reported (w : World) (s0 s1 s2 : State) :
  parseArguments w s0 = (Continue tt, s1) ->
  loadAccessTokenFile w s1 = (Continue tt, s2) ->
  credentialsMissing (opts s2) = false ->
  existsb malformedQuery (QueriesWithProjects (AzureDevops (opts s2))) = true ->
  fst (main w s0) = Exit 1
  /\ out (snd (main w s0))
     = out s2 ++ map malformedQueryMessage
                   (filter (fun query => negb (Nat.eqb (Count query at_sign) 1))
                      (QueriesWithProjects (AzureDevops (opts s2)))).
Proof.
  intros Hparse Hload Hc Hq.
  destruct (main_queries_exit w s0 s1 s2 Hparse Hload Hc Hq) as [-> _].
  split; reflexivity.
Qed.

Lemma rejected_queries_are_all_reported_witness :
  fst (main (worldOf (Parsed threeQueries)) initialState) = Exit 1
  /\ out (snd (main (worldOf (Parsed threeQueries)) initialState))
     = [malformedQueryMessage "no-at-sign"; malformedQueryMessage "two@at@signs"].
Proof.
  apply (rejected_queries_are_all_reported (worldOf (Parsed threeQueries)) initialState
           (withOpts threeQueries initialState) (withOpts threeQueries initialState)
           eq_refl eq_refl eq_refl eq_refl).
Defined.

(** ** [initMetricCollector], from its result *)

(** X5: [initMetricCollector] returns exactly when no interval it reads
    is nil and [Start] fails for no enabled collector; the collectors
    started since are then the enabled entries of the table, in its
    order, each with its interval, cache path and tag, and one
    "collector disabled" line is logged per entry that is not enabled. *)
Theorem initMetricCollector_returns (w : World) (s s' : State) :
  initMetricCollector w s = (Continue tt, s')
  <-> (forall e, In e collectorTable -> entryInterval (opts s) e <> None)
      /\ existsb (entryStartFails w (opts s)) collectorTable = false
      /\ s' = mkState (opts s) (AzureDevopsClient s)
                (started s ++ expectedCollectors w (opts s) collectorTable)
                (out s ++ disabledLog (opts s) collectorTable).
Proof.
  rewrite initMetricCollector_table. split.
  - intros H. destruct (startAll_Continue_inv w collectorTable s s' H) as (E & Hi & Hs).
    repeat split; assumption.
  - intros (Hi & Hs & ->). now apply startAll_run.
Qed.

(** The enabled entries of two configurations. *)
Example expectedCollectors_run :
  map Name (expectedCollectors (worldOf (Parsed exampleOpts))
              (useDefaultScrapeTime exampleOpts) collectorTable)
  = map tableName collectorTable
  /\ map Name (expectedCollectors (worldOf (Parsed someIntervalsSet))
                 (useDefaultScrapeTime someIntervalsSet) collectorTable)
     = ["AgentPool"; "LatestBuild"; "Repository"; "PullRequest"; "Build"; "Release";
        "Deployment"; "Stats"; "ResourceUsage"].
Proof. split; reflexivity. Qed.

(** X6: the first enabled collector whose [Start] fails ends the
    process with status 1: the enabled collectors before it in the
    table have been started, none after it is, and the error is the
    last line logged. *)
Theorem first_Start_failure_is_fatal (w : World) (s : State)
    (before after : list TableEntry) (e : TableEntry) (c : Collector) (msg : string) :
  collectorTable = before ++ e :: after ->
  (forall e', In e' before -> entryInterval (opts s) e' <> None) ->
  existsb (entryStartFails w (opts s)) before = false ->
  entryCollector w (opts s) e = Some c ->
  Start w c = Some msg ->
  initMetricCollector w s
  = (Exit 1,
     mkState (opts s) (AzureDevopsClient s)
       (started s ++ expectedCollectors w (opts s) before)
       ((out s ++ disabledLog (opts s) before)
        ++ [Log FatalLevel [] "" [ArgString msg]])).
Proof.
  intros Ht Hi Hs Hc Hst. rewrite initMetricCollector_table, Ht.
  now rewrite (startAll_fail w before s e after c msg Hi Hs Hc Hst).
Qed.

Lemma first_Start_failure_is_fatal_witness :
  fst (initMetricCollector (withStart releaseStartFails (worldOf (Parsed exampleOpts)))
         (withOpts (useDefaultScrapeTime exampleOpts) initialState))
  = Exit 1
  /\ map Name
       (started (snd (initMetricCollector
                        (withStart releaseStartFails (worldOf (Parsed exampleOpts)))
                        (withOpts (useDefaultScrapeTime exampleOpts) initialState))))
     = ["Project"; "AgentPool"; "LatestBuild"; "Repository"; "PullRequest"; "Build"].
Proof.
  rewrite (first_Start_failure_is_fatal
             (withStart releaseStartFails (worldOf (Parsed exampleOpts)))
             (withOpts (useDefaultScrapeTime exampleOpts) initialState)
             (firstn 6 collectorTable) (skipn 7 collectorTable)
             ("Release", MetricsCollectorRelease, "release.json", TimeRelease)
             (configuredCollector (withStart releaseStartFails (worldOf (Parsed exampleOpts)))
                (useDefaultScrapeTime exampleOpts) "Release" MetricsCollectorRelease
                "release.json" (1800 * Second))
             "cannot start" eq_refl).
  - split; reflexivity.
  - intros e' He'. cbn in He'.
    repeat (destruct He' as [<- | He']; [discriminate | ]). contradiction.
  - reflexivity.
  - reflexivity.
  - reflexivity.
Defined.

Lemma entryCollector_Name (w : World) (o : Opts) (e : TableEntry) (c : Collector) :
  entryCollector w o e = Some c -> Name c = tableName e.
Proof.
  destruct e as [[[n p] f] field]. unfold entryCollector.
  destruct (deref o (field (Scrape o))) as [d | ]; [ | discriminate].
  destruct (0 <? d)%Z; [ | discriminate].
  intros H. inversion H. reflexivity.
Qed.

(** The names of the collectors of a list of entries are the names of
    its enabled entries. *)
Lemma expectedCollectors_Name (w : World) (o : Opts) (name : string) (t : list TableEntry) :
  In name (map Name (expectedCollectors w o t))
  <-> exists e, In e t /\ tableName e = name /\ entryEnabled o e = true.
Proof.
  induction t as [ | e t IH].
  - cbn. split; [intros [] | intros (e & [] & _)].
  - rewrite expectedCollectors_cons, map_app, in_app_iff, IH. split.
    + intros [H | (e' & He' & Hn & Hen)].
      * destruct (entryCollector w o e) as [c | ] eqn:E; [ | contradiction H].
        destruct H as [<- | []]. exists e. split; [now left | ]. split.
        -- symmetry. now apply (entryCollector_Name w o).
        -- now rewrite (entryCollector_enabled w), E.
      * exists e'. split; [now right | now split].
    + intros (e' & [<- | He'] & Hn & Hen).
      * left. rewrite (entryCollector_enabled w) in Hen.
        destruct (entryCollector w o e) as [c | ] eqn:E; [ | discriminate].
        left. now rewrite (entryCollector_Name w o e c E).
      * right. exists e'. now split.
Qed.

Lemma newlyStarted_app (m : Proc unit) (s : State) (new : list Collector) :
  started (snd (m s)) = started s ++ new -> newlyStarted m s = new.
Proof.
  intros E. unfold newlyStarted. rewrite E.
  now rewrite skipn_app, skipn_all, Nat.sub_diag.
Qed.

Lemma LatestBuild_enabled (w : World) (o : Opts) :
  In "LatestBuild" (map Name (expectedCollectors w o collectorTable))
  <-> entryEnabled o ("LatestBuild", MetricsCollectorLatestBuild, "latestbuild.json", TimeBuild)
      = true.
Proof.
  rewrite expectedCollectors_Name. split.
  - intros (e & He & Hn & Hen). cbn in He.
    repeat (destruct He as [<- | He]; [first [discriminate Hn | exact Hen] | ]).
    contradiction.
  - intros H. eexists. split; [ | split; [ | exact H]]; [cbn; tauto | reflexivity].
Qed.

Lemma Build_enabled (w : World) (o : Opts) :
  In "Build" (map Name (expectedCollectors w o collectorTable))
  <-> entryEnabled o ("Build", MetricsCollectorBuild, "build.json", TimeBuild) = true.
Proof.
  rewrite expectedCollectors_Name. split.
  - intros (e & He & Hn & Hen). cbn in He.
    repeat (destruct He as [<- | He]; [first [discriminate Hn | exact Hen] | ]).
    contradiction.
  - intros H. eexists. split; [ | split; [ | exact H]]; [cbn; tauto | reflexivity].
Qed.

(** X7: the collectors "LatestBuild" and "Build" read the same
    interval, [opts.Scrape.TimeBuild]: when [initMetricCollector]
    returns, it has started the one exactly when it has started the
    other. *)
Theorem LatestBuild_started_iff_Build (w : World) (s s' : State) :
  initMetricCollector w s = (Continue tt, s') ->
  In "LatestBuild" (map Name (newlyStarted (initMetricCollector w) s))
  <-> In "Build" (map Name (newlyStarted (initMetricCollector w) s)).
Proof.
  intros H.
  rewrite (newlyStarted_app (initMetricCollector w) s
             (expectedCollectors w (opts s) collectorTable)).
  - rewrite LatestBuild_enabled, Build_enabled. reflexivity.
  - rewrite initMetricCollector_table in *.
    destruct (startAll_Continue_inv w collectorTable s s' H) as (E & _).
    rewrite H, E. reflexivity.
Qed.

Lemma LatestBuild_started_iff_Build_witness :
  In "LatestBuild"
    (map Name (newlyStarted (initMetricCollector (worldOf (Parsed someIntervalsSet)))
                 (withOpts (useDefaultScrapeTime someIntervalsSet) initialState)))
  <-> In "Build"
        (map Name (newlyStarted (initMetricCollector (worldOf (Parsed someIntervalsSet)))
                     (withOpts (useDefaultScrapeTime someIntervalsSet) initialState))).
Proof.
  apply (LatestBuild_started_iff_Build (worldOf (Parsed someIntervalsSet))
           (withOpts (useDefaultScrapeTime someIntervalsSet) initialState)
           (snd (initMetricCollector (worldOf (Parsed someIntervalsSet))
                   (withOpts (useDefaultScrapeTime someIntervalsSet) initialState)))).
  vm_compute. reflexivity.
Defined.

(** With every interval set, [initMetricCollector] returns or ends
    with the status of a failed [Start]. *)
Lemma initMetricCollector_intervalsSet (w : World) (s : State) :
  intervalsSet (opts s) = true ->
  (existsb (entryStartFails w (opts s)) collectorTable = false
   /\ initMetricCollector w s = (Continue tt, afterCalls w collectorTable s))
  \/ (existsb (entryStartFails w (opts s)) collectorTable = true
      /\ fst (initMetricCollector w s) = Exit 1).
Proof.
  intros Hset. rewrite initMetricCollector_table.
  destruct (existsb (entryStartFails w (opts s)) collectorTable) eqn:E.
  - right. split; [reflexivity | ].
    destruct (existsb_first _ _ E) as (before & e & after & Ht & Hb & He).
    unfold entryStartFails in He.
    destruct (entryCollector w (opts s) e) as [c | ] eqn:Hc; [ | discriminate].
    destruct (Start w c) as [msg | ] eqn:Hst; [ | discriminate].
    rewrite Ht.
    rewrite (startAll_fail w before s e after c msg); [reflexivity | | exact Hb | exact Hc | exact Hst].
    intros e' He'. apply intervalsSet_entryInterval; [exact Hset | ].
    rewrite Ht. apply in_or_app. now left.
  - left. split; [reflexivity | ]. apply startAll_run; [ | exact E].
    intros e He. now apply intervalsSet_entryInterval.
Qed.

(** X8: after [initArgparser] has returned, [initMetricCollector] never
    dereferences a nil interval: in any state with those options it
    returns, or ends with status 1 because a [Start] failed. *)
Theorem initMetricCollector_after_initArgparser (w : World) (s0 s s1 : State) :
  initArgparser w s0 = (Continue tt, s) ->
  opts s1 = opts s ->
  (existsb (entryStartFails w (opts s)) collectorTable = false
   /\ fst (initMetricCollector w s1) = Continue tt)
  \/ (existsb (entryStartFails w (opts s)) collectorTable = true
      /\ fst (initMetricCollector w s1) = Exit 1).
Proof.
  intros H Ho.
  destruct (initArgparser_Continue_Parsed w s0 s H) as (o & s2 & _ & _ & Hs & _).
  assert (Hset : intervalsSet (opts s1) = true).
  { rewrite Ho, Hs. apply useDefaultScrapeTime_intervalsSet. }
  rewrite <- Ho.
  destruct (initMetricCollector_intervalsSet w s1 Hset) as [[E R] | [E R]].
  - left. split; [exact E | now rewrite R].
  - right. now split.
Qed.

Lemma initMetricCollector_after_initArgparser_witness :
  (existsb (entryStartFails (worldOf (Parsed someIntervalsSet))
              (useDefaultScrapeTime someIntervalsSet)) collectorTable = false
   /\ fst (initMetricCollector (worldOf (Parsed someIntervalsSet))
             (withOpts (useDefaultScrapeTime someIntervalsSet) initialState))
      = Continue tt)
  \/ (existsb (entryStartFails (worldOf (Parsed someIntervalsSet))
                 (useDefaultScrapeTime someIntervalsSet)) collectorTable = true
      /\ fst (initMetricCollector (worldOf (Parsed someIntervalsSet))
                (withOpts (useDefaultScrapeTime someIntervalsSet) initialState))
         = Exit 1).
Proof.
  apply (initMetricCollector_after_initArgparser (worldOf (Parsed someIntervalsSet))
           initialState (withOpts (useDefaultScrapeTime someIntervalsSet) initialState)
           (withOpts (useDefaultScrapeTime someIntervalsSet) initialState)
           eq_refl eq_refl).
Defined.

(** ** [initAzureDevOpsConnection], from its result *)

Lemma setenvIfSet_cases (w : World) (key value : string) (s : State) :
  setenvIfSet w key value s
  = if exportFails w (key, value)
    then (Exit 2, s)
    else (Continue tt, logged s (setenvLog key value)).
Proof.
  unfold setenvIfSet, exportFails, setenvLog. cbn [fst snd].
  destruct (nonEmpty value); cbn [andb].
  - destruct (SetenvFails w key value); [reflexivity | apply emit_logged].
  - now rewrite logged_nil.
Qed.

Lemma setenvLog_quiet (key value : string) :
  existsb isListenAndServe (setenvLog key value) = false.
Proof. unfold setenvLog. destruct (nonEmpty value); reflexivity. Qed.

(** Lines 166-183: the three exports succeed, or the first that fails
    ends the process with status 2. *)
Lemma exportCredentials_cases (w : World) (o : Opts) (s : State) :
  (existsb (exportFails w) (exports o) = false
   /\ exportCredentials w o s
      = (Continue tt,
         logged s (setenvLog "AZURE_TENANT_ID" (TenantId (Azure o))
                   ++ setenvLog "AZURE_CLIENT_ID" (ClientId (Azure o))
                   ++ setenvLog "AZURE_CLIENT_SECRET" (ClientSecret (Azure o)))))
  \/ (existsb (exportFails w) (exports o) = true
      /\ exists es, exportCredentials w o s = (Exit 2, logged s es)
                    /\ existsb isListenAndServe es = false).
Proof.
  remember (exportCredentials w o s) as r eqn:Hr.
  unfold exportCredentials in Hr. unfold exports. cbn [existsb].
  unfold bind at 1 in Hr. rewrite setenvIfSet_cases in Hr.
  destruct (exportFails w ("AZURE_TENANT_ID", _)); cbn [orb].
  { right. split; [reflexivity | ]. exists []. rewrite logged_nil. now split. }
  unfold bind at 1 in Hr. rewrite setenvIfSet_cases in Hr.
  destruct (exportFails w ("AZURE_CLIENT_ID", _)); cbn [orb].
  { right. split; [reflexivity | ]. eexists. split; [exact Hr | ].
    apply setenvLog_quiet. }
  rewrite setenvIfSet_cases in Hr.
  destruct (exportFails w ("AZURE_CLIENT_SECRET", _)); cbn [orb].
  { right. split; [reflexivity | ]. rewrite logged_logged in Hr.
    eexists. split; [exact Hr | ]. rewrite existsb_app, !setenvLog_quiet. reflexivity. }
  left. split; [reflexivity | ]. rewrite !logged_logged in Hr.
  rewrite Hr. rewrite <- ?app_assoc. reflexivity.
Qed.

Lemma usingLog_quiet (o : Opts) : existsb isListenAndServe (usingLog o) = false.
Proof. reflexivity. Qed.

(** The function up to the choice of the authentication mode: a failed
    export ends the process with status 2, the client created and the
    lines so far logged. *)
Lemma initAzureDevOpsConnection_exports (w : World) (s : State) :
  (existsb (exportFails w) (exports (opts s)) = false
   /\ initAzureDevOpsConnection w s
      = (a <- chooseAuth w (opts s) ;; putClient (clientOf (opts s) a))
          (withClient (clientBeforeAuth (opts s)) (logged s (connectionLog (opts s)))))
  \/ (existsb (exportFails w) (exports (opts s)) = true
      /\ exists es, initAzureDevOpsConnection w s
                    = (Exit 2, withClient (freshClient (opts s)) (logged s es))
                    /\ existsb isListenAndServe es = false).
Proof.
  rewrite initAzureDevOpsConnection_head.
  destruct (exportCredentials_cases w (opts s)
              (withClient (freshClient (opts s)) (logged s (usingLog (opts s)))))
    as [[E R] | [E (es & R & Q)]].
  - left. split; [exact E | ].
    rewrite (bind_Continue _ _ _ _ _ R).
    rewrite configureClient_run by reflexivity.
    f_equal. unfold withClient, logged, connectionLog, usingLog.
    cbn [opts AzureDevopsClient started out]. rewrite <- ?app_assoc. reflexivity.
  - right. split; [exact E | ]. exists (usingLog (opts s) ++ es). split.
    + rewrite (bind_Exit _ _ _ _ _ R). f_equal.
      unfold withClient, logged. cbn [opts AzureDevopsClient started out].
      rewrite <- ?app_assoc. reflexivity.
    + rewrite existsb_app, Q. reflexivity.
Qed.

Lemma chooseAuth_cases (w : World) (o : Opts) (s : State) :
  (exists a, chosenAuth w o a /\ chooseAuth w o s = (Continue a, s))
  \/ (exists msg, AccessToken (AzureDevops o) = "" /\ UseAzAuth w = Some msg
                  /\ chooseAuth w o s = (Exit 1, logged s [Log FatalLevel [] msg []])).
Proof.
  unfold chosenAuth.
  destruct (String.eqb_spec (AccessToken (AzureDevops o)) "") as [E | E].
  - rewrite (chooseAuth_azure w o s E). destruct (UseAzAuth w) as [msg | ] eqn:Haz.
    + right. exists msg. now repeat split.
    + left. exists AuthAzure. split; [right; now repeat split | reflexivity].
  - left. eexists. split; [left; split; [exact E | reflexivity] | ].
    now apply chooseAuth_token.
Qed.

Lemma chosenAuth_unique (w : World) (o : Opts) (a b : AuthMode) :
  chosenAuth w o a -> chosenAuth w o b -> a = b.
Proof.
  unfold chosenAuth. intros [[H1 ->] | (H1 & _ & ->)] [[H2 ->] | (H2 & _ & ->)];
    first [reflexivity | now contradiction H1 | now contradiction H2].
Qed.

(** X9: [initAzureDevOpsConnection] returns exactly when no export to
    the environment fails and an authentication mode can be chosen (a
    token is supplied, or [UseAzAuth] succeeds); the client it leaves
    holds the organization, API version, concurrency, retries and the
    seven result-count limits of [opts] unchanged, and [opts], the
    collectors and the serving are as before. *)
Theorem initAzureDevOpsConnection_returns (w : World) (s s' : State) :
  initAzureDevOpsConnection w s = (Continue tt, s')
  <-> existsb (exportFails w) (exports (opts s)) = false
      /\ exists a,
           chosenAuth w (opts s) a
           /\ s' = withClient (clientOf (opts s) a) (logged s (connectionLog (opts s))).
Proof.
  destruct (initAzureDevOpsConnection_exports w s) as [[E R] | [E (es & R & _)]];
    rewrite R, E.
  - destruct (chooseAuth_cases w (opts s)
                (withClient (clientBeforeAuth (opts s)) (logged s (connectionLog (opts s)))))
      as [(a & Ha & Hc) | (msg & Htok & Haz & Hc)].
    + rewrite (bind_Continue _ _ _ _ _ Hc).
      change (putClient (clientOf (opts s) a)
                (withClient (clientBeforeAuth (opts s)) (logged s (connectionLog (opts s)))))
        with (Continue tt,
              withClient (clientOf (opts s) a) (logged s (connectionLog (opts s)))).
      split.
      * intros H. inversion H. split; [reflexivity | ]. exists a. now split.
      * intros (_ & b & Hb & ->). now rewrite (chosenAuth_unique w _ _ _ Ha Hb).
    + rewrite (bind_Exit _ _ _ _ _ Hc). split; [discriminate | ].
      intros (_ & b & [[Hb _] | (_ & Hb & _)] & _); [now contradiction Hb | congruence].
  - split; [discriminate | ]. intros [H _]. discriminate.
Qed.

(** X10: a failing [os.Setenv] is the one way [initAzureDevOpsConnection]
    ends with status 2 (a panic): it does so exactly when the tenant
    id, the client id or the client secret is non-empty and its export
    fails; an empty value is never exported.  The client exists then,
    created at line 156, but [opts] is unchanged, no collector is
    started and nothing is served. *)
Theorem initAzureDevOpsConnection_panics (w : World) (s : State) :
  (fst (initAzureDevOpsConnection w s) = Exit 2
   <-> existsb (exportFails w) (exports (opts s)) = true)
  /\ (fst (initAzureDevOpsConnection w s) = Exit 2 ->
      sameSetup s (snd (initAzureDevOpsConnection w s))
      /\ AzureDevopsClient (snd (initAzureDevOpsConnection w s)) <> None).
Proof.
  destruct (initAzureDevOpsConnection_exports w s) as [[E R] | [E (es & R & Q)]];
    rewrite R, E.
  - assert (N : fst ((a <- chooseAuth w (opts s) ;; putClient (clientOf (opts s) a))
                       (withClient (clientBeforeAuth (opts s))
                          (logged s (connectionLog (opts s))))) <> Exit 2).
    { destruct (chooseAuth_cases w (opts s)
                  (withClient (clientBeforeAuth (opts s))
                     (logged s (connectionLog (opts s)))))
        as [(a & _ & Hc) | (msg & _ & _ & Hc)].
      - rewrite (bind_Continue _ _ _ _ _ Hc). discriminate.
      - rewrite (bind_Exit _ _ _ _ _ Hc). discriminate. }
    split; [split; [intros H; now contradiction N | discriminate] | ].
    intros H. now contradiction N.
  - split; [split; reflexivity | ]. intros _. cbn [snd]. split; [ | discriminate].
    repeat split. now apply (serving_logged s).
Qed.

Lemma initAzureDevOpsConnection_panics_witness :
  fst (initAzureDevOpsConnection
         (withSetenvFails secretSetenvFails (worldOf (Parsed servicePrincipal)))
         (withOpts servicePrincipal initialState))
  = Exit 2
  /\ fst (initAzureDevOpsConnection
            (withSetenvFails secretSetenvFails (worldOf (Parsed servicePrincipalWithoutSecret)))
            (withOpts servicePrincipalWithoutSecret initialState))
     <> Exit 2.
Proof.
  split.
  - apply (proj1 (initAzureDevOpsConnection_panics
                    (withSetenvFails secretSetenvFails (worldOf (Parsed servicePrincipal)))
                    (withOpts servicePrincipal initialState))).
    reflexivity.
  - intros H.
    apply (proj1 (initAzureDevOpsConnection_panics
                    (withSetenvFails secretSetenvFails
                       (worldOf (Parsed servicePrincipalWithoutSecret)))
                    (withOpts servicePrincipalWithoutSecret initialState))) in H.
    discriminate H.
Defined.

(** In every outcome, [initAzureDevOpsConnection] keeps [opts], the
    collectors and the serving. *)
Lemma initAzureDevOpsConnection_sameSetup (w : World) (s : State) :
  sameSetup s (snd (initAzureDevOpsConnection w s)).
Proof.
  destruct (initAzureDevOpsConnection_exports w s) as [[E R] | [E (es & R & Q)]];
    rewrite R.
  - destruct (chooseAuth_cases w (opts s)
                (withClient (clientBeforeAuth (opts s)) (logged s (connectionLog (opts s)))))
      as [(a & _ & Hc) | (msg & _ & _ & Hc)].
    + rewrite (bind_Continue _ _ _ _ _ Hc). cbn.
      repeat split. apply (serving_logged s), connectionLog_quiet.
    + rewrite (bind_Exit _ _ _ _ _ Hc). cbn [snd].
      repeat split.
      rewrite serving_logged by reflexivity.
      apply (serving_logged s), connectionLog_quiet.
  - cbn [snd]. repeat split. now apply (serving_logged s).
Qed.

(** ** [main], from its result *)

Lemma updateServiceDiscovery_run (w : World) (s : State) :
  updateServiceDiscovery w s
  = match ServiceDiscoveryExit w with
    | Some code => (Exit code, logged s [ServiceDiscoveryUpdate])
    | None => (Continue tt, logged s [ServiceDiscoveryUpdate])
    end.
Proof.
  unfold updateServiceDiscovery, bind. rewrite emit_logged.
  destruct (ServiceDiscoveryExit w); reflexivity.
Qed.

Lemma startHttpServer_run (w : World) (s : State) :
  (o <- getOpts ;;
   Infof "starting http server on %s" [ArgString (Bind (Server o))] ;;
   startHttpServer w) s
  = served w (logged s (servingLog (opts s))).
Proof.
  unfold startHttpServer, served, serve, Infof, bind, getOpts. rewrite !emit_logged.
  cbn [logged opts]. rewrite !logged_logged.
  destruct (ServerError w); reflexivity.
Qed.

(** [main] after the connection, with every interval set: it serves, or
    it ends before serving with the code of the service discovery or
    with status 1 for a failed [Start]. *)
Lemma afterConnection_cases (w : World) (s : State) :
  intervalsSet (opts s) = true ->
  (ServiceDiscoveryExit w = None
   /\ existsb (entryStartFails w (opts s)) collectorTable = false
   /\ afterConnection w s
      = served w
          (logged (afterCalls w collectorTable (logged s discoveryLog)) (servingLog (opts s))))
  \/ (exists code s',
         afterConnection w s = (Exit code, s')
         /\ serving s' = serving s
         /\ (ServiceDiscoveryExit w = Some code
             \/ (ServiceDiscoveryExit w = None
                 /\ existsb (entryStartFails w (opts s)) collectorTable = true
                 /\ code = 1))).
Proof.
  intros Hset. remember (afterConnection w s) as r eqn:Hr.
  unfold afterConnection in Hr. unfold bind at 1 in Hr.
  rewrite updateServiceDiscovery_run in Hr.
  destruct (ServiceDiscoveryExit w) as [code | ].
  { right. exists code, (logged s [ServiceDiscoveryUpdate]).
    split; [exact Hr | ]. split; [now apply serving_logged | now left]. }
  unfold Info in Hr. unfold bind at 1 in Hr. rewrite emit_logged, logged_logged in Hr.
  cbn [app] in Hr. fold discoveryLog in Hr.
  unfold bind at 1 in Hr.
  destruct (initMetricCollector_intervalsSet w (logged s discoveryLog) Hset)
    as [[E R] | [E R]]; cbn [logged opts] in E.
  - left. rewrite R in Hr. rewrite startHttpServer_run in Hr. now repeat split.
  - right. pose proof (initMetricCollector_sameServing w (logged s discoveryLog)) as Q.
    destruct (initMetricCollector w (logged s discoveryLog)) as [[[] | code | ] s'];
      cbn [fst snd] in R, Q; [discriminate | | discriminate].
    inversion R; subst code. exists 1, s'. split; [exact Hr | ]. split.
    + rewrite Q. now apply serving_logged.
    + right. now repeat split.
Qed.

Lemma initArgparser_Exit_Parsed (w : World) (s0 s : State) (o : Opts) (code : Z) :
  Parse w = Parsed o -> initArgparser w s0 = (Exit code, s) -> code = 1.
Proof.
  intros Hp H. pose proof (parseArguments_Parsed w s0 o Hp) as Hparse.
  destruct (loadAccessTokenFile w (withOpts o s0)) as [[[] | c | ] s2] eqn:Hload.
  3:{ pose proof (loadAccessTokenFile_never_Serves w (withOpts o s0)) as N.
      rewrite Hload in N. now contradiction N. }
  - rewrite (initArgparser_after_load w s0 _ s2 Hparse Hload) in H.
    unfold bind in H. rewrite checkCredentials_run in H.
    destruct (credentialsMissing (opts s2)); [now inversion H | ].
    rewrite checkQueries_run in H. cbn zeta in H.
    destruct (existsb malformedQuery _); [now inversion H | ].
    cbn in H. rewrite checkDeprecatedEnv_run in H.
    destruct (nonEmpty _); [now inversion H | discriminate].
  - rewrite (initArgparser_load_exit w s0 _ s2 Hparse c Hload) in H.
    inversion H; subst. now apply (loadAccessTokenFile_Exit w _ _ _ Hload).
Qed.

Lemma exports_succeed (w : World) (o : Opts) :
  (forall key value, SetenvFails w key value = false) ->
  existsb (exportFails w) (exports o) = false.
Proof.
  intros H. unfold exports, exportFails. cbn. now rewrite !H, !andb_false_r.
Qed.

(** [main] once [initArgparser] has returned: the three ways it goes
    on. *)
Lemma afterArguments_cases (w : World) (s0 s : State) :
  initArgparser w s0 = (Continue tt, s) ->
  let s3 a := withClient (clientOf (opts s) a)
                (logged s (startupLog (opts s) ++ connectionLog (opts s))) in
  (exists a, chosenAuth w (opts s) a
             /\ existsb (exportFails w) (exports (opts s)) = false
             /\ main w s0 = afterConnection w (s3 a))
  \/ (exists code s', main w s0 = (Exit code, s')
                      /\ serving s' = serving s
                      /\ (code = 1 \/ (code = 2
                                       /\ existsb (exportFails w) (exports (opts s)) = true))).
Proof.
  intros Hargs s3.
  rewrite (main_initArgparser_Continue w s0 s Hargs), afterArguments_run.
  set (sL := logged s (startupLog (opts s))).
  assert (HL : serving sL = serving s) by (now apply serving_logged).
  destruct (initAzureDevOpsConnection_exports w sL) as [[E R] | [E (es & R & Q)]].
  - destruct (chooseAuth_cases w (opts sL)
                (withClient (clientBeforeAuth (opts sL)) (logged sL (connectionLog (opts sL)))))
      as [(a & Ha & Hc) | (msg & _ & _ & Hc)].
    + left. exists a. split; [exact Ha | ]. split; [exact E | ].
      erewrite bind_Continue.
      2:{ rewrite R. erewrite bind_Continue by exact Hc. reflexivity. }
      subst s3 sL. unfold withClient. cbn [logged opts AzureDevopsClient started out].
      now rewrite <- ?app_assoc.
    + right. eexists 1, _. split.
      * apply bind_Exit. rewrite R. apply bind_Exit. exact Hc.
      * split; [ | now left]. rewrite serving_logged by reflexivity.
        rewrite <- HL. apply (serving_logged sL), connectionLog_quiet.
  - right. exists 2, (withClient (freshClient (opts sL)) (logged sL es)).
    split; [now apply bind_Exit | ].
    split; [ | right; now split]. rewrite <- HL. now apply (serving_logged sL).
Qed.

(** X11: [main] never returns.  With [os.Setenv] working and the
    service discovery returning, it ends with status 0 exactly when
    the parser reports a request for help; in every other case it ends
    with status 1, or it is serving, which it does only while
    [ListenAndServe] reports no error. *)
Theorem main_exit_status (w : World) (s0 : State) :
  (forall key value, SetenvFails w key value = false) ->
  ServiceDiscoveryExit w = None ->
  (Parse w = ParseFailed (FlagsError ErrHelp) /\ fst (main w s0) = Exit 0)
  \/ (Parse w <> ParseFailed (FlagsError ErrHelp) /\ fst (main w s0) = Exit 1)
  \/ (Parse w <> ParseFailed (FlagsError ErrHelp)
      /\ fst (main w s0) = Serves
      /\ ServerError w = None
      /\ serving (snd (main w s0)) = true).
Proof.
  intros Henv Hsd. destruct (Parse w) as [o | err] eqn:Hp.
  - right.
    destruct (initArgparser w s0) as [[[] | code | ] s] eqn:Ha.
    3:{ pose proof (initArgparser_never_Serves w s0) as N.
        rewrite Ha in N. now contradiction N. }
    + destruct (afterArguments_cases w s0 s Ha)
        as [(a & _ & _ & R) | (code & s' & R & _ & [-> | [_ E]])].
      * rewrite R.
        match goal with |- context [afterConnection w ?st] =>
          assert (Hset : intervalsSet (opts st) = true) end.
        { destruct (initArgparser_Continue_Parsed w s0 s Ha) as (o' & s2 & _ & _ & -> & _).
          apply useDefaultScrapeTime_intervalsSet. }
        destruct (afterConnection_cases w _ Hset)
          as [(_ & _ & ->) | (code & s' & -> & _ & [Hs | (_ & _ & ->)])].
        -- unfold served. destruct (ServerError w) as [msg | ].
           ++ left. split; [discriminate | reflexivity].
           ++ right. split; [discriminate | ]. split; [reflexivity | ].
              split; [reflexivity | ]. cbn [snd]. unfold serving, logged, servingLog.
              cbn [out]. rewrite existsb_app. cbn. apply orb_true_r.
        -- congruence.
        -- left. split; [discriminate | reflexivity].
      * left. rewrite R. split; [discriminate | reflexivity].
      * rewrite (exports_succeed w _ Henv) in E. discriminate.
    + left. split; [discriminate | ].
      rewrite (main_initArgparser_Exit w s0 s code Ha).
      now rewrite (initArgparser_Exit_Parsed w s0 s o code Hp Ha).
  - pose proof (parseArguments_ParseFailed w s0 err Hp) as Hparse.
    destruct err as [[ | n] | ]; cbn [isErrHelp] in Hparse;
      rewrite (main_initArgparser_Exit w s0 _ _
                 (initArgparser_parse_exit w s0 _ _ Hparse));
      [left | right; left | right; left]; split; try reflexivity; discriminate.
Qed.

Lemma main_exit_status_witness :
  (Parse (withServerError (Some "bind: address already in use") (worldOf (Parsed exampleOpts)))
   = ParseFailed (FlagsError ErrHelp)
   /\ fst (main (withServerError (Some "bind: address already in use")
                   (worldOf (Parsed exampleOpts))) initialState) = Exit 0)
  \/ (Parse (withServerError (Some "bind: address already in use")
               (worldOf (Parsed exampleOpts)))
      <> ParseFailed (FlagsError ErrHelp)
      /\ fst (main (withServerError (Some "bind: address already in use")
                      (worldOf (Parsed exampleOpts))) initialState) = Exit 1)
  \/ (Parse (withServerError (Some "bind: address already in use")
               (worldOf (Parsed exampleOpts)))
      <> ParseFailed (FlagsError ErrHelp)
      /\ fst (main (withServerError (Some "bind: address already in use")
                      (worldOf (Parsed exampleOpts))) initialState) = Serves
      /\ ServerError (withServerError (Some "bind: address already in use")
                        (worldOf (Parsed exampleOpts))) = None
      /\ serving (snd (main (withServerError (Some "bind: address already in use")
                               (worldOf (Parsed exampleOpts))) initialState)) = true).
Proof.
  apply (main_exit_status
           (withServerError (Some "bind: address already in use")
              (worldOf (Parsed exampleOpts)))
           initialState (fun _ _ => eq_refl) eq_refl).
Defined.

(** X12: the process serves only after the whole startup: when a run
    of [main] from the initial state has begun to serve, the arguments
    were parsed and carry credentials, the client exists with the
    authentication mode chosen from them, [Start] has failed for no
    collector, and the collectors started are exactly the enabled
    entries of the table, in its order.  The run then keeps serving,
    or ends with status 1 when [ListenAndServe] returns an error. *)
Theorem serving_only_after_startup (w : World) (r : Result unit) (final : State) :
  main w initialState = (r, final) ->
  serving final = true ->
  exists o a,
    Parse w = Parsed o
    /\ r = match ServerError w with Some _ => Exit 1 | None => Serves end
    /\ credentialsMissing (opts final) = false
    /\ chosenAuth w (opts final) a
    /\ AzureDevopsClient final = Some (clientOf (opts final) a)
    /\ existsb (entryStartFails w (opts final)) collectorTable = false
    /\ started final = expectedCollectors w (opts final) collectorTable.
Proof.
  intros Hmain Hserving.
  destruct (initArgparser w initialState) as [[[] | code | ] s] eqn:Ha.
  3:{ pose proof (initArgparser_never_Serves w initialState) as N.
      rewrite Ha in N. now contradiction N. }
  2:{ rewrite (main_initArgparser_Exit w _ s code Ha) in Hmain. injection Hmain as Hr Hf; subst r final.
      pose proof (initArgparser_frame w initialState) as (_ & _ & F).
      rewrite Ha in F. cbn [snd] in F. rewrite F in Hserving. discriminate. }
  pose proof (initArgparser_frame w initialState) as (_ & Fst & Fsv).
  rewrite Ha in Fst, Fsv. cbn [snd] in Fst, Fsv.
  destruct (initArgparser_Continue_Parsed w initialState s Ha)
    as (o & s2 & Hp & _ & Hs & Hc & _).
  assert (Hset : intervalsSet (opts s) = true).
  { rewrite Hs. apply useDefaultScrapeTime_intervalsSet. }
  assert (Hcred : credentialsMissing (opts s) = false) by (rewrite Hs; exact Hc).
  destruct (afterArguments_cases w initialState s Ha)
    as [(a & Hauth & _ & R) | (code & s' & R & Q & _)].
  2:{ rewrite R in Hmain. injection Hmain as Hr Hf; subst r final.
      rewrite Q, Fsv in Hserving. discriminate. }
  rewrite R in Hmain.
  match type of Hmain with afterConnection w ?st = _ =>
    destruct (afterConnection_cases w st Hset)
      as [(_ & Hst & R') | (code & s' & R' & Q & _)] end.
  2:{ rewrite R' in Hmain. injection Hmain as Hr Hf; subst r final.
      rewrite Q in Hserving.
      change (serving (logged s (startupLog (opts s) ++ connectionLog (opts s))) = true)
        in Hserving.
      rewrite serving_logged, Fsv in Hserving; [discriminate | ].
      rewrite existsb_app, connectionLog_quiet. reflexivity. }
  rewrite R' in Hmain. unfold served in Hmain.
  destruct (ServerError w) as [msg | ]; injection Hmain as Hr Hf; subst r final;
    exists o, a; cbn [logged afterCalls withClient opts AzureDevopsClient started] in *;
    repeat (split; [assumption || reflexivity | ]);
    rewrite Fst; reflexivity.
Qed.

Lemma serving_only_after_startup_witness :
  exists o a,
    Parse (worldOf (Parsed someIntervalsSet)) = Parsed o
    /\ fst (main (worldOf (Parsed someIntervalsSet)) initialState) = Serves
    /\ credentialsMissing
         (opts (snd (main (worldOf (Parsed someIntervalsSet)) initialState))) = false
    /\ chosenAuth (worldOf (Parsed someIntervalsSet))
         (opts (snd (main (worldOf (Parsed someIntervalsSet)) initialState))) a
    /\ AzureDevopsClient (snd (main (worldOf (Parsed someIntervalsSet)) initialState))
       = Some (clientOf
                 (opts (snd (main (worldOf (Parsed someIntervalsSet)) initialState))) a)
    /\ existsb (entryStartFails (worldOf (Parsed someIntervalsSet))
                  (opts (snd (main (worldOf (Parsed someIntervalsSet)) initialState))))
         collectorTable = false
    /\ started (snd (main (worldOf (Parsed someIntervalsSet)) initialState))
       = expectedCollectors (worldOf (Parsed someIntervalsSet))
           (opts (snd (main (worldOf (Parsed someIntervalsSet)) initialState)))
           collectorTable.
Proof.
  apply (serving_only_after_startup (worldOf (Parsed someIntervalsSet))
           (fst (main (worldOf (Parsed someIntervalsSet)) initialState))
           (snd (main (worldOf (Parsed someIntervalsSet)) initialState))).
  - apply surjective_pairing.
  - reflexivity.
Defined.

(** X13: the token of the file replaces the direct token even when it
    is empty after trimming: with such a file and no tenant id or no
    client id, startup fails for missing credentials although a token
    was supplied directly. *)
Theorem blank_token_file_discards_the_token (w : World) (s0 s1 : State)
    (file val : string) :
  parseArguments w s0 = (Continue tt, s1) ->
  AccessTokenFile (AzureDevops (opts s1)) = Some file ->
  file <> "" ->
  ReadFile w file = Some val ->
  TrimSpace w val = "" ->
  TenantId (Azure (opts s1)) = "" \/ ClientId (Azure (opts s1)) = "" ->
  main w s0
  = (Exit 1,
     logged (withOpts (setAccessToken "" (opts s1)) (logged s1 [readingTokenFile file]))
       [credentialsMissingMessage]).
Proof.
  intros Hparse Hfile Hne Hread Htrim Hsp.
  pose proof (loadAccessTokenFile_read w s1 file val Hfile Hne Hread) as Hload.
  rewrite Htrim in Hload.
  apply (main_credentials_fatal w s0 s1 _ Hparse Hload).
  unfold credentialsMissing. cbn. apply orb_true_iff.
  destruct Hsp as [H | H]; [left | right]; now apply lenIsZero_true.
Qed.

Lemma blank_token_file_discards_the_token_witness :
  AccessToken (AzureDevops tokenAndTokenFile) = "direct"
  /\ main (blankTokenFile (worldOf (Parsed tokenAndTokenFile))) initialState
     = (Exit 1,
        logged (withOpts (setAccessToken "" tokenAndTokenFile)
                  (logged (withOpts tokenAndTokenFile initialState)
                     [readingTokenFile "/run/secrets/token"]))
          [credentialsMissingMessage]).
Proof.
  split; [reflexivity | ].
  apply (blank_token_file_discards_the_token
           (blankTokenFile (worldOf (Parsed tokenAndTokenFile))) initialState
           (withOpts tokenAndTokenFile initialState) "/run/secrets/token" "  "
           eq_refl eq_refl).
  - discriminate.
  - reflexivity.
  - reflexivity.
  - left. reflexivity.
Defined.
